(** * SQLite Manager: the configuration store of [sql_database.py]

    A shallow embedding of the [Database] class (the three-table store
    behind the Tk front end), of the SQLite statements it issues, of the
    [json] encoding it applies to list-valued fields, and of the row
    decoding done by [TableFrame.refresh].

    Conventions.
    - A Python [str] is the list of its code points ([N]); a Python [int]
      is a [Z]; a [bool] is a [bool].
    - The database engine and the [json] module are libraries: they are
      embedded by the behaviour the program relies on.  The engine
      interprets the schema that [_create_tables] declares, so that every
      constraint proved below is one that the DDL text states.
    - A statement that violates a constraint is undone by the engine and
      raises; the connection is then as it was before the statement.
    - A connection sees its own uncommitted writes, so [commit] does not
      change what any later statement of the same connection observes; the
      connection state is the visible content of the three tables, each
      with its [sqlite_sequence] entry.
    - An INTEGER cell holds a [Z].  A parameter is bound before its
      statement runs: an [int] outside the 64 bits of the engine and a
      [str] that UTF-8 cannot encode raise there.  Every parameter the
      program binds has the declared type of its column, so no affinity
      conversion takes place.
    - A database file is one that this program wrote: a table found in
      it has the declaration that [_create_tables] gives it. *)

From Stdlib Require Import List ZArith NArith String Ascii Bool Lia.
Import ListNotations.

(** ** Python values *)

Definition str := list N.

(** A literal of the source text, as a [str]. *)
Definition lit (s : string) : str :=
  map N_of_ascii (list_ascii_of_string s).

Fixpoint str_eqb (a b : str) : bool :=
  match a, b with
  | [], [] => true
  | x :: a', y :: b' => N.eqb x y && str_eqb a' b'
  | _, _ => false
  end.

(** [sep.join(l)] *)
Fixpoint join (sep : str) (l : list str) : str :=
  match l with
  | [] => []
  | [x] => x
  | x :: r => x ++ sep ++ join sep r
  end.

(** A Python object held in one position of a row tuple. *)
Inductive field :=
| FNone
| FInt (z : Z)
| FStr (s : str)
| FBool (b : bool)
| FList (l : list str).

(** What a method of [Database] returns: [None], an [int], or a list of
    row tuples. *)
Inductive pyval :=
| PNone
| PInt (z : Z)
| PRows (rows : list (list field)).

(** ** The [json] module, on lists of strings *)

Module json.
Local Open Scope N_scope.

(** One digit of ['{0:04x}'.format(n)]. *)
Definition hexdigit (d : N) : N := if d <? 10 then 48 + d else 87 + d.

(** ['{0:04x}'.format(n)], for [n < 0x10000] (the only use). *)
Definition format_04x (n : N) : str :=
  [hexdigit (n / 4096 mod 16); hexdigit (n / 256 mod 16);
   hexdigit (n / 16 mod 16); hexdigit (n mod 16)].

(** The escape of one character matched by [ESCAPE_ASCII]:
    [ESCAPE_DCT] first, then [\uXXXX], then a surrogate pair. *)
Definition replace (c : N) : str :=
  if c =? 92 then [92; 92]
  else if c =? 34 then [92; 34]
  else if c =? 8 then [92; 98]
  else if c =? 12 then [92; 102]
  else if c =? 10 then [92; 110]
  else if c =? 13 then [92; 114]
  else if c =? 9 then [92; 116]
  else if c <? 65536 then 92 :: 117 :: format_04x c
  else
    let n := c - 65536 in
    let s1 := N.lor 55296 (N.land (N.shiftr n 10) 1023) in
    let s2 := N.lor 56320 (N.land n 1023) in
    (92 :: 117 :: format_04x s1) ++ (92 :: 117 :: format_04x s2).

(** [ESCAPE_ASCII]: a backslash, a quote and every character outside
    the range from space to tilde are replaced; the others are copied. *)
Definition escape_ascii (c : N) : str :=
  if (32 <=? c) && (c <=? 126) && negb (c =? 92) && negb (c =? 34)
  then [c] else replace c.

Definition py_encode_basestring_ascii (s : str) : str :=
  34 :: flat_map escape_ascii s ++ [34].

(** [json.dumps(l)] for a list of strings [l]: default separators,
    [ensure_ascii=True]. *)
Definition dumps (l : list str) : str :=
  91 :: join [44; 32] (map py_encode_basestring_ascii l) ++ [93].

(** Decoding. *)

Definition hexval (c : N) : option N :=
  if (48 <=? c) && (c <=? 57) then Some (c - 48)
  else if (97 <=? c) && (c <=? 102) then Some (c - 87)
  else if (65 <=? c) && (c <=? 70) then Some (c - 55)
  else None.

Definition _decode_uXXXX (a b c d : N) : option N :=
  match hexval a, hexval b, hexval c, hexval d with
  | Some x, Some y, Some z, Some w => Some (((x * 16 + y) * 16 + z) * 16 + w)
  | _, _, _, _ => None
  end.

(** The [BACKSLASH] table. *)
Definition BACKSLASH (c : N) : option N :=
  if c =? 34 then Some 34
  else if c =? 92 then Some 92
  else if c =? 47 then Some 47
  else if c =? 98 then Some 8
  else if c =? 102 then Some 12
  else if c =? 110 then Some 10
  else if c =? 114 then Some 13
  else if c =? 116 then Some 9
  else None.

Definition is_high_surrogate (u : N) : bool := (55296 <=? u) && (u <=? 56319).
Definition is_low_surrogate (u : N) : bool := (56320 <=? u) && (u <=? 57343).

Definition combine_surrogates (u u2 : N) : N :=
  65536 + N.lor (N.shiftl (u - 55296) 10) (u2 - 56320).

Definition append_char (c : N) (r : option (str * str)) : option (str * str) :=
  match r with
  | Some (v, rest) => Some (c :: v, rest)
  | None => None
  end.

(** [py_scanstring(s, end, strict=True)]: [s] is the text after the
    opening quote; the result is the decoded string and the text after the
    closing quote, [None] where the scanner raises [JSONDecodeError]. *)
Fixpoint scanstring (s : str) : option (str * str) :=
  match s with
  | [] => None
  | c :: s1 =>
      if c =? 34 then Some ([], s1)
      else if c =? 92 then
        match s1 with
        | [] => None
        | e :: s2 =>
            if e =? 117 then
              match s2 with
              | a :: b :: c1 :: d :: s6 =>
                  match _decode_uXXXX a b c1 d with
                  | None => None
                  | Some uni =>
                      if is_high_surrogate uni then
                        match s6 with
                        | b1 :: s7 =>
                            if b1 =? 92 then
                              match s7 with
                              | b2 :: s8 =>
                                  if b2 =? 117 then
                                    match s8 with
                                    | h1 :: h2 :: h3 :: h4 :: s12 =>
                                        match _decode_uXXXX h1 h2 h3 h4 with
                                        | None => None
                                        | Some uni2 =>
                                            if is_low_surrogate uni2
                                            then append_char (combine_surrogates uni uni2) (scanstring s12)
                                            else append_char uni (scanstring s6)
                                        end
                                    | _ => None
                                    end
                                  else append_char uni (scanstring s6)
                              | [] => append_char uni (scanstring s6)
                              end
                            else append_char uni (scanstring s6)
                        | [] => append_char uni (scanstring s6)
                        end
                      else append_char uni (scanstring s6)
                  end
              | _ => None
              end
            else
              match BACKSLASH e with
              | Some ch => append_char ch (scanstring s2)
              | None => None
              end
        end
      else if c <? 32 then None
      else append_char c (scanstring s1)
  end.

Definition is_whitespace (c : N) : bool :=
  (c =? 32) || (c =? 9) || (c =? 10) || (c =? 13).

(** [WHITESPACE.match(s, end).end()] *)
Fixpoint skip_whitespace (s : str) : str :=
  match s with
  | c :: r => if is_whitespace c then skip_whitespace r else s
  | [] => []
  end.

(** The loop of [JSONArray], entered at a value.  Only string values are
    embedded: on a value of another kind the result is [None], as it is
    where the decoder raises.  [fuel] bounds the number of values. *)
Fixpoint JSONArray_values (fuel : nat) (s : str) : option (list str * str) :=
  match fuel with
  | O => None
  | S fuel' =>
      match s with
      | [] => None
      | c :: s1 =>
          if c =? 34 then
            match scanstring s1 with
            | None => None
            | Some (v, s2) =>
                match skip_whitespace s2 with
                | [] => None
                | d :: s3 =>
                    if d =? 93 then Some ([v], s3)
                    else if d =? 44 then
                      match JSONArray_values fuel' (skip_whitespace s3) with
                      | Some (vs, rest) => Some (v :: vs, rest)
                      | None => None
                      end
                    else None
                end
            end
          else None
      end
  end.

(** [JSONArray((s, end), scan_once)]: [s] is the text after the bracket. *)
Definition JSONArray (s : str) : option (list str * str) :=
  match skip_whitespace s with
  | [] => None
  | c :: r =>
      if c =? 93 then Some ([], r)
      else JSONArray_values (List.length s) (skip_whitespace s)
  end.

(** [json.loads(s)] where the document is an array of strings; [None]
    where [json.loads] raises or yields a value of another shape. *)
Definition loads (s : str) : option (list str) :=
  match skip_whitespace s with
  | [] => None
  | c :: r =>
      if c =? 91 then
        match JSONArray r with
        | Some (v, rest) =>
            match skip_whitespace rest with
            | [] => Some v
            | _ :: _ => None
            end
        | None => None
        end
      else None
  end.

End json.

(** ** The storage engine *)

Inductive table_id := channels | sources | sites.

Definition table_id_eqb (a b : table_id) : bool :=
  match a, b with
  | channels, channels | sources, sources | sites, sites => true
  | _, _ => false
  end.

Module sqlite3.
Local Open Scope Z_scope.

(** A value of the engine; also a parameter of a statement, where [Int]
    is a Python [int] and [Text] a Python [str] still to be bound. *)
Inductive value :=
| Null
| Int (z : Z)
| Text (s : str).

Definition row := list value.

Definition is_null (v : value) : bool :=
  match v with Null => true | _ => false end.

(** SQL [=] where the comparison decides something: a NULL operand makes
    the result unknown, which selects nothing and conflicts with nothing. *)
Definition sql_eq (a b : value) : bool :=
  match a, b with
  | Int x, Int y => Z.eqb x y
  | Text s, Text u => str_eqb s u
  | _, _ => false
  end.

Inductive affinity := INTEGER | TEXT.

Record column := {
  col_name : string;
  col_affinity : affinity;
  col_primary_key_autoincrement : bool;
  col_not_null : bool;
  col_unique : bool;
  col_check_in : option (list str)
}.

Record foreign_key := {
  fk_column : string;
  fk_parent : table_id;
  fk_parent_column : string;
  fk_on_delete_cascade : bool
}.

Record table_def := {
  tbl_name : string;
  tbl_columns : list column;
  tbl_foreign_keys : list foreign_key
}.

(** The content of a table in storage order, and its [sqlite_sequence]
    entry (the largest key ever given out; 0 when there is none). *)
Record table := {
  rows : list row;
  seq : Z
}.

Record connection := {
  foreign_keys : bool;
  tbl_channels : table;
  tbl_sources : table;
  tbl_sites : table
}.

Definition get (c : connection) (t : table_id) : table :=
  match t with
  | channels => tbl_channels c
  | sources => tbl_sources c
  | sites => tbl_sites c
  end.

Definition set (c : connection) (t : table_id) (x : table) : connection :=
  match t with
  | channels => {| foreign_keys := foreign_keys c; tbl_channels := x;
                   tbl_sources := tbl_sources c; tbl_sites := tbl_sites c |}
  | sources => {| foreign_keys := foreign_keys c; tbl_channels := tbl_channels c;
                  tbl_sources := x; tbl_sites := tbl_sites c |}
  | sites => {| foreign_keys := foreign_keys c; tbl_channels := tbl_channels c;
                tbl_sources := tbl_sources c; tbl_sites := x |}
  end.

Inductive constraint := NOT_NULL | CHECK | UNIQUE | FOREIGN_KEY.

(** What [execute] raises: the errors of the module, and the two builtin
    exceptions that the conversion of a parameter raises. *)
Inductive exn :=
| IntegrityError (k : constraint)
| ProgrammingError
| OperationalError
| OverflowError
| UnicodeEncodeError.

(** A Python [int] that fits an INTEGER of the engine: 64 bits, signed. *)
Definition int64 (z : Z) : bool :=
  (-9223372036854775808 <=? z) && (z <=? 9223372036854775807).

(** A Python [str] that UTF-8 can encode: no surrogate code point. *)
Definition utf8 (s : str) : bool :=
  forallb (fun c => (c <? 55296)%N || (57343 <? c)%N) s.

(** The conversion of one parameter: [None] where it succeeds. *)
Definition bind_param (v : value) : option exn :=
  match v with
  | Null => None
  | Int z => if int64 z then None else Some OverflowError
  | Text s => if utf8 s then None else Some UnicodeEncodeError
  end.

(** The parameters are converted in order; the first that cannot be
    converted raises, before the statement runs.  What is raised is named
    here by the conversion error; since Python 3.11 the module reports it
    chained to the error that the connection reported last, where that one
    is still pending. *)
Fixpoint bind (params : list value) : option exn :=
  match params with
  | [] => None
  | v :: r =>
      match bind_param v with
      | Some e => Some e
      | None => bind r
      end
  end.

(** The statements the program issues; every [?] is a bound parameter.
    [UPDATE t cols key] is UPDATE t SET c=?,... WHERE key=?, and
    [DELETE t key] is DELETE FROM t WHERE key=?. *)
Inductive statement :=
| SELECT_ALL (t : table_id)
| INSERT (t : table_id) (cols : list string)
| UPDATE (t : table_id) (cols : list string) (key : string)
| DELETE (t : table_id) (key : string).

Fixpoint assoc (k : string) (l : list (string * value)) : option value :=
  match l with
  | [] => None
  | (k', v) :: r => if String.eqb k k' then Some v else assoc k r
  end.

Fixpoint index_of (k : string) (cols : list column) : option nat :=
  match cols with
  | [] => None
  | c :: r =>
      if String.eqb k (col_name c) then Some O
      else option_map S (index_of k r)
  end.

Definition cell (d : table_def) (k : string) (r : row) : value :=
  match index_of k (tbl_columns d) with
  | Some i => nth i r Null
  | None => Null
  end.

Fixpoint key_index (cols : list column) : nat :=
  match cols with
  | [] => O
  | c :: r => if col_primary_key_autoincrement c then O else S (key_index r)
  end.

Definition rowid (d : table_def) (r : row) : value :=
  nth (key_index (tbl_columns d)) r Null.

Fixpoint rowids (d : table_def) (l : list row) : list Z :=
  match l with
  | [] => []
  | r :: l' =>
      match rowid d r with
      | Int z => z :: rowids d l'
      | _ => rowids d l'
      end
  end.

(** The largest key the table holds or has ever given out. *)
Definition largest_rowid (d : table_def) (x : table) : Z :=
  fold_right Z.max (seq x) (rowids d (rows x)).

(** AUTOINCREMENT: one more than the largest key the table holds or has
    ever given out; an empty table starts at 1 at least. *)
Definition next_rowid (d : table_def) (x : table) : Z :=
  match rowids d (rows x) with
  | [] => Z.max 1 (seq x + 1)
  | _ :: _ => largest_rowid d x + 1
  end.

Definition MAX_ROWID : Z := 9223372036854775807.

(** Once the largest key has been given out, no key is left. *)
Definition full (d : table_def) (x : table) : bool :=
  MAX_ROWID <=? largest_rowid d x.

Fixpoint not_null_ok (cols : list column) (r : row) : bool :=
  match cols with
  | [] => true
  | c :: cs =>
      (negb (col_not_null c) || negb (is_null (hd Null r)))
      && not_null_ok cs (tl r)
  end.

(** A CHECK fails only where its expression is false; on NULL it is
    unknown and passes. *)
Fixpoint check_ok (cols : list column) (r : row) : bool :=
  match cols with
  | [] => true
  | c :: cs =>
      match col_check_in c with
      | None => true
      | Some allowed =>
          is_null (hd Null r)
          || existsb (fun a => sql_eq (hd Null r) (Text a)) allowed
      end
      && check_ok cs (tl r)
  end.

Fixpoint unique_ok (cols : list column) (i : nat) (others : list row) (r : row)
  : bool :=
  match cols with
  | [] => true
  | c :: cs =>
      (negb (col_unique c)
       || negb (existsb (fun o => sql_eq (nth i o Null) (nth i r Null)) others))
      && unique_ok cs (S i) others r
  end.

Section Engine.

Variable schema : table_id -> table_def.

Definition parent_exists (c : connection) (d : table_def) (fk : foreign_key)
  (r : row) : bool :=
  let v := cell d (fk_column fk) r in
  is_null v
  || existsb (fun p => sql_eq (cell (schema (fk_parent fk)) (fk_parent_column fk) p) v)
       (rows (get c (fk_parent fk))).

Definition foreign_keys_ok (c : connection) (d : table_def)
  (fks : list foreign_key) (r : row) : bool :=
  negb (foreign_keys c) || forallb (fun fk => parent_exists c d fk r) fks.

(** The row an INSERT stores: the key is generated, a listed column takes
    its parameter, any other column is NULL.  No INSERT of the program
    lists the key column. *)
Definition new_row (d : table_def) (rid : Z) (given : list (string * value)) : row :=
  map (fun c =>
         if col_primary_key_autoincrement c then Int rid
         else match assoc (col_name c) given with
              | Some v => v
              | None => Null
              end)
      (tbl_columns d).

(** The constraints of one candidate row, in the order the engine
    reports them. *)
Definition violation (c : connection) (d : table_def) (others : list row)
  (fks : list foreign_key) (r : row) : option exn :=
  if negb (not_null_ok (tbl_columns d) r) then Some (IntegrityError NOT_NULL)
  else if negb (check_ok (tbl_columns d) r) then Some (IntegrityError CHECK)
  else if negb (unique_ok (tbl_columns d) O others r) then Some (IntegrityError UNIQUE)
  else if negb (foreign_keys_ok c d fks r) then Some (IntegrityError FOREIGN_KEY)
  else None.

(** INSERT: the new row goes last, its key being above every key of the
    table, and the sequence entry becomes that key.  Every table of the
    program has an AUTOINCREMENT key, and the key is generated first: where
    none is left the statement fails (SQLITE_FULL) before any constraint
    is looked at. *)
Definition insert (c : connection) (t : table_id) (cols : list string)
  (params : list value) : exn + connection :=
  if negb (Nat.eqb (List.length cols) (List.length params)) then inl ProgrammingError
  else
    let d := schema t in
    let x := get c t in
    if full d x then inl OperationalError
    else
      let rid := next_rowid d x in
      let r := new_row d rid (combine cols params) in
      match violation c d (rows x) (tbl_foreign_keys d) r with
      | Some e => inl e
      | None => inr (set c t {| rows := rows x ++ [r]; seq := rid |})
      end.

(** The row an UPDATE leaves: the listed columns take their parameters,
    the others keep their value. *)
Fixpoint assign (cols : list column) (given : list (string * value)) (r : row) : row :=
  match cols with
  | [] => []
  | c :: cs =>
      match assoc (col_name c) given with
      | Some v' => v'
      | None => hd Null r
      end :: assign cs given (tl r)
  end.

Fixpoint first_violation (l : list (option exn)) : option exn :=
  match l with
  | [] => None
  | Some e :: _ => Some e
  | None :: l' => first_violation l'
  end.

Definition mem_string (k : string) (l : list string) : bool :=
  existsb (String.eqb k) l.

(** UPDATE: the last parameter is the key of the WHERE clause.  Every
    selected row is checked as it would be left: UNIQUE against the rows
    that have another key, and the foreign keys whose column is set. *)
Definition update (c : connection) (t : table_id) (cols : list string)
  (key : string) (params : list value) : exn + connection :=
  if negb (Nat.eqb (S (List.length cols)) (List.length params)) then inl ProgrammingError
  else
    let d := schema t in
    let x := get c t in
    let k := last params Null in
    let given := combine cols (removelast params) in
    let selected r := sql_eq (cell d key r) k in
    let fks := filter (fun fk => mem_string (fk_column fk) cols) (tbl_foreign_keys d) in
    let others r := filter (fun o => negb (sql_eq (rowid d o) (rowid d r))) (rows x) in
    match first_violation
            (map (fun r => violation c d (others r) fks (assign (tbl_columns d) given r))
                 (filter selected (rows x))) with
    | Some e => inl e
    | None =>
        inr (set c t {| rows := map (fun r => if selected r
                                              then assign (tbl_columns d) given r
                                              else r) (rows x);
                        seq := seq x |})
    end.

(** The foreign keys that reference table [t]. *)
Definition referencing (t : table_id) : list (table_id * foreign_key) :=
  flat_map (fun child =>
              map (fun fk => (child, fk))
                  (filter (fun fk => table_id_eqb (fk_parent fk) t)
                          (tbl_foreign_keys (schema child))))
           [channels; sources; sites].

(** DELETE of the rows that [p] selects, with the actions of the foreign
    keys that reference them.  [depth] is the engine's limit on nested
    actions. *)
Fixpoint delete_where (depth : nat) (t : table_id) (p : row -> bool)
  (c : connection) : exn + connection :=
  match depth with
  | O => inl OperationalError
  | S depth' =>
      let x := get c t in
      let gone := filter p (rows x) in
      let c1 := set c t {| rows := filter (fun r => negb (p r)) (rows x);
                           seq := seq x |} in
      match gone with
      | [] => inr c1
      | _ :: _ =>
          if foreign_keys c then
            fold_left
              (fun acc (ref : table_id * foreign_key) =>
                 match acc with
                 | inl e => inl e
                 | inr c2 =>
                     let (child, fk) := ref in
                     let refers r :=
                       existsb (fun g => sql_eq (cell (schema child) (fk_column fk) r)
                                                (cell (schema t) (fk_parent_column fk) g))
                               gone in
                     if fk_on_delete_cascade fk
                     then delete_where depth' child refers c2
                     else if existsb refers (rows (get c2 child))
                          then inl (IntegrityError FOREIGN_KEY)
                          else inr c2
                 end)
              (referencing t) (inr c1)
          else inr c1
      end
  end.

Definition max_trigger_depth : nat := 1000.

Definition delete (c : connection) (t : table_id) (key : string)
  (params : list value) : exn + connection :=
  match params with
  | [k] => delete_where max_trigger_depth t (fun r => sql_eq (cell (schema t) key r) k) c
  | _ => inl ProgrammingError
  end.

(** The number of [?] in a statement. *)
Definition parameter_count (q : statement) : nat :=
  match q with
  | SELECT_ALL _ => O
  | INSERT _ cols => List.length cols
  | UPDATE _ cols _ => S (List.length cols)
  | DELETE _ _ => 1%nat
  end.

(** The statement once its parameters are bound. *)
Definition step (c : connection) (q : statement) (params : list value)
  : exn + (connection * list row) :=
  match q with
  | SELECT_ALL t =>
      match params with
      | [] => inr (c, rows (get c t))
      | _ :: _ => inl ProgrammingError
      end
  | INSERT t cols =>
      match insert c t cols params with
      | inl e => inl e
      | inr c' => inr (c', [])
      end
  | UPDATE t cols key =>
      match update c t cols key params with
      | inl e => inl e
      | inr c' => inr (c', [])
      end
  | DELETE t key =>
      match delete c t key params with
      | inl e => inl e
      | inr c' => inr (c', [])
      end
  end.

(** [cursor.execute(query, params)] followed by what [fetchall] would
    return: the parameters are counted, then bound one by one, then the
    statement runs. *)
Definition execute (c : connection) (q : statement) (params : list value)
  : exn + (connection * list row) :=
  if negb (Nat.eqb (parameter_count q) (List.length params)) then inl ProgrammingError
  else
    match bind params with
    | Some e => inl e
    | None => step c q params
    end.

End Engine.

(** What the binding hands back for a stored value. *)
Definition to_python (v : value) : field :=
  match v with
  | Null => FNone
  | Int z => FInt z
  | Text s => FStr s
  end.

End sqlite3.

(** ** class Database *)

Module Database.
Import sqlite3.
Local Open Scope string_scope.
Local Open Scope Z_scope.

Definition plain (name : string) (a : affinity) (nn uq : bool) : column :=
  {| col_name := name; col_affinity := a;
     col_primary_key_autoincrement := false;
     col_not_null := nn; col_unique := uq; col_check_in := None |}.

Definition id_column : column :=
  {| col_name := "id"; col_affinity := INTEGER;
     col_primary_key_autoincrement := true;
     col_not_null := false; col_unique := false; col_check_in := None |}.

(** The three CREATE TABLE statements of [_create_tables]. *)
Definition schema (t : table_id) : table_def :=
  match t with
  | channels =>
      {| tbl_name := "channels";
         tbl_columns :=
           [ id_column;
             plain "name" TEXT true true;
             plain "url" TEXT true true;
             plain "post_times" TEXT false false;
             plain "forbidden_words" TEXT false false ];
         tbl_foreign_keys := [] |}
  | sources =>
      {| tbl_name := "sources";
         tbl_columns :=
           [ id_column;
             plain "channel_id" INTEGER true false;
             plain "source_url" TEXT true false;
             plain "parse_media" INTEGER true false;
             plain "forbidden_words" TEXT false false ];
         tbl_foreign_keys :=
           [ {| fk_column := "channel_id"; fk_parent := channels;
                fk_parent_column := "id"; fk_on_delete_cascade := true |} ] |}
  | sites =>
      {| tbl_name := "sites";
         tbl_columns :=
           [ id_column;
             plain "channel_id" INTEGER true false;
             plain "site_url" TEXT true false;
             {| col_name := "site_type"; col_affinity := TEXT;
                col_primary_key_autoincrement := false;
                col_not_null := true; col_unique := false;
                col_check_in :=
                  Some [lit "AUTO"; lit "RENT"; lit "BUY"; lit "FREE"] |} ];
         tbl_foreign_keys :=
           [ {| fk_column := "channel_id"; fk_parent := sources;
                fk_parent_column := "id"; fk_on_delete_cascade := true |} ] |}
  end.

(** [self]: the one attribute is the connection. *)
Definition t := connection.

(** What the file at [db_path] holds when it is opened: for each table,
    its content if an earlier run of this program created it, under the
    declaration of [_create_tables]. *)
Record file := {
  stored_channels : option table;
  stored_sources : option table;
  stored_sites : option table
}.

Definition new_file : file :=
  {| stored_channels := None; stored_sources := None; stored_sites := None |}.

Definition empty_table : table := {| rows := []; seq := 0 |}.

(** CREATE TABLE IF NOT EXISTS *)
Definition create_if_not_exists (x : option table) : table :=
  match x with
  | Some tb => tb
  | None => empty_table
  end.

(** [connect], [PRAGMA foreign_keys = ON], [_create_tables]. *)
Definition __init__ (f : file) : t :=
  {| foreign_keys := true;
     tbl_channels := create_if_not_exists (stored_channels f);
     tbl_sources := create_if_not_exists (stored_sources f);
     tbl_sites := create_if_not_exists (stored_sites f) |}.

(** How a call ends: it returns a value, or raises; either way the
    connection is left in some state.  A statement that raises is undone by
    the engine. *)
Inductive outcome :=
| Return (self' : t) (v : pyval)
| Raise (self' : t) (e : exn).

Definition state (o : outcome) : t :=
  match o with
  | Return s _ => s
  | Raise s _ => s
  end.

Definition _execute (self : t) (query : statement) (params : list value)
  (fetch : bool) : outcome :=
  match execute schema self query params with
  | inl e => Raise self e
  | inr (self', fetched) =>
      if fetch then Return self' (PRows (map (map to_python) fetched))
      else Return self' PNone
  end.

(** [int(b)] *)
Definition int (b : bool) : Z := if b then 1 else 0.

(** Channels CRUD *)

Definition list_channels (self : t) : outcome :=
  _execute self (SELECT_ALL channels) [] true.

Definition create_channel (self : t) (name url : str)
  (post_times forbidden_words : list str) : outcome :=
  _execute self
    (INSERT channels ["name"; "url"; "post_times"; "forbidden_words"])
    [Text name; Text url; Text (json.dumps post_times);
     Text (json.dumps forbidden_words)]
    false.

Definition update_channel (self : t) (cid : Z) (name url : str)
  (post_times forbidden_words : list str) : outcome :=
  _execute self
    (UPDATE channels ["name"; "url"; "post_times"; "forbidden_words"] "id")
    [Text name; Text url; Text (json.dumps post_times);
     Text (json.dumps forbidden_words); Int cid]
    false.

Definition delete_channel (self : t) (cid : Z) : outcome :=
  _execute self (DELETE channels "id") [Int cid] false.

(** Sources CRUD *)

Definition list_sources (self : t) : outcome :=
  _execute self (SELECT_ALL sources) [] true.

Definition create_source (self : t) (channel_id : Z) (url : str)
  (parse_media : bool) (forbidden_words : list str) : outcome :=
  _execute self
    (INSERT sources ["channel_id"; "source_url"; "parse_media"; "forbidden_words"])
    [Int channel_id; Text url; Int (int parse_media);
     Text (json.dumps forbidden_words)]
    false.

Definition update_source (self : t) (sid channel_id : Z) (url : str)
  (parse_media : bool) (forbidden_words : list str) : outcome :=
  _execute self
    (UPDATE sources ["channel_id"; "source_url"; "parse_media"; "forbidden_words"] "id")
    [Int channel_id; Text url; Int (int parse_media);
     Text (json.dumps forbidden_words); Int sid]
    false.

Definition delete_source (self : t) (sid : Z) : outcome :=
  _execute self (DELETE sources "id") [Int sid] false.

(** Sites CRUD *)

Definition list_sites (self : t) : outcome :=
  _execute self (SELECT_ALL sites) [] true.

Definition create_site (self : t) (source_id : Z) (site_url site_type : str)
  : outcome :=
  _execute self
    (INSERT sites ["channel_id"; "site_url"; "site_type"])
    [Int source_id; Text site_url; Text site_type]
    false.

Definition update_site (self : t) (tid source_id : Z) (site_url site_type : str)
  : outcome :=
  _execute self
    (UPDATE sites ["channel_id"; "site_url"; "site_type"] "id")
    [Int source_id; Text site_url; Text site_type; Int tid]
    false.

Definition delete_site (self : t) (tid : Z) : outcome :=
  _execute self (DELETE sites "id") [Int tid] false.

End Database.

(** ** class TableFrame: what [refresh] shows *)

Module TableFrame.

(** The truth value of an object. *)
Definition truthy (v : field) : bool :=
  match v with
  | FNone => false
  | FInt z => negb (Z.eqb z 0)
  | FStr s => match s with [] => false | _ :: _ => true end
  | FBool b => b
  | FList l => match l with [] => false | _ :: _ => true end
  end.

(** [json.loads(v or '[]')]; [None] where it raises. *)
Definition decode (v : field) : option (list str) :=
  match (if truthy v then v else FStr (lit "[]")) with
  | FStr s => json.loads s
  | _ => None
  end.

(** [vals[i] = v] *)
Definition set_item (vals : list field) (i : nat) (v : field)
  : option (list field) :=
  if Nat.ltb i (List.length vals)
  then Some (firstn i vals ++ v :: skipn (S i) vals)
  else None.

(** [vals[i] = ','.join(json.loads(vals[i] or '[]'))] *)
Definition join_decoded (vals : list field) (i : nat) : option (list field) :=
  match nth_error vals i with
  | None => None
  | Some v =>
      match decode v with
      | None => None
      | Some l => set_item vals i (FStr (join (lit ",") l))
      end
  end.

(** The body of the loop of [refresh] for one row. *)
Definition refresh_row (name : table_id) (vals : list field)
  : option (list field) :=
  match name with
  | channels =>
      match join_decoded vals 3 with
      | Some vals1 => join_decoded vals1 4
      | None => None
      end
  | sources =>
      match nth_error vals 3 with
      | None => None
      | Some v =>
          match set_item vals 3 (FStr (if truthy v then lit "Yes" else lit "No")) with
          | Some vals1 => join_decoded vals1 4
          | None => None
          end
      end
  | sites => Some vals
  end.

Fixpoint refresh_rows (name : table_id) (l : list (list field))
  : option (list (list field)) :=
  match l with
  | [] => Some []
  | vals :: l' =>
      match refresh_row name vals, refresh_rows name l' with
      | Some v, Some r => Some (v :: r)
      | _, _ => None
      end
  end.

(** The [list_fn] that [App._build_ui] gives the frame of each table. *)
Definition list_fn (name : table_id) : Database.t -> Database.outcome :=
  match name with
  | channels => Database.list_channels
  | sources => Database.list_sources
  | sites => Database.list_sites
  end.

(** The rows of the tree after [refresh]; [None] where it raises. *)
Definition refresh (name : table_id) (db : Database.t)
  : option (list (list field)) :=
  match list_fn name db with
  | Database.Return _ (PRows l) => refresh_rows name l
  | _ => None
  end.

End TableFrame.

(** ** Sequences of calls on one [Database] *)

Inductive call :=
| Create_channel (name url : str) (post_times forbidden_words : list str)
| Update_channel (cid : Z) (name url : str) (post_times forbidden_words : list str)
| Delete_channel (cid : Z)
| Create_source (channel_id : Z) (url : str) (parse_media : bool)
    (forbidden_words : list str)
| Update_source (sid channel_id : Z) (url : str) (parse_media : bool)
    (forbidden_words : list str)
| Delete_source (sid : Z)
| Create_site (source_id : Z) (site_url site_type : str)
| Update_site (tid source_id : Z) (site_url site_type : str)
| Delete_site (tid : Z).

Definition invoke (self : Database.t) (c : call) : Database.outcome :=
  match c with
  | Create_channel n u p f => Database.create_channel self n u p f
  | Update_channel i n u p f => Database.update_channel self i n u p f
  | Delete_channel i => Database.delete_channel self i
  | Create_source ch u m f => Database.create_source self ch u m f
  | Update_source i ch u m f => Database.update_source self i ch u m f
  | Delete_source i => Database.delete_source self i
  | Create_site src u ty => Database.create_site self src u ty
  | Update_site i src u ty => Database.update_site self i src u ty
  | Delete_site i => Database.delete_site self i
  end.

(** A call that raises leaves the object usable: the Tk main loop reports
    the exception and goes on. *)
Definition run (self : Database.t) (cs : list call) : Database.t :=
  fold_left (fun s c => Database.state (invoke s c)) cs self.

(** The table a call creates a row in. *)
Definition creates (c : call) : option table_id :=
  match c with
  | Create_channel _ _ _ _ => Some channels
  | Create_source _ _ _ _ => Some sources
  | Create_site _ _ _ => Some sites
  | _ => None
  end.

(** The keys a table holds. *)
Definition ids (self : Database.t) (t : table_id) : list Z :=
  sqlite3.rowids (Database.schema t) (sqlite3.rows (sqlite3.get self t)).

(** The parameters that a call binds, in the order of its statement. *)
Definition arguments (c : call) : list sqlite3.value :=
  match c with
  | Create_channel n u p f =>
      [sqlite3.Text n; sqlite3.Text u; sqlite3.Text (json.dumps p);
       sqlite3.Text (json.dumps f)]
  | Update_channel i n u p f =>
      [sqlite3.Text n; sqlite3.Text u; sqlite3.Text (json.dumps p);
       sqlite3.Text (json.dumps f); sqlite3.Int i]
  | Delete_channel i => [sqlite3.Int i]
  | Create_source ch u m f =>
      [sqlite3.Int ch; sqlite3.Text u; sqlite3.Int (Database.int m);
       sqlite3.Text (json.dumps f)]
  | Update_source i ch u m f =>
      [sqlite3.Int ch; sqlite3.Text u; sqlite3.Int (Database.int m);
       sqlite3.Text (json.dumps f); sqlite3.Int i]
  | Delete_source i => [sqlite3.Int i]
  | Create_site src u ty => [sqlite3.Int src; sqlite3.Text u; sqlite3.Text ty]
  | Update_site i src u ty =>
      [sqlite3.Int src; sqlite3.Text u; sqlite3.Text ty; sqlite3.Int i]
  | Delete_site i => [sqlite3.Int i]
  end.

(** Every parameter of the call can be bound: its integers have 64 bits
    and its texts no surrogate code point. *)
Definition bindable (c : call) : bool :=
  match sqlite3.bind (arguments c) with
  | None => true
  | Some _ => false
  end.

(** Table [t] has a key left to give. *)
Definition room (self : Database.t) (t : table_id) : bool :=
  negb (sqlite3.full (Database.schema t) (sqlite3.get self t)).

(** The table in which the call creates has no key left. *)
Definition out_of_keys (self : Database.t) (c : call) : bool :=
  match creates c with
  | Some t => negb (room self t)
  | None => false
  end.

(** ** Vocabulary of the statements *)

(** Every element of a [str] is a code point: below [0x110000]. *)
Definition code_points (s : str) : bool :=
  forallb (fun c => N.ltb c 1114112) s.

(** No high surrogate is immediately followed by a low surrogate. *)
Fixpoint no_surrogate_pair (s : str) : bool :=
  match s with
  | [] => true
  | a :: r =>
      match r with
      | [] => true
      | b :: _ => negb (json.is_high_surrogate a && json.is_low_surrogate b)
      end && no_surrogate_pair r
  end.

Definition plain_text (s : str) : bool := code_points s && no_surrogate_pair s.

(** The forms that the escape of one character takes, each with what the
    scanner needs to read it back. *)
Inductive escape_shape (c : N) : str -> Prop :=
| shape_copy :
    c <> 34%N -> c <> 92%N -> (32 <= c)%N -> escape_shape c [c]
| shape_short (x : N) :
    x <> 117%N -> json.BACKSLASH x = Some c -> escape_shape c [92; x]%N
| shape_u (h1 h2 h3 h4 : N) :
    json._decode_uXXXX h1 h2 h3 h4 = Some c ->
    escape_shape c [92; 117; h1; h2; h3; h4]%N
| shape_pair (h1 h2 h3 h4 l1 l2 l3 l4 hi lo : N) :
    json._decode_uXXXX h1 h2 h3 h4 = Some hi ->
    json._decode_uXXXX l1 l2 l3 l4 = Some lo ->
    json.is_high_surrogate hi = true ->
    json.is_low_surrogate lo = true ->
    json.combine_surrogates hi lo = c ->
    json.is_high_surrogate c = false ->
    escape_shape c [92; 117; h1; h2; h3; h4; 92; 117; l1; l2; l3; l4]%N.

(** What the scanner looks for after a high surrogate escape: [true]
    where the text goes on with an escape that is a low surrogate, or
    with one that cannot be read. *)
Definition low_escape_ahead (s : str) : bool :=
  match s with
  | b1 :: b2 :: r =>
      if N.eqb b1 92 && N.eqb b2 117 then
        match r with
        | l1 :: l2 :: l3 :: l4 :: _ =>
            match json._decode_uXXXX l1 l2 l3 l4 with
            | Some u2 => json.is_low_surrogate u2
            | None => true
            end
        | _ => true
        end
      else false
  | _ => false
  end.

(** The closed form of the three DELETE statements under
    [foreign_keys = ON]: the selected rows go, then the rows that refer to
    a row that went, down the chain.  In each of the three tables the key
    is the first column; in sources and in sites the parent column is the
    second. *)

(** The key of [r] is [k]. *)
Definition id_is (k : Z) (r : sqlite3.row) : bool :=
  sqlite3.sql_eq (nth 0 r sqlite3.Null) (sqlite3.Int k).

(** The parent column of [r] holds the key of a row of [gone]. *)
Definition refers_to (gone : list sqlite3.row) (r : sqlite3.row) : bool :=
  existsb (fun g => sqlite3.sql_eq (nth 1 r sqlite3.Null) (nth 0 g sqlite3.Null))
          gone.

(** The table [x] less the rows that [p] selects. *)
Definition without (p : sqlite3.row -> bool) (x : sqlite3.table) : sqlite3.table :=
  {| sqlite3.rows := filter (fun r => negb (p r)) (sqlite3.rows x);
     sqlite3.seq := sqlite3.seq x |}.

Definition after_delete_channel (self : Database.t) (cid : Z) : Database.t :=
  let gone_channels := filter (id_is cid) (sqlite3.rows (sqlite3.tbl_channels self)) in
  let gone_sources :=
    filter (refers_to gone_channels) (sqlite3.rows (sqlite3.tbl_sources self)) in
  {| sqlite3.foreign_keys := sqlite3.foreign_keys self;
     sqlite3.tbl_channels := without (id_is cid) (sqlite3.tbl_channels self);
     sqlite3.tbl_sources := without (refers_to gone_channels) (sqlite3.tbl_sources self);
     sqlite3.tbl_sites := without (refers_to gone_sources) (sqlite3.tbl_sites self) |}.

Definition after_delete_source (self : Database.t) (sid : Z) : Database.t :=
  let gone_sources := filter (id_is sid) (sqlite3.rows (sqlite3.tbl_sources self)) in
  {| sqlite3.foreign_keys := sqlite3.foreign_keys self;
     sqlite3.tbl_channels := sqlite3.tbl_channels self;
     sqlite3.tbl_sources := without (id_is sid) (sqlite3.tbl_sources self);
     sqlite3.tbl_sites := without (refers_to gone_sources) (sqlite3.tbl_sites self) |}.

Definition after_delete_site (self : Database.t) (tid : Z) : Database.t :=
  {| sqlite3.foreign_keys := sqlite3.foreign_keys self;
     sqlite3.tbl_channels := sqlite3.tbl_channels self;
     sqlite3.tbl_sources := sqlite3.tbl_sources self;
     sqlite3.tbl_sites := without (id_is tid) (sqlite3.tbl_sites self) |}.

(** The rows that the three INSERT statements store. *)

Definition channel_row (rid : Z) (name url : str)
  (post_times forbidden_words : list str) : sqlite3.row :=
  [sqlite3.Int rid; sqlite3.Text name; sqlite3.Text url;
   sqlite3.Text (json.dumps post_times); sqlite3.Text (json.dumps forbidden_words)].

Definition source_row (rid channel_id : Z) (url : str) (parse_media : bool)
  (forbidden_words : list str) : sqlite3.row :=
  [sqlite3.Int rid; sqlite3.Int channel_id; sqlite3.Text url;
   sqlite3.Int (Database.int parse_media);
   sqlite3.Text (json.dumps forbidden_words)].

Definition site_row (rid source_id : Z) (site_url site_type : str) : sqlite3.row :=
  [sqlite3.Int rid; sqlite3.Int source_id; sqlite3.Text site_url;
   sqlite3.Text site_type].

(** The table [t] with one more row, keyed by the next key. *)
Definition appended (self : Database.t) (t : table_id) (r : Z -> sqlite3.row)
  : Database.t :=
  let x := sqlite3.get self t in
  let rid := sqlite3.next_rowid (Database.schema t) x in
  sqlite3.set self t
    {| sqlite3.rows := sqlite3.rows x ++ [r rid]; sqlite3.seq := rid |}.

(** The table [t] where the rows keyed [k] are replaced through [f]. *)
Definition updated (self : Database.t) (t : table_id) (k : Z)
  (f : sqlite3.row -> sqlite3.row) : Database.t :=
  let x := sqlite3.get self t in
  sqlite3.set self t
    {| sqlite3.rows := map (fun r => if id_is k r then f r else r) (sqlite3.rows x);
       sqlite3.seq := sqlite3.seq x |}.

(** What one call can do to the tables. *)
Inductive effect (s : Database.t) : Database.t -> Prop :=
| effect_none : effect s s
| effect_append (t : table_id) (r : Z -> sqlite3.row) :
    (forall rid, nth 0 (r rid) sqlite3.Null = sqlite3.Int rid) ->
    effect s (appended s t r)
| effect_update (t : table_id) (k : Z) (f : sqlite3.row -> sqlite3.row) :
    (forall r, nth 0 (f r) sqlite3.Null = nth 0 r sqlite3.Null) ->
    effect s (updated s t k f)
| effect_delete (s' : Database.t) :
    sqlite3.foreign_keys s' = sqlite3.foreign_keys s ->
    (forall t, exists q, sqlite3.get s' t = without q (sqlite3.get s t)) ->
    effect s s'.

(** No key of a table is beyond the table's [sqlite_sequence] entry. *)
Definition sequenced (self : Database.t) : bool :=
  forallb (fun t => forallb (fun j => Z.leb j (sqlite3.seq (sqlite3.get self t)))
                            (ids self t))
          [channels; sources; sites].

(** Every row of [children] names, in its second column, the key of a
    row of [parents]. *)
Definition parented (parents children : list sqlite3.row) : Prop :=
  forall r, In r children ->
            exists p, In p parents
                      /\ sqlite3.sql_eq (nth 0 p sqlite3.Null) (nth 1 r sqlite3.Null)
                         = true.

(** No orphans: every Source names a Channel, every Site names a
    Source. *)
Definition referential (self : Database.t) : Prop :=
  parented (sqlite3.rows (sqlite3.tbl_channels self))
           (sqlite3.rows (sqlite3.tbl_sources self))
  /\ parented (sqlite3.rows (sqlite3.tbl_sources self))
              (sqlite3.rows (sqlite3.tbl_sites self)).

(** The same, as a test. *)
Definition parented_b (parents children : list sqlite3.row) : bool :=
  forallb (fun r =>
             existsb (fun p => sqlite3.sql_eq (nth 0 p sqlite3.Null)
                                              (nth 1 r sqlite3.Null))
                     parents)
          children.

Definition no_orphans (self : Database.t) : bool :=
  parented_b (sqlite3.rows (sqlite3.tbl_channels self))
             (sqlite3.rows (sqlite3.tbl_sources self))
  && parented_b (sqlite3.rows (sqlite3.tbl_sources self))
                (sqlite3.rows (sqlite3.tbl_sites self)).

(** Some row of table [t] holds [v] in column [k]. *)
Definition holds (self : Database.t) (t : table_id) (k : string)
  (v : sqlite3.value) : bool :=
  existsb (fun r => sqlite3.sql_eq (sqlite3.cell (Database.schema t) k r) v)
          (sqlite3.rows (sqlite3.get self t)).

(** [site_type IN ('AUTO','RENT','BUY','FREE')] *)
Definition site_type_allowed (ty : str) : bool :=
  existsb (str_eqb ty) [lit "AUTO"; lit "RENT"; lit "BUY"; lit "FREE"].

(** The tuple that [fetchall] builds from a stored row. *)
Definition tuple (r : sqlite3.row) : list field := map sqlite3.to_python r.

(** The row an [update] or [delete] call aims at. *)
Definition target (c : call) : option (table_id * Z) :=
  match c with
  | Update_channel k _ _ _ _ | Delete_channel k => Some (channels, k)
  | Update_source k _ _ _ _ | Delete_source k => Some (sources, k)
  | Update_site k _ _ _ | Delete_site k => Some (sites, k)
  | _ => None
  end.

Definition is_delete (c : call) : bool :=
  match c with
  | Delete_channel _ | Delete_source _ | Delete_site _ => true
  | _ => false
  end.

(** A field as storage hands it back: not a list, not a boolean. *)
Definition undecoded (v : field) : bool :=
  match v with
  | FNone | FInt _ | FStr _ => true
  | FBool _ | FList _ => false
  end.

(** Example data: a store opened on a new file, and the channel of the
    end-to-end scenario. *)
Definition fresh : Database.t := Database.__init__ Database.new_file.

Definition news : call :=
  Create_channel (lit "news") (lit "https://x") [lit "09:00"; lit "18:00"]
                 [lit "spam"].

(** A channel, a source under it and a site under the source. *)
Definition chain : Database.t :=
  run fresh [news;
             Create_source 1 (lit "https://src") true [lit "ad"];
             Create_site 1 (lit "https://site") (lit "RENT")].

(** ** The front end: dialogs and the table view *)

(** [c.isspace()] *)
Definition isspace (c : N) : bool :=
  ((9 <=? c) && (c <=? 13) || (28 <=? c) && (c <=? 32) || (c =? 133)
   || (c =? 160) || (c =? 5760) || (8192 <=? c) && (c <=? 8202)
   || (c =? 8232) || (c =? 8233) || (c =? 8239) || (c =? 8287)
   || (c =? 12288))%N.

Fixpoint lstrip (s : str) : str :=
  match s with
  | [] => []
  | c :: r => if isspace c then lstrip r else s
  end.

Definition rstrip (s : str) : str := rev (lstrip (rev s)).

(** [s.strip()] *)
Definition strip (s : str) : str := rstrip (lstrip s).

(** [s.split(sep)] for a separator of one character. *)
Fixpoint split (sep : N) (s : str) : list str :=
  match s with
  | [] => [[]]
  | c :: r =>
      if N.eqb c sep then [] :: split sep r
      else match split sep r with
           | h :: t => (c :: h) :: t
           | [] => [[c]]
           end
  end.

Module Frame.

(** [[t.strip() for t in s.split(',') if t.strip()]] *)
Definition words (s : str) : list str :=
  map strip
      (filter (fun t => match strip t with [] => false | _ :: _ => true end)
              (split 44 s)).

(** What the dialogs of [_prompt_fields] yield once post-processed: the
    arguments of the create method of the frame's table. *)
Inductive data :=
| ChannelData (name url : str) (post_times forbidden_words : list str)
| SourceData (channel_id : Z) (url : str) (parse_media : bool)
    (forbidden_words : list str)
| SiteData (source_id : Z) (site_url site_type : str).

Inductive prompted :=
| Cancelled
| Fields (d : data)
| ValueError.

(** The rows shown and the store behind them. *)
Record frame := {
  db : Database.t;
  tree : list (list field)
}.

Section Builtins.

(** [int(s)], [None] where it raises ValueError, and [s.lower()]. *)
Variable int_ : str -> option Z.
Variable lower : str -> str.

(** The answers of the [n] dialogs, in order; [None] as soon as one is
    cancelled. *)
Fixpoint ask_all (ask : nat -> option str) (i n : nat) : option (list str) :=
  match n with
  | O => Some []
  | S n' =>
      match ask i with
      | None => None
      | Some v =>
          match ask_all ask (S i) n' with
          | None => None
          | Some vs => Some (v :: vs)
          end
      end
  end.

(** [_prompt_fields()], as [_on_add] calls it; [ask i] is what the user
    answers to the dialog number [i]. *)
Definition _prompt_fields (name : table_id) (ask : nat -> option str) : prompted :=
  match name with
  | channels =>
      match ask_all ask 0 4 with
      | Some [v0; v1; v2; v3] => Fields (ChannelData v0 v1 (words v2) (words v3))
      | _ => Cancelled
      end
  | sources =>
      match ask_all ask 0 4 with
      | Some [v0; v1; v2; v3] =>
          match int_ v0 with
          | None => ValueError
          | Some ch =>
              Fields (SourceData ch v1
                        (existsb (str_eqb (lower v2)) [lit "true"; lit "1"; lit "yes"])
                        (words v3))
          end
      | _ => Cancelled
      end
  | sites =>
      match ask_all ask 0 3 with
      | Some [v0; v1; v2] =>
          match int_ v0 with
          | None => ValueError
          | Some src => Fields (SiteData src v1 v2)
          end
      | _ => Cancelled
      end
  end.

(** [self.add_fn( *data )] *)
Definition add_fn (d : data) (s : Database.t) : Database.outcome :=
  match d with
  | ChannelData n u p f => Database.create_channel s n u p f
  | SourceData ch u m f => Database.create_source s ch u m f
  | SiteData src u ty => Database.create_site s src u ty
  end.

(** The loop of [refresh] over the listed rows: the rows inserted, and
    whether the loop raised. *)
Fixpoint fill (name : table_id) (l : list (list field))
  : list (list field) * bool :=
  match l with
  | [] => ([], false)
  | vals :: l' =>
      match TableFrame.refresh_row name vals with
      | None => ([], true)
      | Some v => let (t, e) := fill name l' in (v :: t, e)
      end
  end.

(** [refresh()]: the tree is emptied, then filled. *)
Definition refresh (name : table_id) (f : frame) : frame * bool :=
  match TableFrame.list_fn name (db f) with
  | Database.Return s (PRows l) =>
      let (t, e) := fill name l in ({| db := s; tree := t |}, e)
  | Database.Return s _ => ({| db := s; tree := [] |}, true)
  | Database.Raise s _ => ({| db := s; tree := [] |}, true)
  end.

(** [_on_add()]: the frame afterwards, and whether an exception left the
    handler. *)
Definition _on_add (name : table_id) (ask : nat -> option str) (f : frame)
  : frame * bool :=
  match _prompt_fields name ask with
  | Cancelled => (f, false)
  | ValueError => (f, true)
  | Fields d =>
      match add_fn d (db f) with
      | Database.Raise s _ => ({| db := s; tree := tree f |}, true)
      | Database.Return s _ => refresh name {| db := s; tree := tree f |}
      end
  end.

End Builtins.

End Frame.

(** ** Vocabulary of the further statements *)

(** What the decoder makes of what the encoder wrote for [s]: a high
    surrogate immediately followed by a low one becomes one character. *)
Fixpoint merge_surrogates (s : str) : str :=
  match s with
  | [] => []
  | a :: r =>
      match r with
      | [] => [a]
      | b :: r' =>
          if json.is_high_surrogate a && json.is_low_surrogate b
          then json.combine_surrogates a b :: merge_surrogates r'
          else a :: merge_surrogates r
      end
  end.

(** Every string of every list argument of a call is made of code
    points. *)
Definition valid_call (c : call) : bool :=
  match c with
  | Create_channel _ _ p f | Update_channel _ _ _ p f =>
      forallb code_points p && forallb code_points f
  | Create_source _ _ _ f | Update_source _ _ _ _ f => forallb code_points f
  | _ => true
  end.

(** Strictly ascending. *)
Fixpoint ascending (l : list Z) : bool :=
  match l with
  | [] => true
  | a :: r => forallb (Z.ltb a) r && ascending r
  end.

(** The keys of each table ascend in storage order. *)
Definition keys_ascend (self : Database.t) : bool :=
  forallb (fun t => ascending (ids self t)) [channels; sources; sites].

(** No two rows agree, by SQL [=], on column number [i]. *)
Fixpoint distinct_on (i : nat) (l : list sqlite3.row) : bool :=
  match l with
  | [] => true
  | r :: rest =>
      negb (existsb (fun o => sqlite3.sql_eq (nth i o sqlite3.Null)
                                             (nth i r sqlite3.Null)) rest)
      && distinct_on i rest
  end.

(** No two channels share a name, and no two share a url. *)
Definition names_urls_distinct (self : Database.t) : bool :=
  distinct_on 1 (sqlite3.rows (sqlite3.tbl_channels self))
  && distinct_on 2 (sqlite3.rows (sqlite3.tbl_channels self)).

(** Some row of table [t] with another key than [k] holds [v] in column
    number [i]. *)
Definition other_holds (self : Database.t) (t : table_id) (k : Z) (i : nat)
  (v : sqlite3.value) : bool :=
  existsb (fun o => negb (id_is k o) && sqlite3.sql_eq (nth i o sqlite3.Null) v)
          (sqlite3.rows (sqlite3.get self t)).

(** Each row of each table can be shown by [refresh]. *)
Definition displayable (self : Database.t) : bool :=
  forallb (fun t =>
             forallb (fun r => match TableFrame.refresh_row t (tuple r) with
                               | Some _ => true
                               | None => false
                               end)
                     (sqlite3.rows (sqlite3.get self t)))
          [channels; sources; sites].

(** Made of printable ASCII characters only. *)
Definition printable (s : str) : bool :=
  forallb (fun c => N.leb 32 c && N.leb c 126) s.

(** A clean list item: not empty, without comma, without white space at
    either end. *)
Definition clean_word (w : str) : bool :=
  match w with [] => false | _ :: _ => true end
  && negb (existsb (N.eqb 44) w)
  && match w with [] => true | c :: _ => negb (isspace c) end
  && match rev w with [] => true | c :: _ => negb (isspace c) end.

(** * Properties *)

(** ** The [json] encoding of a list of strings *)

Section JsonFacts.
Import json.
Local Open Scope N_scope.

Lemma hexval_hexdigit (d : N) : d < 16 -> hexval (hexdigit d) = Some d.
Proof.
  intros H.
  assert (E : d = 0 \/ d = 1 \/ d = 2 \/ d = 3 \/ d = 4 \/ d = 5 \/ d = 6 \/ d = 7
              \/ d = 8 \/ d = 9 \/ d = 10 \/ d = 11 \/ d = 12 \/ d = 13 \/ d = 14
              \/ d = 15) by lia.
  repeat (destruct E as [E | E]; [subst d; reflexivity |]).
  subst d; reflexivity.
Qed.

Lemma hex_digits_recompose (n : N) :
  n < 65536 ->
  ((n / 4096 mod 16 * 16 + n / 256 mod 16) * 16 + n / 16 mod 16) * 16 + n mod 16 = n.
Proof.
  intros H.
  assert (E1 : n / 256 = n / 16 / 16) by (rewrite N.Div0.div_div; reflexivity).
  assert (E2 : n / 4096 = n / 256 / 16) by (rewrite N.Div0.div_div; reflexivity).
  assert (E3 : n / 4096 / 16 = 0)
    by (rewrite N.Div0.div_div; apply N.div_small; exact H).
  pose proof (N.div_mod n 16 ltac:(discriminate)).
  pose proof (N.div_mod (n / 16) 16 ltac:(discriminate)).
  pose proof (N.div_mod (n / 256) 16 ltac:(discriminate)).
  pose proof (N.div_mod (n / 4096) 16 ltac:(discriminate)).
  rewrite <- E1 in *. rewrite <- E2 in *. rewrite E3 in *.
  lia.
Qed.

Lemma decode_format (n : N) :
  n < 65536 ->
  exists a b c d, format_04x n = [a; b; c; d] /\ _decode_uXXXX a b c d = Some n.
Proof.
  intros H. unfold format_04x. do 4 eexists. split; [reflexivity |].
  unfold _decode_uXXXX.
  rewrite !hexval_hexdigit by (apply N.mod_lt; discriminate).
  f_equal. apply hex_digits_recompose; exact H.
Qed.

Lemma lor_disjoint (a y : N) : y < 1024 -> N.lor (a * 1024) y = a * 1024 + y.
Proof.
  intros H.
  assert (D : N.land (a * 1024) y = 0).
  { apply N.bits_inj. intros i. rewrite N.land_spec, N.bits_0.
    change 1024 with (2 ^ 10).
    destruct (N.lt_ge_cases i 10) as [L | G].
    - rewrite N.mul_pow2_bits_low by exact L. reflexivity.
    - rewrite <- (N.mod_small y (2 ^ 10)) by exact H.
      rewrite N.mod_pow2_bits_high by exact G. apply andb_false_r. }
  rewrite <- (N.lxor_lor _ _ D). symmetry. apply N.add_nocarry_lxor; exact D.
Qed.

(** The two halves that [replace] writes for a character beyond the basic
    plane are a surrogate pair that [combine_surrogates] merges back. *)
Lemma surrogate_halves (c : N) :
  65536 <= c -> c < 1114112 ->
  let n := c - 65536 in
  let s1 := N.lor 55296 (N.land (N.shiftr n 10) 1023) in
  let s2 := N.lor 56320 (N.land n 1023) in
  s1 < 65536 /\ s2 < 65536 /\ is_high_surrogate s1 = true
  /\ is_low_surrogate s2 = true /\ combine_surrogates s1 s2 = c.
Proof.
  intros L U. cbv zeta.
  assert (C : c = 65536 + (c - 65536)) by lia.
  assert (Hn : c - 65536 < 1048576) by lia.
  revert C Hn. generalize (c - 65536). intros n C Hn.
  assert (Hq : n / 1024 < 1024)
    by (apply N.Div0.div_lt_upper_bound; exact Hn).
  assert (Hr : n mod 1024 < 1024) by (apply N.mod_lt; discriminate).
  assert (E1 : N.lor 55296 (N.land (N.shiftr n 10) 1023) = 55296 + n / 1024).
  { change 1023 with (N.ones 10).
    rewrite N.land_ones, N.shiftr_div_pow2. change (2 ^ 10) with 1024.
    rewrite (N.mod_small _ _ Hq).
    change 55296 with (54 * 1024). apply lor_disjoint; exact Hq. }
  assert (E2 : N.lor 56320 (N.land n 1023) = 56320 + n mod 1024).
  { change 1023 with (N.ones 10).
    rewrite N.land_ones. change (2 ^ 10) with 1024.
    change 56320 with (55 * 1024). apply lor_disjoint; exact Hr. }
  rewrite E1, E2.
  assert (E3 : combine_surrogates (55296 + n / 1024) (56320 + n mod 1024) = c).
  { unfold combine_surrogates.
    rewrite (N.add_comm 55296), (N.add_comm 56320), !N.add_sub.
    rewrite N.shiftl_mul_pow2. change (2 ^ 10) with 1024.
    rewrite lor_disjoint by exact Hr.
    pose proof (N.div_mod n 1024 ltac:(discriminate)) as D.
    rewrite C. f_equal. rewrite D at 3. apply N.add_cancel_r, N.mul_comm. }
  clear E1 E2 C. revert E3 Hq Hr.
  generalize (n / 1024) (n mod 1024). intros q r E3 Hq Hr.
  unfold is_high_surrogate, is_low_surrogate.
  repeat split; try exact E3; try lia.
  - apply andb_true_intro; split; apply N.leb_le; lia.
  - apply andb_true_intro; split; apply N.leb_le; lia.
Qed.

Lemma high_is_not_low (u : N) :
  is_high_surrogate u = true -> is_low_surrogate u = false.
Proof.
  unfold is_high_surrogate, is_low_surrogate. intros H.
  apply andb_prop in H. destruct H as [_ H]. apply N.leb_le in H.
  apply andb_false_intro1. apply N.leb_gt. lia.
Qed.

Lemma escape_ascii_shape (c : N) :
  c < 1114112 -> escape_shape c (escape_ascii c).
Proof.
  intros U. unfold escape_ascii.
  destruct ((32 <=? c) && (c <=? 126) && negb (c =? 92) && negb (c =? 34)) eqn:E.
  - apply andb_prop in E. destruct E as [E E34].
    apply andb_prop in E. destruct E as [E E92].
    apply andb_prop in E. destruct E as [E32 _].
    apply negb_true_iff, N.eqb_neq in E34, E92. apply N.leb_le in E32.
    apply shape_copy; assumption.
  - clear E. unfold replace.
    destruct (N.eqb_spec c 92) as [-> |]; [apply shape_short; [discriminate | reflexivity] |].
    destruct (N.eqb_spec c 34) as [-> |]; [apply shape_short; [discriminate | reflexivity] |].
    destruct (N.eqb_spec c 8) as [-> |]; [apply shape_short; [discriminate | reflexivity] |].
    destruct (N.eqb_spec c 12) as [-> |]; [apply shape_short; [discriminate | reflexivity] |].
    destruct (N.eqb_spec c 10) as [-> |]; [apply shape_short; [discriminate | reflexivity] |].
    destruct (N.eqb_spec c 13) as [-> |]; [apply shape_short; [discriminate | reflexivity] |].
    destruct (N.eqb_spec c 9) as [-> |]; [apply shape_short; [discriminate | reflexivity] |].
    destruct (N.ltb_spec c 65536) as [L | G].
    + destruct (decode_format c L) as (h1 & h2 & h3 & h4 & F & D).
      rewrite F. apply shape_u; exact D.
    + destruct (surrogate_halves c G U) as (B1 & B2 & Hi & Lo & C).
      cbv zeta.
      destruct (decode_format _ B1) as (h1 & h2 & h3 & h4 & F1 & D1).
      destruct (decode_format _ B2) as (l1 & l2 & l3 & l4 & F2 & D2).
      rewrite F1, F2. cbn [app].
      eapply shape_pair; eauto.
      unfold is_high_surrogate. apply andb_false_intro2. apply N.leb_gt. lia.
Qed.

Lemma scan_shape (c : N) (e T : str) :
  escape_shape c e ->
  (is_high_surrogate c = true -> low_escape_ahead T = false) ->
  scanstring (e ++ T) = append_char c (scanstring T).
Proof.
  intros S A. destruct S as [N34 N92 G | x Nu B | h1 h2 h3 h4 D
                            | h1 h2 h3 h4 l1 l2 l3 l4 hi lo D1 D2 Hi Lo C NH].
  - cbn [app scanstring].
    apply N.eqb_neq in N34, N92. rewrite N34, N92.
    destruct (N.ltb_spec c 32); [lia | reflexivity].
  - cbn [app scanstring]. cbn [N.eqb Pos.eqb].
    apply N.eqb_neq in Nu. rewrite Nu, B. reflexivity.
  - cbn [app scanstring]. cbn [N.eqb Pos.eqb]. rewrite D.
    destruct (is_high_surrogate c) eqn:H; [| reflexivity].
    specialize (A eq_refl).
    destruct T as [| b1 [| b2 r]]; try reflexivity.
    + destruct (b1 =? 92); reflexivity.
    + unfold low_escape_ahead in A.
      destruct (b1 =? 92); [| reflexivity].
      destruct (b2 =? 117); [| reflexivity].
      cbn [andb] in A.
      destruct r as [| l1 [| l2 [| l3 [| l4 r]]]]; try discriminate A.
      destruct (_decode_uXXXX l1 l2 l3 l4); [| discriminate A].
      rewrite A. reflexivity.
  - cbn [app scanstring]. cbn [N.eqb Pos.eqb]. rewrite D1, Hi, D2, Lo, C.
    reflexivity.
Qed.

Lemma shape_not_low_ahead (c : N) (e T : str) :
  escape_shape c e -> is_low_surrogate c = false ->
  low_escape_ahead (e ++ T) = false.
Proof.
  intros S L. destruct S as [N34 N92 G | x Nu B | h1 h2 h3 h4 D
                            | h1 h2 h3 h4 l1 l2 l3 l4 hi lo D1 D2 Hi Lo C NH].
  - cbn [app]. destruct T; [reflexivity |]. unfold low_escape_ahead.
    apply N.eqb_neq in N92. rewrite N92. reflexivity.
  - cbn [app]. unfold low_escape_ahead.
    apply N.eqb_neq in Nu. rewrite Nu, andb_false_r. reflexivity.
  - cbn [app]. unfold low_escape_ahead. cbn [N.eqb Pos.eqb andb].
    rewrite D. exact L.
  - cbn [app]. unfold low_escape_ahead. cbn [N.eqb Pos.eqb andb].
    rewrite D1. apply high_is_not_low; exact Hi.
Qed.

Lemma scanstring_escaped (s rest : str) :
  plain_text s = true ->
  scanstring (flat_map escape_ascii s ++ 34 :: rest) = Some (s, rest).
Proof.
  unfold plain_text. intros H. apply andb_prop in H. destruct H as [V P].
  induction s as [| c s IH]; [reflexivity |].
  cbn [code_points forallb] in V. apply andb_prop in V. destruct V as [Vc V].
  apply N.ltb_lt in Vc.
  cbn [no_surrogate_pair] in P. apply andb_prop in P. destruct P as [Pc P].
  cbn [flat_map]. rewrite <- app_assoc.
  rewrite (scan_shape c).
  - rewrite (IH V P). reflexivity.
  - apply escape_ascii_shape; exact Vc.
  - intros Hi. destruct s as [| c2 s]; [destruct rest; reflexivity |].
    rewrite Hi in Pc. cbn [andb] in Pc. apply negb_true_iff in Pc.
    cbn [flat_map]. rewrite <- app_assoc.
    apply (shape_not_low_ahead c2); [| exact Pc].
    cbn [code_points forallb] in V. apply andb_prop in V.
    apply escape_ascii_shape, N.ltb_lt, V.
Qed.

Lemma JSONArray_values_encoded (l : list str) :
  forallb plain_text l = true -> l <> [] ->
  forall (fuel : nat) (tail : str),
    (List.length l <= fuel)%nat ->
    JSONArray_values fuel
      (join [44; 32] (map py_encode_basestring_ascii l) ++ 93 :: tail)
    = Some (l, tail).
Proof.
  induction l as [| x l IH]; [congruence |].
  intros W _ fuel tail F.
  cbn [forallb] in W. apply andb_prop in W. destruct W as [Wx W].
  destruct fuel as [| fuel]; [cbn in F; lia |].
  cbn [List.length] in F. apply le_S_n in F.
  destruct l as [| y l].
  - cbn [map join]. unfold py_encode_basestring_ascii.
    cbn [app]. rewrite <- app_assoc. cbn [app].
    cbn [JSONArray_values]. cbn [N.eqb Pos.eqb].
    rewrite (scanstring_escaped x _ Wx). reflexivity.
  - specialize (IH W ltac:(discriminate) fuel tail F).
    change (join [44; 32] (map py_encode_basestring_ascii (x :: y :: l)))
      with (py_encode_basestring_ascii x ++ [44; 32]
            ++ join [44; 32] (map py_encode_basestring_ascii (y :: l))).
    revert IH.
    generalize (join [44; 32] (map py_encode_basestring_ascii (y :: l))).
    intros J IH.
    unfold py_encode_basestring_ascii.
    cbn [app]. rewrite <- !app_assoc. cbn [app].
    cbn [JSONArray_values]. cbn [N.eqb Pos.eqb].
    rewrite (scanstring_escaped x _ Wx).
    cbn [skip_whitespace is_whitespace N.eqb Pos.eqb orb].
    destruct J as [| j J].
    + destruct fuel; discriminate IH.
    + assert (Hj : j = 34).
      { destruct fuel; [discriminate IH |].
        cbn [app JSONArray_values] in IH.
        destruct (N.eqb_spec j 34); [assumption | discriminate IH]. }
      subst j. cbn [app skip_whitespace is_whitespace N.eqb Pos.eqb orb].
      cbn [app] in IH. rewrite IH. reflexivity.
Qed.

Lemma join_encoded_length (l : list str) :
  (List.length l
   <= List.length (join [44; 32]%N (map py_encode_basestring_ascii l)))%nat.
Proof.
  induction l as [| x l IH]; [apply Nat.le_refl |].
  destruct l as [| y l].
  - cbn [map join]. unfold py_encode_basestring_ascii. cbn. lia.
  - change (join [44; 32] (map py_encode_basestring_ascii (x :: y :: l)))
      with (py_encode_basestring_ascii x ++ [44; 32]
            ++ join [44; 32] (map py_encode_basestring_ascii (y :: l))).
    rewrite !length_app. cbn [List.length] in *. lia.
Qed.

Lemma loads_dumps (l : list str) :
  forallb plain_text l = true -> loads (dumps l) = Some l.
Proof.
  intros W. unfold dumps, loads.
  cbn [skip_whitespace is_whitespace N.eqb Pos.eqb orb].
  destruct l as [| x l]; [reflexivity |].
  unfold JSONArray.
  pose proof (JSONArray_values_encoded (x :: l) W ltac:(discriminate)) as V.
  pose proof (join_encoded_length (x :: l)) as Len.
  revert V Len.
  generalize (join [44; 32] (map py_encode_basestring_ascii (x :: l))).
  intros J V Len.
  specialize (V (List.length (J ++ [93])) []).
  rewrite length_app in V. specialize (V ltac:(lia)).
  rewrite <- length_app in V.
  destruct J as [| j J]; [discriminate V |].
  assert (Hj : j = 34).
  { cbn [app List.length JSONArray_values] in V.
    destruct (N.eqb_spec j 34); [assumption | discriminate V]. }
  subst j. cbn [app skip_whitespace is_whitespace N.eqb Pos.eqb orb].
  cbn [app] in V. rewrite V. reflexivity.
Qed.

Lemma hexdigit_printable (d : N) :
  d < 16 -> 32 <= hexdigit d /\ hexdigit d <= 126.
Proof.
  intros H. unfold hexdigit. destruct (N.ltb_spec d 10); lia.
Qed.

Lemma printable_app (a b : str) :
  printable (a ++ b) = printable a && printable b.
Proof. apply forallb_app. Qed.

Lemma format_printable (n : N) : printable (format_04x n) = true.
Proof.
  unfold format_04x, printable. cbn [forallb].
  assert (H : forall d, d < 16 -> (32 <=? hexdigit d) && (hexdigit d <=? 126) = true).
  { intros d B. destruct (hexdigit_printable d B).
    apply andb_true_intro; split; apply N.leb_le; assumption. }
  rewrite !H by (apply N.mod_lt; discriminate). reflexivity.
Qed.

Lemma escape_printable (c : N) : printable (escape_ascii c) = true.
Proof.
  unfold escape_ascii.
  destruct ((32 <=? c) && (c <=? 126) && negb (c =? 92) && negb (c =? 34)) eqn:E.
  - apply andb_prop in E. destruct E as [E _]. apply andb_prop in E.
    destruct E as [E _]. unfold printable. cbn [forallb]. rewrite E. reflexivity.
  - unfold replace.
    repeat match goal with
           | |- context [if ?b then _ else _] => destruct b; [reflexivity |]
           end.
    assert (U : forall n, printable (92 :: 117 :: format_04x n) = true).
    { intros n. change (printable (92 :: 117 :: format_04x n))
        with (true && (true && printable (format_04x n))).
      rewrite format_printable. reflexivity. }
    destruct (c <? 65536); [apply U |].
    cbv zeta. rewrite printable_app, !U. reflexivity.
Qed.

Lemma encoded_printable (s : str) :
  printable (py_encode_basestring_ascii s) = true.
Proof.
  unfold py_encode_basestring_ascii.
  change (34 :: flat_map escape_ascii s ++ [34])
    with ([34] ++ flat_map escape_ascii s ++ [34]).
  rewrite !printable_app.
  assert (H : printable (flat_map escape_ascii s) = true).
  { induction s as [| c s IH]; [reflexivity |]. cbn [flat_map].
    rewrite printable_app, escape_printable, IH. reflexivity. }
  rewrite H. reflexivity.
Qed.

Lemma dumps_printable (L : list str) : printable (dumps L) = true.
Proof.
  unfold dumps.
  change (91 :: join [44; 32] (map py_encode_basestring_ascii L) ++ [93])
    with ([91] ++ join [44; 32] (map py_encode_basestring_ascii L) ++ [93]).
  rewrite !printable_app.
  assert (H : printable (join [44; 32] (map py_encode_basestring_ascii L)) = true).
  { induction L as [| x L IH]; [reflexivity |].
    destruct L as [| y L].
    - cbn [map join]. apply encoded_printable.
    - change (join [44; 32] (map py_encode_basestring_ascii (x :: y :: L)))
        with (py_encode_basestring_ascii x ++ [44; 32]
              ++ join [44; 32] (map py_encode_basestring_ascii (y :: L))).
      rewrite !printable_app, encoded_printable, IH. reflexivity. }
  rewrite H. reflexivity.
Qed.

Lemma printable_utf8 (s : str) : printable s = true -> sqlite3.utf8 s = true.
Proof.
  unfold printable, sqlite3.utf8. intros H. rewrite forallb_forall in *.
  intros c I. specialize (H c I). cbn beta in H.
  apply andb_prop in H. destruct H as [_ H]. apply N.leb_le in H.
  apply orb_true_iff. left. apply N.ltb_lt. lia.
Qed.

(** What [json.dumps] writes can always be bound. *)
Lemma dumps_utf8 (L : list str) : sqlite3.utf8 (dumps L) = true.
Proof. apply printable_utf8, dumps_printable. Qed.

End JsonFacts.


(** ** Binding the parameters *)

Section Binding.
Import sqlite3.
Local Open Scope Z_scope.

Lemma bindable_bind (c : call) : bindable c = true -> bind (arguments c) = None.
Proof.
  unfold bindable. destruct (bind (arguments c)); [discriminate | reflexivity].
Qed.

Lemma bind_error (params : list value) (e : exn) :
  bind params = Some e -> e = OverflowError \/ e = UnicodeEncodeError.
Proof.
  induction params as [| v r IH]; [discriminate |]. cbn [bind].
  destruct v as [| z | u]; cbn [bind_param]; [exact IH | |].
  - destruct (int64 z); [exact IH |]. intros E. injection E as <-. left. reflexivity.
  - destruct (utf8 u); [exact IH |]. intros E. injection E as <-. right. reflexivity.
Qed.

Lemma execute_unbound (self : Database.t) (q : statement) (params : list value)
  (fetch : bool) (e : exn) :
  parameter_count q = List.length params ->
  bind params = Some e ->
  Database._execute self q params fetch = Database.Raise self e.
Proof.
  intros C B. unfold Database._execute, execute.
  rewrite C, Nat.eqb_refl, B. reflexivity.
Qed.

(** A call with a parameter that cannot be bound raises what the binding
    raises, and the statement does not run. *)
Lemma invoke_unbound (self : Database.t) (c : call) (e : exn) :
  bind (arguments c) = Some e -> invoke self c = Database.Raise self e.
Proof.
  intros B. destruct c; cbn [invoke arguments] in *;
    apply execute_unbound; solve [reflexivity | exact B].
Qed.

Lemma unbindable_raises (self : Database.t) (c : call) :
  bindable c = false ->
  exists e, (e = OverflowError \/ e = UnicodeEncodeError)
            /\ invoke self c = Database.Raise self e.
Proof.
  unfold bindable. destruct (bind (arguments c)) as [e |] eqn:B; [| discriminate].
  intros _. exists e. split; [exact (bind_error _ _ B) | exact (invoke_unbound self c e B)].
Qed.

Lemma int64_int (m : bool) : int64 (Database.int m) = true.
Proof. destruct m; reflexivity. Qed.

Lemma str_eqb_eq (a b : str) : str_eqb a b = true <-> a = b.
Proof.
  revert b. induction a as [| x a IH]; intros [| y b]; cbn [str_eqb].
  - tauto.
  - split; discriminate.
  - split; discriminate.
  - rewrite andb_true_iff, N.eqb_eq, IH. split.
    + intros [-> ->]; reflexivity.
    + intros E; injection E; auto.
Qed.

Lemma allowed_utf8 (ty : str) : site_type_allowed ty = true -> utf8 ty = true.
Proof.
  unfold site_type_allowed. cbn [existsb]. intros H.
  repeat (apply orb_prop in H; destruct H as [H | H];
          [apply str_eqb_eq in H; subst ty; reflexivity |]).
  discriminate H.
Qed.

End Binding.

Ltac bindable_intro :=
  unfold bindable; cbn [arguments sqlite3.bind sqlite3.bind_param];
  rewrite ?dumps_utf8, ?int64_int;
  repeat match goal with
         | H : sqlite3.int64 _ = true |- _ => rewrite H
         | H : sqlite3.utf8 _ = true |- _ => rewrite H
         end;
  reflexivity.

Ltac bound B :=
  apply bindable_bind in B; cbn [arguments] in B;
  unfold Database._execute, sqlite3.execute;
  cbn [sqlite3.parameter_count List.length Nat.eqb negb];
  rewrite B; clear B; unfold sqlite3.step.

Ltac roomy R :=
  unfold room in R; apply negb_true_iff in R; cbn [sqlite3.get] in R;
  unfold sqlite3.insert; cbv zeta; cbn [sqlite3.get]; rewrite R; clear R.

(** ** The statements of the store *)

Section StoreFacts.
Import sqlite3.
Local Open Scope Z_scope.

Lemma table_eta (x : table) : {| rows := rows x; seq := seq x |} = x.
Proof. destruct x; reflexivity. Qed.

Lemma filter_keeps_all {A} (p : A -> bool) (l : list A) :
  filter p l = [] -> filter (fun r => negb (p r)) l = l.
Proof.
  induction l as [| a l IH]; [reflexivity |]. cbn [filter].
  destruct (p a); [discriminate |]. intros E. cbn [negb]. rewrite (IH E).
  reflexivity.
Qed.

Lemma without_unselected (p : row -> bool) (x : table) :
  filter p (rows x) = [] -> without p x = x.
Proof.
  intros E. unfold without. rewrite (filter_keeps_all _ _ E). apply table_eta.
Qed.

Lemma refers_to_nothing (l : list row) : filter (refers_to []) l = [].
Proof. induction l as [| a l IH]; [reflexivity | exact IH]. Qed.


Lemma delete_channel_eq (self : Database.t) (cid : Z) :
  bindable (Delete_channel cid) = true ->
  foreign_keys self = true ->
  Database.delete_channel self cid
  = Database.Return (after_delete_channel self cid) PNone.
Proof.
  intros B FK. unfold after_delete_channel.
  unfold Database.delete_channel. bound B. unfold delete, max_trigger_depth.
  cbn -[Z.eqb]. rewrite FK.
  fold (id_is cid).
  destruct (filter (id_is cid) (rows (tbl_channels self))) as [| c gc] eqn:Ec.
  - rewrite (without_unselected (refers_to []) (tbl_sources self))
      by apply refers_to_nothing.
    rewrite refers_to_nothing.
    rewrite (without_unselected (refers_to []) (tbl_sites self))
      by apply refers_to_nothing.
    reflexivity.
  - change (fun r0 : row => existsb (fun g : row => sql_eq (nth 1 r0 Null) (nth 0 g Null)) (c :: gc))
      with (refers_to (c :: gc)).
    destruct (filter (refers_to (c :: gc)) (rows (tbl_sources self))) as [| s gs] eqn:Es.
    + rewrite (without_unselected (refers_to []) (tbl_sites self))
        by apply refers_to_nothing.
      reflexivity.
    + change (fun r0 : row => existsb (fun g : row => sql_eq (nth 1 r0 Null) (nth 0 g Null)) (s :: gs))
        with (refers_to (s :: gs)).
      destruct (filter (refers_to (s :: gs)) (rows (tbl_sites self))); reflexivity.
Qed.

Lemma delete_source_eq (self : Database.t) (sid : Z) :
  bindable (Delete_source sid) = true ->
  foreign_keys self = true ->
  Database.delete_source self sid
  = Database.Return (after_delete_source self sid) PNone.
Proof.
  intros B FK. unfold after_delete_source.
  unfold Database.delete_source. bound B. unfold delete, max_trigger_depth.
  cbn -[Z.eqb]. rewrite FK.
  fold (id_is sid).
  destruct (filter (id_is sid) (rows (tbl_sources self))) as [| c gc] eqn:Ec.
  - rewrite (without_unselected (refers_to []) (tbl_sites self))
      by apply refers_to_nothing.
    reflexivity.
  - change (fun r0 : row => existsb (fun g : row => sql_eq (nth 1 r0 Null) (nth 0 g Null)) (c :: gc))
      with (refers_to (c :: gc)).
    destruct (filter (refers_to (c :: gc)) (rows (tbl_sites self))); reflexivity.
Qed.

Lemma delete_site_eq (self : Database.t) (tid : Z) :
  bindable (Delete_site tid) = true ->
  Database.delete_site self tid
  = Database.Return (after_delete_site self tid) PNone.
Proof.
  intros B. unfold after_delete_site.
  unfold Database.delete_site. bound B. unfold delete, max_trigger_depth.
  cbn -[Z.eqb]. fold (id_is tid).
  destruct (filter (id_is tid) (rows (tbl_sites self))); [reflexivity |].
  destruct (foreign_keys self); reflexivity.
Qed.

Lemma create_channel_eq (self : Database.t) (name url : str)
  (post_times forbidden_words : list str) :
  bindable (Create_channel name url post_times forbidden_words) = true ->
  room self channels = true ->
  Database.create_channel self name url post_times forbidden_words
  = if holds self channels "name" (Text name) || holds self channels "url" (Text url)
    then Database.Raise self (IntegrityError UNIQUE)
    else Database.Return
           (appended self channels
              (fun rid => channel_row rid name url post_times forbidden_words))
           PNone.
Proof.
  intros B R. unfold Database.create_channel, appended, channel_row.
  bound B. roomy R.
  generalize (json.dumps post_times) (json.dumps forbidden_words). intros p f.
  cbn -[next_rowid Z.add holds].
  change (existsb (fun o : list value => sql_eq (nth 1 o Null) (Text name))
                  (rows (tbl_channels self)))
    with (holds self channels "name" (Text name)).
  change (existsb (fun o : list value => sql_eq (nth 2 o Null) (Text url))
                  (rows (tbl_channels self)))
    with (holds self channels "url" (Text url)).
  destruct (holds self channels "name" (Text name)); [reflexivity |].
  destruct (holds self channels "url" (Text url)); [reflexivity |].
  cbn [negb andb orb]. unfold foreign_keys_ok. cbn [forallb].
  rewrite orb_true_r. reflexivity.
Qed.

Lemma create_source_eq (self : Database.t) (channel_id : Z) (url : str)
  (parse_media : bool) (forbidden_words : list str) :
  bindable (Create_source channel_id url parse_media forbidden_words) = true ->
  room self sources = true ->
  Database.create_source self channel_id url parse_media forbidden_words
  = if foreign_keys self && negb (holds self channels "id" (Int channel_id))
    then Database.Raise self (IntegrityError FOREIGN_KEY)
    else Database.Return
           (appended self sources
              (fun rid => source_row rid channel_id url parse_media forbidden_words))
           PNone.
Proof.
  intros B R. unfold Database.create_source, appended, source_row.
  bound B. roomy R.
  generalize (json.dumps forbidden_words). intros f.
  cbn -[next_rowid Z.add Z.eqb Database.int holds].
  unfold foreign_keys_ok, parent_exists.
  cbn -[next_rowid Z.add Z.eqb Database.int holds].
  change (existsb (fun p : row => sql_eq (nth 0 p Null) (Int channel_id))
                  (rows (tbl_channels self)))
    with (holds self channels "id" (Int channel_id)).
  destruct (foreign_keys self); [| reflexivity].
  cbn [negb orb andb]. rewrite andb_true_r.
  destruct (holds self channels "id" (Int channel_id)); reflexivity.
Qed.

Lemma create_site_eq (self : Database.t) (source_id : Z) (site_url site_type : str) :
  bindable (Create_site source_id site_url site_type) = true ->
  room self sites = true ->
  Database.create_site self source_id site_url site_type
  = if negb (site_type_allowed site_type)
    then Database.Raise self (IntegrityError CHECK)
    else if foreign_keys self && negb (holds self sources "id" (Int source_id))
    then Database.Raise self (IntegrityError FOREIGN_KEY)
    else Database.Return
           (appended self sites (fun rid => site_row rid source_id site_url site_type))
           PNone.
Proof.
  intros B R. unfold Database.create_site, appended, site_row.
  bound B. roomy R.
  cbn -[next_rowid Z.add Z.eqb str_eqb lit holds site_type_allowed].
  rewrite !andb_true_r.
  change (str_eqb site_type (lit "AUTO")
          || (str_eqb site_type (lit "RENT")
              || (str_eqb site_type (lit "BUY")
                  || (str_eqb site_type (lit "FREE") || false))))
    with (site_type_allowed site_type).
  destruct (site_type_allowed site_type); [| reflexivity].
  cbn [negb].
  unfold foreign_keys_ok, parent_exists.
  cbn -[next_rowid Z.add Z.eqb holds].
  change (existsb (fun p : row => sql_eq (nth 0 p Null) (Int source_id))
                  (rows (tbl_sources self)))
    with (holds self sources "id" (Int source_id)).
  destruct (foreign_keys self); [| reflexivity].
  cbn [negb orb andb]. rewrite andb_true_r.
  destruct (holds self sources "id" (Int source_id)); reflexivity.
Qed.

Lemma list_channels_eq (self : Database.t) :
  Database.list_channels self
  = Database.Return self (PRows (map tuple (rows (tbl_channels self)))).
Proof. reflexivity. Qed.

Lemma list_sources_eq (self : Database.t) :
  Database.list_sources self
  = Database.Return self (PRows (map tuple (rows (tbl_sources self)))).
Proof. reflexivity. Qed.

Lemma list_sites_eq (self : Database.t) :
  Database.list_sites self
  = Database.Return self (PRows (map tuple (rows (tbl_sites self)))).
Proof. reflexivity. Qed.

Lemma existsb_false_filter {A} (p : A -> bool) (l : list A) :
  existsb p l = false -> filter p l = [].
Proof.
  induction l as [| a l IH]; [reflexivity |]. cbn [existsb filter].
  destruct (p a); [discriminate |]. exact IH.
Qed.

Lemma map_unselected {A} (p : A -> bool) (f : A -> A) (l : list A) :
  filter p l = [] -> map (fun r => if p r then f r else r) l = l.
Proof.
  induction l as [| a l IH]; [reflexivity |]. cbn [filter map].
  destruct (p a); [discriminate |]. intros E. rewrite (IH E). reflexivity.
Qed.

Lemma set_get (self : connection) (t : table_id) : set self t (get self t) = self.
Proof. destruct self, t; reflexivity. Qed.

Lemma updated_unselected (self : Database.t) (t : table_id) (k : Z)
  (f : row -> row) :
  filter (id_is k) (rows (get self t)) = [] -> updated self t k f = self.
Proof.
  intros E. unfold updated. rewrite (map_unselected _ _ _ E), table_eta.
  apply set_get.
Qed.

Lemma absent_unselected (self : Database.t) (t : table_id) (k : Z) :
  holds self t "id" (Int k) = false ->
  filter (id_is k) (rows (get self t)) = [].
Proof.
  intros H. apply existsb_false_filter.
  destruct t; exact H.
Qed.

(** What [update_channel], [update_source] and [update_site] put in the
    place of a row. *)

Lemma update_channel_cases (self : Database.t) (cid : Z) (name url : str)
  (post_times forbidden_words : list str) :
  bindable (Update_channel cid name url post_times forbidden_words) = true ->
  let f r := [hd Null r; Text name; Text url; Text (json.dumps post_times);
              Text (json.dumps forbidden_words)] in
  Database.update_channel self cid name url post_times forbidden_words
  = Database.Return (updated self channels cid f) PNone
  \/ (filter (id_is cid) (rows (tbl_channels self)) <> []
      /\ exists e, Database.update_channel self cid name url post_times forbidden_words
                   = Database.Raise self e).
Proof.
  intros B. unfold Database.update_channel, updated. bound B.
  generalize (json.dumps post_times) (json.dumps forbidden_words). intros p f0.
  unfold update.
  cbn -[Z.eqb violation]. fold (id_is cid).
  destruct (filter (id_is cid) (rows (tbl_channels self))) as [| r0 sel].
  - left. reflexivity.
  - destruct (first_violation _) as [e |].
    + right. split; [discriminate |]. exists e. reflexivity.
    + left. reflexivity.
Qed.

Lemma update_source_cases (self : Database.t) (sid channel_id : Z) (url : str)
  (parse_media : bool) (forbidden_words : list str) :
  bindable (Update_source sid channel_id url parse_media forbidden_words) = true ->
  let f r := [hd Null r; Int channel_id; Text url; Int (Database.int parse_media);
              Text (json.dumps forbidden_words)] in
  Database.update_source self sid channel_id url parse_media forbidden_words
  = Database.Return (updated self sources sid f) PNone
  \/ (filter (id_is sid) (rows (tbl_sources self)) <> []
      /\ exists e, Database.update_source self sid channel_id url parse_media
                     forbidden_words
                   = Database.Raise self e).
Proof.
  intros B. unfold Database.update_source, updated. bound B.
  generalize (json.dumps forbidden_words). intros f0.
  unfold update.
  cbn -[Z.eqb violation Database.int]. fold (id_is sid).
  destruct (filter (id_is sid) (rows (tbl_sources self))) as [| r0 sel].
  - left. reflexivity.
  - destruct (first_violation _) as [e |].
    + right. split; [discriminate |]. exists e. reflexivity.
    + left. reflexivity.
Qed.

Lemma update_site_cases (self : Database.t) (tid source_id : Z)
  (site_url site_type : str) :
  bindable (Update_site tid source_id site_url site_type) = true ->
  let f r := [hd Null r; Int source_id; Text site_url; Text site_type] in
  Database.update_site self tid source_id site_url site_type
  = Database.Return (updated self sites tid f) PNone
  \/ (filter (id_is tid) (rows (tbl_sites self)) <> []
      /\ exists e, Database.update_site self tid source_id site_url site_type
                   = Database.Raise self e).
Proof.
  intros B. unfold Database.update_site, updated. bound B.
  unfold update.
  cbn -[Z.eqb violation]. fold (id_is tid).
  destruct (filter (id_is tid) (rows (tbl_sites self))) as [| r0 sel].
  - left. reflexivity.
  - destruct (first_violation _) as [e |].
    + right. split; [discriminate |]. exists e. reflexivity.
    + left. reflexivity.
Qed.

Lemma rowid_first (t : table_id) (r : row) :
  rowid (Database.schema t) r = nth 0 r Null.
Proof. destruct t; reflexivity. Qed.

Lemma rowids_app (d : table_def) (l1 l2 : list row) :
  rowids d (l1 ++ l2) = rowids d l1 ++ rowids d l2.
Proof.
  induction l1 as [| r l1 IH]; [reflexivity |]. cbn [app rowids].
  rewrite IH. destruct (rowid d r); reflexivity.
Qed.

Lemma get_set_same (self : connection) (t : table_id) (x : table) :
  get (set self t x) t = x.
Proof. destruct t; reflexivity. Qed.

Lemma get_set_other (self : connection) (t u : table_id) (x : table) :
  t <> u -> get (set self t x) u = get self u.
Proof. destruct t, u; intros N; try reflexivity; congruence. Qed.

Lemma ids_appended (self : Database.t) (t : table_id) (r : Z -> row) :
  (forall rid, nth 0 (r rid) Null = Int rid) ->
  ids (appended self t r) t
  = ids self t ++ [next_rowid (Database.schema t) (get self t)].
Proof.
  intros K. unfold ids, appended. rewrite get_set_same. cbn [rows].
  rewrite rowids_app. cbn [rowids]. rewrite rowid_first, K. reflexivity.
Qed.

Lemma max_bounds (l : list Z) (b j : Z) :
  In j l -> j <= fold_right Z.max b l.
Proof.
  induction l as [| a l IH]; [intros [] |]. cbn [fold_right In].
  intros [-> | H]; [lia |]. specialize (IH H). lia.
Qed.

Lemma max_above_base (l : list Z) (b : Z) : b <= fold_right Z.max b l.
Proof. induction l as [| a l IH]; cbn [fold_right]; lia. Qed.

Lemma next_rowid_fresh (self : Database.t) (t : table_id) (j : Z) :
  In j (ids self t) -> j < next_rowid (Database.schema t) (get self t).
Proof.
  intros H. unfold next_rowid, largest_rowid.
  pose proof (max_bounds _ (seq (get self t)) j H) as M. unfold ids in *.
  destruct (rowids (Database.schema t) (rows (get self t))); [destruct H | lia].
Qed.

Lemma next_rowid_above_seq (self : Database.t) (t : table_id) :
  seq (get self t) < next_rowid (Database.schema t) (get self t).
Proof.
  unfold next_rowid, largest_rowid.
  pose proof (max_above_base (rowids (Database.schema t) (rows (get self t)))
                             (seq (get self t))).
  destruct (rowids (Database.schema t) (rows (get self t))); lia.
Qed.

(** A create on a table that has no key left fails before any constraint
    is looked at. *)
Lemma create_full (self : Database.t) (c : call) (t : table_id) :
  bindable c = true ->
  creates c = Some t ->
  room self t = false ->
  invoke self c = Database.Raise self OperationalError.
Proof.
  intros B C R. unfold room in R. apply negb_false_iff in R.
  destruct c; cbn [creates] in C; inversion C; subst t; clear C;
    cbn [get] in R; cbn [invoke].
  - unfold Database.create_channel. bound B. unfold insert. cbv zeta.
    cbn [get List.length Nat.eqb negb]. rewrite R. reflexivity.
  - unfold Database.create_source. bound B. unfold insert. cbv zeta.
    cbn [get List.length Nat.eqb negb]. rewrite R. reflexivity.
  - unfold Database.create_site. bound B. unfold insert. cbv zeta.
    cbn [get List.length Nat.eqb negb]. rewrite R. reflexivity.
Qed.

(** A call whose statement does not run raises and changes nothing. *)
Lemma invoke_split (self : Database.t) (c : call) :
  (exists e, invoke self c = Database.Raise self e)
  \/ (bindable c = true /\ out_of_keys self c = false).
Proof.
  destruct (bindable c) eqn:B;
    [| left; destruct (unbindable_raises self c B) as (e & _ & E); exists e; exact E].
  destruct (out_of_keys self c) eqn:O; [| right; split; reflexivity].
  left. unfold out_of_keys in O. destruct (creates c) as [t |] eqn:C; [| discriminate O].
  apply negb_true_iff in O. eexists. exact (create_full self c t B C O).
Qed.

(** How a create ends. *)
Lemma create_outcome (self : Database.t) (c : call) (t : table_id) :
  creates c = Some t ->
  (exists e, invoke self c = Database.Raise self e)
  \/ (bindable c = true /\ room self t = true).
Proof.
  intros C. destruct (bindable c) eqn:B.
  - destruct (room self t) eqn:R; [right; split; reflexivity |].
    left. eexists. exact (create_full self c t B C R).
  - left. destruct (unbindable_raises self c B) as (e & _ & E). exists e. exact E.
Qed.

(** A call that creates and returns: it returns [None], and leaves one
    more row, keyed by the next key. *)
Lemma create_returns (self s' : Database.t) (c : call) (t : table_id) (v : pyval) :
  creates c = Some t ->
  invoke self c = Database.Return s' v ->
  v = PNone
  /\ exists r, (forall rid, nth 0 (r rid) Null = Int rid) /\ s' = appended self t r.
Proof.
  intros C E.
  destruct (create_outcome self c t C) as [[e R] | [B R]];
    [rewrite R in E; discriminate E |].
  destruct c; cbn [creates invoke] in *; inversion C; subst t; clear C.
  - rewrite (create_channel_eq _ _ _ _ _ B R) in E.
    destruct (_ || _); [discriminate E |]. injection E as <- <-.
    split; [reflexivity |].
    exists (fun rid => channel_row rid name url post_times forbidden_words).
    split; reflexivity.
  - rewrite (create_source_eq _ _ _ _ _ B R) in E.
    destruct (_ && _); [discriminate E |]. injection E as <- <-.
    split; [reflexivity |].
    exists (fun rid => source_row rid channel_id url parse_media forbidden_words).
    split; reflexivity.
  - rewrite (create_site_eq _ _ _ _ B R) in E.
    destruct (negb _); [discriminate E |].
    destruct (_ && _); [discriminate E |]. injection E as <- <-.
    split; [reflexivity |].
    exists (fun rid => site_row rid source_id site_url site_type).
    split; reflexivity.
Qed.


Lemma delete_channel_absent (self : Database.t) (k : Z) :
  bindable (Delete_channel k) = true ->
  filter (id_is k) (rows (tbl_channels self)) = [] ->
  Database.delete_channel self k = Database.Return self PNone.
Proof.
  intros B E.
  unfold Database.delete_channel. bound B. unfold delete, max_trigger_depth.
  pose proof (filter_keeps_all _ _ E) as K. unfold id_is in K, E.
  cbn -[Z.eqb]. rewrite E, K.
  destruct self as [fk [rc sc] [rs ss] [rt st]]; reflexivity.
Qed.

Lemma delete_source_absent (self : Database.t) (k : Z) :
  bindable (Delete_source k) = true ->
  filter (id_is k) (rows (tbl_sources self)) = [] ->
  Database.delete_source self k = Database.Return self PNone.
Proof.
  intros B E.
  unfold Database.delete_source. bound B. unfold delete, max_trigger_depth.
  pose proof (filter_keeps_all _ _ E) as K. unfold id_is in K, E.
  cbn -[Z.eqb]. rewrite E, K.
  destruct self as [fk [rc sc] [rs ss] [rt st]]; reflexivity.
Qed.

Lemma delete_site_absent (self : Database.t) (k : Z) :
  bindable (Delete_site k) = true ->
  filter (id_is k) (rows (tbl_sites self)) = [] ->
  Database.delete_site self k = Database.Return self PNone.
Proof.
  intros B E. rewrite (delete_site_eq self k B). unfold after_delete_site.
  rewrite (without_unselected _ _ E). destruct self; reflexivity.
Qed.

(** Whatever the foreign-key setting, a DELETE leaves its own table
    without the rows it selected. *)
Lemma delete_channel_own_table (self : Database.t) (k : Z) :
  bindable (Delete_channel k) = true ->
  tbl_channels (Database.state (Database.delete_channel self k))
  = without (id_is k) (tbl_channels self).
Proof.
  intros B. destruct (foreign_keys self) eqn:FK.
  - rewrite (delete_channel_eq self k B FK). reflexivity.
  - unfold Database.delete_channel. bound B. unfold delete, max_trigger_depth.
    cbn -[Z.eqb]. rewrite FK. fold (id_is k).
    destruct (filter (id_is k) (rows (tbl_channels self))); reflexivity.
Qed.


Lemma absent_call (self : Database.t) (c : call) (t : table_id) (k : Z) :
  bindable c = true ->
  target c = Some (t, k) ->
  filter (id_is k) (rows (get self t)) = [] ->
  invoke self c = Database.Return self PNone.
Proof.
  intros B. destruct c; cbn [target invoke]; intros T E; inversion T; subst; clear T.
  - destruct (update_channel_cases self k name url post_times forbidden_words B)
      as [R | [N _]]; [| contradiction].
    rewrite R, (updated_unselected self channels k _ E). reflexivity.
  - apply delete_channel_absent; assumption.
  - destruct (update_source_cases self k channel_id url parse_media forbidden_words B)
      as [R | [N _]]; [| contradiction].
    rewrite R, (updated_unselected self sources k _ E). reflexivity.
  - apply delete_source_absent; assumption.
  - destruct (update_site_cases self k source_id site_url site_type B)
      as [R | [N _]]; [| contradiction].
    rewrite R, (updated_unselected self sites k _ E). reflexivity.
  - apply delete_site_absent; assumption.
Qed.

Lemma sql_eq_Int (v : value) (k : Z) : sql_eq v (Int k) = true <-> v = Int k.
Proof.
  destruct v as [| z | u]; cbn [sql_eq]; try (split; discriminate).
  rewrite Z.eqb_eq. split; [intros -> | intros E; injection E]; auto.
Qed.


Lemma holds_iff (self : Database.t) (t : table_id) (k : string) (v : value) :
  holds self t k v = true
  <-> exists r, In r (rows (get self t))
                /\ sql_eq (cell (Database.schema t) k r) v = true.
Proof. unfold holds. apply existsb_exists. Qed.

Lemma to_python_inj (a b : value) : to_python a = to_python b -> a = b.
Proof. destruct a, b; cbn; intros E; inversion E; reflexivity. Qed.

Lemma tuple_inj (a b : row) : tuple a = tuple b -> a = b.
Proof.
  revert b. induction a as [| x a IH]; intros [| y b] E; try discriminate E.
  - reflexivity.
  - cbn [tuple map] in E. injection E as E1 E2.
    apply to_python_inj in E1. apply IH in E2. congruence.
Qed.

Lemma in_tuples (r : row) (l : list row) : In (tuple r) (map tuple l) -> In r l.
Proof.
  intros H. apply in_map_iff in H. destruct H as (r' & E & I).
  apply tuple_inj in E. subst r'. exact I.
Qed.

Lemma not_in_without (p : row -> bool) (x : table) (r : row) :
  p r = true -> ~ In (tuple r) (map tuple (rows (without p x))).
Proof.
  intros P H. apply in_tuples in H. unfold without in H. cbn [rows] in H.
  apply filter_In in H. destruct H as [_ H]. rewrite P in H. discriminate H.
Qed.

Lemma update_site_check (self : Database.t) (tid source_id : Z)
  (site_url site_type : str) :
  bindable (Update_site tid source_id site_url site_type) = true ->
  site_type_allowed site_type = false ->
  holds self sites "id" (Int tid) = true ->
  Database.update_site self tid source_id site_url site_type
  = Database.Raise self (IntegrityError CHECK).
Proof.
  intros B A H.
  assert (S : filter (id_is tid) (rows (tbl_sites self)) <> []).
  { apply holds_iff in H. destruct H as (r & I & E). intros F.
    assert (I' : In r (filter (id_is tid) (rows (tbl_sites self))))
      by (apply filter_In; split; [exact I | exact E]).
    rewrite F in I'. exact I'. }
  unfold Database.update_site. bound B. unfold update.
  cbn -[Z.eqb str_eqb lit site_type_allowed]. fold (id_is tid).
  destruct (filter (id_is tid) (rows (tbl_sites self))) as [| r0 sel];
    [contradiction |].
  cbn -[Z.eqb str_eqb lit site_type_allowed].
  change (str_eqb site_type (lit "AUTO")
          || (str_eqb site_type (lit "RENT")
              || (str_eqb site_type (lit "BUY")
                  || (str_eqb site_type (lit "FREE") || false))))
    with (site_type_allowed site_type).
  rewrite A. reflexivity.
Qed.

Lemma first_is_head (r : row) : nth 0 r Null = hd Null r.
Proof. destruct r; reflexivity. Qed.

Lemma undecoded_tuple (r : row) : forallb undecoded (tuple r) = true.
Proof.
  induction r as [| v r IH]; [reflexivity |]. cbn [tuple map forallb].
  fold (tuple r). rewrite IH. destruct v; reflexivity.
Qed.

End StoreFacts.

Ltac has_room O :=
  unfold out_of_keys in O; cbn [creates] in O; try apply negb_false_iff in O.

(** ** Claims about the encoding *)

Section Encoding.
Import sqlite3.

(** C8, as amended.  For every list [L] of strings in which every
    element is a code point and no high surrogate is immediately followed
    by a low surrogate, the text that [create_channel] and the other
    writers store for [L] is read back as [L] by the decoding of
    [TableFrame.refresh]: [json.loads(json.dumps(L)) == L].  The empty
    list is stored as the two characters of an empty array, and both that
    text and a NULL cell decode to the empty list. *)
Lemma decode_dumps (L : list str) :
  forallb plain_text L = true ->
  TableFrame.decode (FStr (json.dumps L)) = Some L.
Proof. intros W. exact (loads_dumps L W). Qed.

Theorem string_list_round_trip :
  (forall L : list str,
      forallb plain_text L = true ->
      json.loads (json.dumps L) = Some L
      /\ TableFrame.decode (to_python (Text (json.dumps L))) = Some L)
  /\ json.dumps [] = lit "[]"
  /\ TableFrame.decode (to_python (Text (json.dumps []))) = Some []
  /\ TableFrame.decode (to_python Null) = Some [].
Proof.
  split; [| repeat split; reflexivity].
  intros L W. split; [exact (loads_dumps L W) | exact (decode_dumps L W)].
Qed.

Lemma string_list_round_trip_witness :
  let L := [lit "09:00"; [1057; 1087; 1072; 1084]%N; [128512; 55357; 10; 34]%N; []] in
  forallb plain_text L = true
  /\ json.loads (json.dumps L) = Some L
  /\ TableFrame.decode (to_python (Text (json.dumps L))) = Some L.
Proof.
  split; [reflexivity |].
  apply (proj1 string_list_round_trip). reflexivity.
Defined.

(** C8 as stated fails: a string of two code points, a high surrogate
    followed by a low one, is written as two escapes that the decoder
    reads back as one character. *)
Lemma surrogate_pair_not_restored :
  let L := [[55357; 56832]%N] in
  json.loads (json.dumps L) = Some [[128512]%N]
  /\ TableFrame.decode (to_python (Text (json.dumps L))) <> Some L.
Proof.
  split; [reflexivity |]. vm_compute. discriminate.
Qed.

End Encoding.

(** ** Claims about the schema and about what the methods return *)

Section Returns.
Import sqlite3.
Local Open Scope Z_scope.

(** C9, as amended.  The sites table is declared as
    sites(id INTEGER PRIMARY KEY AUTOINCREMENT, channel_id INTEGER NOT
    NULL, site_url TEXT NOT NULL, site_type TEXT CHECK(site_type IN
    ('AUTO','RENT','BUY','FREE')) NOT NULL) with FOREIGN KEY(channel_id)
    REFERENCES sources(id) ON DELETE CASCADE: the parent column is named
    channel_id, it is the column [create_site] stores its [source_id] in,
    and it is declared against sources(id) with cascading delete, so that
    a site whose parameters can be bound, of an allowed type, is refused
    for a [source_id] that no source has. *)
Theorem sites_layout :
  let d := Database.schema sites in
  tbl_name d = "sites"%string
  /\ map col_name (tbl_columns d)
     = ["id"; "channel_id"; "site_url"; "site_type"]%string
  /\ map col_affinity (tbl_columns d) = [INTEGER; INTEGER; TEXT; TEXT]
  /\ map col_not_null (tbl_columns d) = [false; true; true; true]
  /\ map col_primary_key_autoincrement (tbl_columns d) = [true; false; false; false]
  /\ map col_check_in (tbl_columns d)
     = [None; None; None; Some [lit "AUTO"; lit "RENT"; lit "BUY"; lit "FREE"]]
  /\ tbl_foreign_keys d
     = [ {| fk_column := "channel_id"; fk_parent := sources;
            fk_parent_column := "id"; fk_on_delete_cascade := true |} ]
  /\ (forall rid source_id site_url site_type,
         cell d "channel_id" (site_row rid source_id site_url site_type)
         = Int source_id)
  /\ (forall self source_id site_url site_type,
         foreign_keys self = true ->
         int64 source_id = true ->
         utf8 site_url = true ->
         room self sites = true ->
         site_type_allowed site_type = true ->
         holds self sources "id" (Int source_id) = false ->
         Database.create_site self source_id site_url site_type
         = Database.Raise self (IntegrityError FOREIGN_KEY)).
Proof.
  repeat split.
  intros self source_id site_url site_type FK I U R A H.
  pose proof (allowed_utf8 site_type A) as T.
  assert (B : bindable (Create_site source_id site_url site_type) = true)
    by bindable_intro.
  rewrite (create_site_eq self source_id site_url site_type B R), A, FK, H.
  reflexivity.
Qed.

Lemma sites_layout_witness :
  holds fresh sources "id" (Int 7) = false
  /\ Database.create_site fresh 7 (lit "https://s") (lit "RENT")
     = Database.Raise fresh (IntegrityError FOREIGN_KEY).
Proof.
  split; [reflexivity |].
  apply (proj2 (proj2 (proj2 (proj2 (proj2 (proj2 (proj2 (proj2 sites_layout))))))));
    reflexivity.
Defined.

(** C9 as stated fails: the sites table has no column named parent_id,
    and no foreign key on a column of that name. *)
Lemma sites_has_no_parent_id :
  index_of "parent_id" (tbl_columns (Database.schema sites)) = None
  /\ filter (fun fk => String.eqb (fk_column fk) "parent_id")
            (tbl_foreign_keys (Database.schema sites)) = []
  /\ map col_name (tbl_columns (Database.schema sites))
     <> ["id"; "parent_id"; "site_url"; "site_type"]%string.
Proof. repeat split. discriminate. Qed.

(** C3, as amended.  For every entity kind, a create that succeeds
    returns [None]; the identity it assigned is the key of the one row it
    added, one more than the largest key the table holds or has given out,
    and above every key the table holds. *)
Theorem create_returns_none (self s' : Database.t) (c : call) (t : table_id)
  (v : pyval) :
  creates c = Some t ->
  invoke self c = Database.Return s' v ->
  v = PNone
  /\ ids s' t = ids self t ++ [next_rowid (Database.schema t) (get self t)]
  /\ forall j, In j (ids self t) -> j < next_rowid (Database.schema t) (get self t).
Proof.
  intros C E. destruct (create_returns self s' c t v C E) as (Hv & r & K & ->).
  split; [exact Hv |]. split; [apply ids_appended; exact K |].
  intros j; apply next_rowid_fresh.
Qed.

Lemma create_returns_none_witness :
  exists s',
    invoke fresh news = Database.Return s' PNone /\ ids s' channels = [] ++ [1].
Proof.
  exists (Database.state (invoke fresh news)).
  assert (E : invoke fresh news
              = Database.Return (Database.state (invoke fresh news)) PNone)
    by reflexivity.
  split; [exact E |].
  exact (proj1 (proj2 (create_returns_none fresh _ news channels PNone
                         eq_refl E))).
Defined.

(** C3 as stated fails: the first channel created in a new store gets
    the identity 1, and the call returns [None], not 1. *)
Lemma create_does_not_return_id :
  exists s',
    invoke fresh news = Database.Return s' PNone
    /\ ids s' channels = [1]
    /\ invoke fresh news <> Database.Return s' (PInt 1).
Proof.
  exists (Database.state (invoke fresh news)).
  repeat split. vm_compute. discriminate.
Qed.




(** What [refresh] makes of the rows that the three creates store. *)

Lemma refresh_channel_row (rid : Z) (name url : str)
  (post_times forbidden_words : list str) :
  forallb plain_text post_times = true ->
  forallb plain_text forbidden_words = true ->
  TableFrame.refresh_row channels
    (tuple (channel_row rid name url post_times forbidden_words))
  = Some [FInt rid; FStr name; FStr url; FStr (join (lit ",") post_times);
          FStr (join (lit ",") forbidden_words)].
Proof.
  intros P F. unfold TableFrame.refresh_row, TableFrame.join_decoded.
  cbn [tuple channel_row map to_python nth_error].
  rewrite (decode_dumps _ P). cbn -[lit json.dumps TableFrame.decode].
  rewrite (decode_dumps _ F). reflexivity.
Qed.

Lemma refresh_source_row (rid channel_id : Z) (url : str) (parse_media : bool)
  (forbidden_words : list str) :
  forallb plain_text forbidden_words = true ->
  TableFrame.refresh_row sources
    (tuple (source_row rid channel_id url parse_media forbidden_words))
  = Some [FInt rid; FInt channel_id; FStr url;
          FStr (if parse_media then lit "Yes" else lit "No");
          FStr (join (lit ",") forbidden_words)].
Proof.
  intros F. unfold TableFrame.refresh_row, TableFrame.join_decoded.
  cbn [tuple source_row map to_python nth_error].
  cbn -[lit json.dumps TableFrame.decode Database.int TableFrame.truthy].
  rewrite (decode_dumps _ F). destruct parse_media; reflexivity.
Qed.

(** C4, as amended.  For every entity kind, [list()] returns all stored
    rows as storage holds them: a string-list field comes back as the JSON
    text that was written, [parse_media] as the integer 0 or 1, [site_type]
    as its literal text; no field is a list or a boolean.  The decoding of
    lists and booleans is done by the caller, [TableFrame.refresh]. *)
Theorem list_returns_raw_rows :
  (forall (self : Database.t) (t : table_id),
      TableFrame.list_fn t self
      = Database.Return self (PRows (map tuple (rows (get self t))))
      /\ forallb (forallb undecoded) (map tuple (rows (get self t))) = true)
  /\ (forall self s' name url post_times forbidden_words v,
         Database.create_channel self name url post_times forbidden_words
         = Database.Return s' v ->
         exists rid,
           Database.list_channels s'
           = Database.Return s'
               (PRows (map tuple (rows (tbl_channels self))
                       ++ [[FInt rid; FStr name; FStr url;
                            FStr (json.dumps post_times);
                            FStr (json.dumps forbidden_words)]])))
  /\ (forall self s' channel_id url parse_media forbidden_words v,
         Database.create_source self channel_id url parse_media forbidden_words
         = Database.Return s' v ->
         exists rid,
           Database.list_sources s'
           = Database.Return s'
               (PRows (map tuple (rows (tbl_sources self))
                       ++ [[FInt rid; FInt channel_id; FStr url;
                            FInt (if parse_media then 1 else 0);
                            FStr (json.dumps forbidden_words)]])))
  /\ (forall self s' source_id site_url site_type v,
         Database.create_site self source_id site_url site_type
         = Database.Return s' v ->
         exists rid,
           Database.list_sites s'
           = Database.Return s'
               (PRows (map tuple (rows (tbl_sites self))
                       ++ [[FInt rid; FInt source_id; FStr site_url;
                            FStr site_type]])))
  /\ (forall rid name url post_times forbidden_words,
         forallb plain_text post_times = true ->
         forallb plain_text forbidden_words = true ->
         TableFrame.refresh_row channels
           [FInt rid; FStr name; FStr url; FStr (json.dumps post_times);
            FStr (json.dumps forbidden_words)]
         = Some [FInt rid; FStr name; FStr url; FStr (join (lit ",") post_times);
                 FStr (join (lit ",") forbidden_words)])
  /\ (forall rid channel_id url (parse_media : bool) forbidden_words,
         forallb plain_text forbidden_words = true ->
         TableFrame.refresh_row sources
           [FInt rid; FInt channel_id; FStr url;
            FInt (if parse_media then 1 else 0);
            FStr (json.dumps forbidden_words)]
         = Some [FInt rid; FInt channel_id; FStr url;
                 FStr (if parse_media then lit "Yes" else lit "No");
                 FStr (join (lit ",") forbidden_words)]).
Proof.
  split; [| split; [| split; [| split; [| split]]]].
  - intros self t. split.
    + destruct t; reflexivity.
    + induction (rows (get self t)) as [| r l IH]; [reflexivity |].
      cbn [map forallb]. rewrite undecoded_tuple, IH. reflexivity.
  - intros self s' name url pt fw v E.
    destruct (create_outcome self (Create_channel name url pt fw) channels eq_refl)
      as [[e R] | [B R]]; cbn [invoke] in *; [rewrite R in E; discriminate E |].
    rewrite (create_channel_eq _ _ _ _ _ B R) in E.
    destruct (_ || _); [discriminate E |]. injection E as <- <-.
    eexists. rewrite list_channels_eq. unfold appended.
    cbn [get set tbl_channels rows]. rewrite map_app. reflexivity.
  - intros self s' ch url pm fw v E.
    destruct (create_outcome self (Create_source ch url pm fw) sources eq_refl)
      as [[e R] | [B R]]; cbn [invoke] in *; [rewrite R in E; discriminate E |].
    rewrite (create_source_eq _ _ _ _ _ B R) in E.
    destruct (_ && _); [discriminate E |]. injection E as <- <-.
    eexists. rewrite list_sources_eq. unfold appended.
    cbn [get set tbl_sources rows]. rewrite map_app. reflexivity.
  - intros self s' src url ty v E.
    destruct (create_outcome self (Create_site src url ty) sites eq_refl)
      as [[e R] | [B R]]; cbn [invoke] in *; [rewrite R in E; discriminate E |].
    rewrite (create_site_eq _ _ _ _ B R) in E.
    destruct (negb _); [discriminate E |].
    destruct (_ && _); [discriminate E |]. injection E as <- <-.
    eexists. rewrite list_sites_eq. unfold appended.
    cbn [get set tbl_sites rows]. rewrite map_app. reflexivity.
  - intros rid name url pt fw. apply refresh_channel_row.
  - intros rid ch url pm fw. apply refresh_source_row.
Qed.

Lemma list_returns_raw_rows_witness :
  let s := Database.state (invoke fresh news) in
  invoke fresh news = Database.Return s PNone
  /\ (exists rid,
         Database.list_channels s
         = Database.Return s
             (PRows (map tuple (rows (tbl_channels fresh))
                     ++ [[FInt rid; FStr (lit "news"); FStr (lit "https://x");
                          FStr (json.dumps [lit "09:00"; lit "18:00"]);
                          FStr (json.dumps [lit "spam"])]])))
  /\ TableFrame.refresh_row channels
       [FInt 1; FStr (lit "news"); FStr (lit "https://x");
        FStr (json.dumps [lit "09:00"; lit "18:00"]);
        FStr (json.dumps [lit "spam"])]
     = Some [FInt 1; FStr (lit "news"); FStr (lit "https://x");
             FStr (join (lit ",") [lit "09:00"; lit "18:00"]);
             FStr (join (lit ",") [lit "spam"])].
Proof.
  intros s. split; [reflexivity |]. split.
  - apply (proj1 (proj2 list_returns_raw_rows) fresh s _ _ _ _ PNone).
    reflexivity.
  - apply (proj1 (proj2 (proj2 (proj2 (proj2 list_returns_raw_rows)))));
      reflexivity.
Defined.

(** C4 as stated fails: after the channel of the end-to-end scenario is
    created, [list_channels] returns its two list fields as JSON text, not
    as lists; and [list_sources] returns [parse_media] as an integer. *)
Lemma list_channels_not_decoded :
  let s := Database.state (invoke fresh news) in
  Database.list_channels s
  = Database.Return s
      (PRows [[FInt 1; FStr (lit "news"); FStr (lit "https://x");
               FStr (lit "[" ++ 34%N :: lit "09:00" ++ 34%N :: lit ", "
                     ++ 34%N :: lit "18:00" ++ 34%N :: lit "]");
               FStr (lit "[" ++ 34%N :: lit "spam" ++ 34%N :: lit "]")]])
  /\ Database.list_channels s
     <> Database.Return s
          (PRows [[FInt 1; FStr (lit "news"); FStr (lit "https://x");
                   FList [lit "09:00"; lit "18:00"]; FList [lit "spam"]]])
  /\ (let s2 := Database.state (Database.create_source s 1 (lit "https://y") true []) in
      Database.list_sources s2
      = Database.Return s2
          (PRows [[FInt 1; FInt 1; FStr (lit "https://y"); FInt 1; FStr (lit "[]")]])
      /\ Database.list_sources s2
         <> Database.Return s2
              (PRows [[FInt 1; FInt 1; FStr (lit "https://y"); FBool true;
                       FList []]])).
Proof.
  intros s. split; [reflexivity |]. split; [vm_compute; discriminate |].
  intros s2. split; [reflexivity |]. vm_compute; discriminate.
Qed.

End Returns.

(** ** Keys are given out once *)

Section Keys.
Import sqlite3.
Local Open Scope Z_scope.

Lemma without_nothing (x : table) : x = without (fun _ => false) x.
Proof.
  unfold without. cbn [negb].
  assert (E : forall l : list row, filter (fun _ => true) l = l).
  { induction l as [| a l IH]; [reflexivity |]. cbn [filter]. rewrite IH.
    reflexivity. }
  rewrite E, table_eta. reflexivity.
Qed.

Lemma delete_channel_without_foreign_keys (self : Database.t) (k : Z) :
  bindable (Delete_channel k) = true ->
  foreign_keys self = false ->
  Database.delete_channel self k
  = Database.Return (set self channels (without (id_is k) (tbl_channels self)))
                    PNone.
Proof.
  intros B FK.
  unfold Database.delete_channel. bound B. unfold delete, max_trigger_depth.
  cbn -[Z.eqb]. rewrite FK. fold (id_is k).
  destruct (filter (id_is k) (rows (tbl_channels self))); reflexivity.
Qed.

Lemma delete_source_without_foreign_keys (self : Database.t) (k : Z) :
  bindable (Delete_source k) = true ->
  foreign_keys self = false ->
  Database.delete_source self k
  = Database.Return (set self sources (without (id_is k) (tbl_sources self)))
                    PNone.
Proof.
  intros B FK.
  unfold Database.delete_source. bound B. unfold delete, max_trigger_depth.
  cbn -[Z.eqb]. rewrite FK. fold (id_is k).
  destruct (filter (id_is k) (rows (tbl_sources self))); reflexivity.
Qed.

(** Every call has one of the four effects. *)
Lemma invoke_effect (self : Database.t) (c : call) :
  effect self (Database.state (invoke self c)).
Proof.
  destruct (bindable c) eqn:B;
    [| destruct (unbindable_raises self c B) as (e & _ & ->); apply effect_none].
  destruct (out_of_keys self c) eqn:O.
  { unfold out_of_keys in O. destruct (creates c) as [t |] eqn:C; [| discriminate O].
    apply negb_true_iff in O. rewrite (create_full self c t B C O).
    apply effect_none. }
  destruct c; cbn [invoke]; unfold out_of_keys in O; cbn [creates] in O;
    try apply negb_false_iff in O.
  - rewrite (create_channel_eq _ _ _ _ _ B O).
    destruct (_ || _); cbn [Database.state].
    + apply effect_none.
    + apply effect_append. reflexivity.
  - destruct (update_channel_cases self cid name url post_times forbidden_words B)
      as [R | [_ [e R]]]; rewrite R; cbn [Database.state].
    + apply effect_update. intros r. symmetry. apply first_is_head.
    + apply effect_none.
  - destruct (foreign_keys self) eqn:FK.
    + rewrite (delete_channel_eq self cid B FK). cbn [Database.state].
      apply effect_delete; [reflexivity |].
      intros [| |]; eexists; reflexivity.
    + rewrite (delete_channel_without_foreign_keys self cid B FK).
      cbn [Database.state]. apply effect_delete; [reflexivity |].
      intros [| |]; [eexists; reflexivity | |];
        exists (fun _ => false); apply without_nothing.
  - rewrite (create_source_eq _ _ _ _ _ B O).
    destruct (_ && _); cbn [Database.state].
    + apply effect_none.
    + apply effect_append. reflexivity.
  - destruct (update_source_cases self sid channel_id url parse_media
                forbidden_words B)
      as [R | [_ [e R]]]; rewrite R; cbn [Database.state].
    + apply effect_update. intros r. symmetry. apply first_is_head.
    + apply effect_none.
  - destruct (foreign_keys self) eqn:FK.
    + rewrite (delete_source_eq self sid B FK). cbn [Database.state].
      apply effect_delete; [reflexivity |].
      intros [| |]; [exists (fun _ => false); apply without_nothing | |];
        eexists; reflexivity.
    + rewrite (delete_source_without_foreign_keys self sid B FK).
      cbn [Database.state]. apply effect_delete; [reflexivity |].
      intros [| |]; [| eexists; reflexivity |];
        exists (fun _ => false); apply without_nothing.
  - rewrite (create_site_eq _ _ _ _ B O). destruct (negb _); [apply effect_none |].
    destruct (_ && _); cbn [Database.state].
    + apply effect_none.
    + apply effect_append. reflexivity.
  - destruct (update_site_cases self tid source_id site_url site_type B)
      as [R | [_ [e R]]]; rewrite R; cbn [Database.state].
    + apply effect_update. intros r. symmetry. apply first_is_head.
    + apply effect_none.
  - rewrite (delete_site_eq self tid B). cbn [Database.state].
    apply effect_delete; [reflexivity |].
    intros [| |]; [| | eexists; reflexivity];
      exists (fun _ => false); apply without_nothing.
Qed.

Lemma sequenced_iff (self : Database.t) :
  sequenced self = true
  <-> forall t j, In j (ids self t) -> j <= seq (get self t).
Proof.
  unfold sequenced. rewrite forallb_forall. split.
  - intros H t j I.
    assert (T : In t [channels; sources; sites])
      by (destruct t; cbn; tauto).
    specialize (H t T). rewrite forallb_forall in H. apply Z.leb_le, H, I.
  - intros H t _. apply forallb_forall. intros j I. apply Z.leb_le, H, I.
Qed.

Lemma in_rowids_filter (d : table_def) (q : row -> bool) (l : list row) (j : Z) :
  In j (rowids d (filter q l)) -> In j (rowids d l).
Proof.
  induction l as [| r l IH]; [intros [] |]. cbn [filter rowids].
  destruct (q r); cbn [rowids]; destruct (rowid d r); cbn [In]; tauto.
Qed.

Lemma rowids_replaced (t : table_id) (p : row -> bool) (f : row -> row)
  (l : list row) :
  (forall r, nth 0 (f r) Null = nth 0 r Null) ->
  rowids (Database.schema t) (map (fun r => if p r then f r else r) l)
  = rowids (Database.schema t) l.
Proof.
  intros K. induction l as [| r l IH]; [reflexivity |]. cbn [map rowids].
  rewrite IH. destruct (p r); [| reflexivity].
  rewrite !rowid_first, K. reflexivity.
Qed.

Lemma table_id_eq_dec (t u : table_id) : {t = u} + {t <> u}.
Proof. decide equality. Qed.

Lemma effect_seq (s s' : Database.t) :
  effect s s' -> forall t, seq (get s t) <= seq (get s' t).
Proof.
  intros E t. destruct E as [| t0 r K | t0 k f K | s' FK W].
  - apply Z.le_refl.
  - unfold appended. destruct (table_id_eq_dec t0 t) as [-> | N].
    + rewrite get_set_same. cbn [seq].
      pose proof (next_rowid_above_seq s t). lia.
    + rewrite (get_set_other _ _ _ _ N). apply Z.le_refl.
  - unfold updated. destruct (table_id_eq_dec t0 t) as [-> | N].
    + rewrite get_set_same. apply Z.le_refl.
    + rewrite (get_set_other _ _ _ _ N). apply Z.le_refl.
  - destruct (W t) as [q ->]. apply Z.le_refl.
Qed.

Lemma effect_sequenced (s s' : Database.t) :
  effect s s' -> sequenced s = true -> sequenced s' = true.
Proof.
  intros E S. rewrite sequenced_iff in *.
  destruct E as [| t0 r K | t0 k f K | s' FK W]; intros t j I.
  - apply S, I.
  - destruct (table_id_eq_dec t0 t) as [-> | N].
    + rewrite (ids_appended s t r K) in I. unfold appended.
      rewrite get_set_same. cbn [seq].
      apply in_app_or in I. destruct I as [I | [<- | []]].
      * pose proof (next_rowid_fresh s t j I). lia.
      * apply Z.le_refl.
    + unfold ids, appended in *. rewrite (get_set_other _ _ _ _ N) in *.
      apply S, I.
  - destruct (table_id_eq_dec t0 t) as [-> | N].
    + unfold ids, updated in *. rewrite get_set_same in *. cbn [rows seq] in *.
      rewrite (rowids_replaced t _ f _ K) in I. apply S, I.
    + unfold ids, updated in *. rewrite (get_set_other _ _ _ _ N) in *.
      apply S, I.
  - unfold ids in *. destruct (W t) as [q E]. rewrite E in *.
    cbn [without rows seq] in *. apply in_rowids_filter in I. apply S, I.
Qed.

Lemma run_app (self : Database.t) (a b : list call) :
  run self (a ++ b) = run (run self a) b.
Proof. apply fold_left_app. Qed.

Lemma run_sequenced (cs : list call) (self : Database.t) :
  sequenced self = true -> sequenced (run self cs) = true.
Proof.
  revert self. induction cs as [| c cs IH]; intros self S; [exact S |].
  cbn [run fold_left]. apply IH. apply (effect_sequenced self); [| exact S].
  apply invoke_effect.
Qed.

Lemma run_seq (cs : list call) (self : Database.t) (t : table_id) :
  seq (get self t) <= seq (get (run self cs) t).
Proof.
  revert self. induction cs as [| c cs IH]; intros self; [apply Z.le_refl |].
  cbn [run fold_left].
  pose proof (effect_seq self _ (invoke_effect self c) t) as H1.
  pose proof (IH (Database.state (invoke self c))) as H2.
  unfold run in H2. lia.
Qed.

Lemma new_store_is_sequenced (f : Database.file) :
  f = Database.new_file -> sequenced (Database.__init__ f) = true.
Proof. intros ->. reflexivity. Qed.

(** C10.  The key column of each table is declared INTEGER PRIMARY KEY
    AUTOINCREMENT.  Start from a store in which no key is beyond its
    table's sequence entry, as in a new store, and run any calls.  A create
    that then succeeds adds one row, and the key of that row is strictly
    greater than every key its table held at any earlier moment, whatever
    was deleted in between. *)
Theorem ids_are_never_reused :
  (forall t : table_id,
      exists c rest,
        tbl_columns (Database.schema t) = c :: rest
        /\ col_name c = "id"%string
        /\ col_primary_key_autoincrement c = true)
  /\ (forall (self s' : Database.t) (before between : list call) (c : call)
             (t : table_id) (v : pyval) (j : Z),
         sequenced self = true ->
         creates c = Some t ->
         invoke (run self (before ++ between)) c = Database.Return s' v ->
         In j (ids (run self before) t) ->
         exists i,
           ids s' t = ids (run self (before ++ between)) t ++ [i] /\ j < i).
Proof.
  split.
  - intros [| |]; do 2 eexists; repeat split.
  - intros self s' before between c t v j S C E I.
    destruct (create_returns _ s' c t v C E) as (_ & r & K & ->).
    exists (next_rowid (Database.schema t) (get (run self (before ++ between)) t)).
    split; [apply ids_appended; exact K |].
    pose proof (run_sequenced before self S) as S1.
    rewrite sequenced_iff in S1. specialize (S1 t j I).
    rewrite run_app.
    pose proof (run_seq between (run self before) t) as M.
    pose proof (next_rowid_above_seq (run (run self before) between) t) as A.
    lia.
Qed.

Lemma ids_are_never_reused_witness :
  let before := [news; Create_source 1 (lit "https://src") true [];
                 Create_channel (lit "b") (lit "https://b") [] []] in
  let between := [Delete_channel 1; Delete_source 1] in
  let c := Create_source 2 (lit "https://again") false [] in
  sequenced fresh = true
  /\ ids (run fresh before) sources = [1]
  /\ ids (run fresh (before ++ between)) sources = []
  /\ exists s',
      invoke (run fresh (before ++ between)) c = Database.Return s' PNone
      /\ exists i,
          ids s' sources = ids (run fresh (before ++ between)) sources ++ [i]
          /\ 1 < i.
Proof.
  intros before between c.
  split; [reflexivity |]. split; [reflexivity |]. split; [reflexivity |].
  eexists. split; [reflexivity |].
  apply (proj2 ids_are_never_reused fresh _ before between c sources PNone 1).
  - reflexivity.
  - reflexivity.
  - reflexivity.
  - left; reflexivity.
Defined.

End Keys.

(** ** Referential integrity *)

Section Integrity.
Import sqlite3.
Local Open Scope Z_scope.

Lemma str_eqb_sym (a b : str) : str_eqb a b = str_eqb b a.
Proof.
  revert b. induction a as [| x a IH]; intros [| y b]; cbn [str_eqb];
    try reflexivity.
  rewrite IH, N.eqb_sym. reflexivity.
Qed.

Lemma sql_eq_sym (a b : value) : sql_eq a b = sql_eq b a.
Proof.
  destruct a, b; cbn [sql_eq]; try reflexivity;
    [apply Z.eqb_sym | apply str_eqb_sym].
Qed.







Lemma holds_parent (self : Database.t) (t : table_id) (k : Z) :
  holds self t "id" (Int k) = true ->
  exists p, In p (rows (get self t)) /\ sql_eq (nth 0 p Null) (Int k) = true.
Proof.
  intros H. apply holds_iff in H. destruct H as (p & I & E). exists p.
  split; [exact I |]. destruct t; exact E.
Qed.

Lemma selected_nonempty (self : Database.t) (t : table_id) (k : Z) (r : row) :
  In r (rows (get self t)) -> id_is k r = true ->
  filter (id_is k) (rows (get self t)) <> [].
Proof.
  intros I S F.
  assert (I' : In r (filter (id_is k) (rows (get self t))))
    by (apply filter_In; split; assumption).
  rewrite F in I'. exact I'.
Qed.




Lemma parented_b_iff (P C : list row) : parented_b P C = true <-> parented P C.
Proof.
  unfold parented_b, parented. rewrite forallb_forall. split.
  - intros H r I. apply existsb_exists, H, I.
  - intros H r I. apply existsb_exists, H, I.
Qed.

Lemma no_orphans_iff (self : Database.t) :
  no_orphans self = true <-> referential self.
Proof.
  unfold no_orphans, referential.
  rewrite andb_true_iff, !parented_b_iff. tauto.
Qed.

Lemma set_foreign_keys (self : connection) (t : table_id) (x : table) :
  foreign_keys (set self t x) = foreign_keys self.
Proof. destruct t; reflexivity. Qed.

Lemma invoke_foreign_keys (self : Database.t) (c : call) :
  foreign_keys (Database.state (invoke self c)) = foreign_keys self.
Proof.
  destruct (invoke_effect self c) as [| t r K | t k f K | s' FK W].
  - reflexivity.
  - apply set_foreign_keys.
  - apply set_foreign_keys.
  - exact FK.
Qed.

(** [__init__] turns the foreign keys on, and no call turns them off. *)
Lemma foreign_keys_stay_on (f : Database.file) (cs : list call) :
  foreign_keys (run (Database.__init__ f) cs) = true.
Proof.
  assert (G : forall s, foreign_keys s = true -> foreign_keys (run s cs) = true).
  { induction cs as [| c cs IH]; intros s H; [exact H |].
    cbn [run fold_left]. apply IH. rewrite invoke_foreign_keys. exact H. }
  apply G. reflexivity.
Qed.


End Integrity.

(** ** Claims about the constraints *)

Section Constraints.
Import sqlite3.
Local Open Scope Z_scope.

(** C1.  With a Channel C in the store, [delete_channel] of C's id
    returns, and afterwards [list_channels] has no row with that id,
    [list_sources] has none of the Sources whose channel_id is C's id, and
    [list_sites] has none of the Sites whose parent column holds the id of
    one of those Sources: the whole chain goes in the one call.  The id of
    C is a 64-bit integer, as every key that the engine stores. *)
Theorem delete_channel_cascades (self : Database.t) (cid : Z) :
  foreign_keys self = true ->
  holds self channels "id" (Int cid) = true ->
  int64 cid = true ->
  exists s' Lc Ls Lt,
    Database.delete_channel self cid = Database.Return s' PNone
    /\ Database.list_channels s' = Database.Return s' (PRows Lc)
    /\ Database.list_sources s' = Database.Return s' (PRows Ls)
    /\ Database.list_sites s' = Database.Return s' (PRows Lt)
    /\ (forall c, In c (rows (tbl_channels self)) ->
                  cell (Database.schema channels) "id" c = Int cid ->
                  ~ In (tuple c) Lc)
    /\ (forall s, In s (rows (tbl_sources self)) ->
                  cell (Database.schema sources) "channel_id" s = Int cid ->
                  ~ In (tuple s) Ls)
    /\ (forall s sid t,
           In s (rows (tbl_sources self)) ->
           cell (Database.schema sources) "channel_id" s = Int cid ->
           cell (Database.schema sources) "id" s = Int sid ->
           In t (rows (tbl_sites self)) ->
           cell (Database.schema sites) "channel_id" t = Int sid ->
           ~ In (tuple t) Lt).
Proof.
  intros FK H B64.
  assert (B : bindable (Delete_channel cid) = true) by bindable_intro.
  apply holds_iff in H. destruct H as (c0 & I0 & E0).
  apply sql_eq_Int in E0. change (nth 0 c0 Null = Int cid) in E0.
  assert (G0 : In c0 (filter (id_is cid) (rows (tbl_channels self)))).
  { apply filter_In. split; [exact I0 |]. unfold id_is. rewrite E0.
    apply sql_eq_Int; reflexivity. }
  assert (R : forall s, nth 1 s Null = Int cid ->
                        refers_to (filter (id_is cid) (rows (tbl_channels self))) s
                        = true).
  { intros s E. unfold refers_to. apply existsb_exists. exists c0.
    split; [exact G0 |]. rewrite E, E0. apply sql_eq_Int; reflexivity. }
  exists (after_delete_channel self cid).
  do 3 eexists.
  split; [apply delete_channel_eq; assumption |].
  split; [apply list_channels_eq |].
  split; [apply list_sources_eq |].
  split; [apply list_sites_eq |].
  unfold after_delete_channel; cbn [tbl_channels tbl_sources tbl_sites].
  split; [| split].
  - intros c _ E. apply not_in_without. unfold id_is.
    change (nth 0 c Null = Int cid) in E. rewrite E. apply sql_eq_Int; reflexivity.
  - intros s _ E. apply not_in_without. apply R. exact E.
  - intros s sid t Is Ec Ei It Et. apply not_in_without.
    unfold refers_to at 1. apply existsb_exists. exists s. split.
    + apply filter_In. split; [exact Is | apply R; exact Ec].
    + change (nth 1 t Null = Int sid) in Et. change (nth 0 s Null = Int sid) in Ei.
      rewrite Et, Ei. apply sql_eq_Int; reflexivity.
Qed.

Lemma delete_channel_cascades_witness :
  foreign_keys chain = true
  /\ holds chain channels "id" (Int 1) = true
  /\ int64 1 = true
  /\ exists s' Lc Ls Lt,
      Database.delete_channel chain 1 = Database.Return s' PNone
      /\ Database.list_channels s' = Database.Return s' (PRows Lc)
      /\ Database.list_sources s' = Database.Return s' (PRows Ls)
      /\ Database.list_sites s' = Database.Return s' (PRows Lt)
      /\ (forall c, In c (rows (tbl_channels chain)) ->
                    cell (Database.schema channels) "id" c = Int 1 ->
                    ~ In (tuple c) Lc)
      /\ (forall s, In s (rows (tbl_sources chain)) ->
                    cell (Database.schema sources) "channel_id" s = Int 1 ->
                    ~ In (tuple s) Ls)
      /\ (forall s sid t,
             In s (rows (tbl_sources chain)) ->
             cell (Database.schema sources) "channel_id" s = Int 1 ->
             cell (Database.schema sources) "id" s = Int sid ->
             In t (rows (tbl_sites chain)) ->
             cell (Database.schema sites) "channel_id" t = Int sid ->
             ~ In (tuple t) Lt).
Proof.
  split; [reflexivity |]. split; [reflexivity |]. split; [reflexivity |].
  apply (delete_channel_cascades chain 1); reflexivity.
Defined.







(** C7, as amended.  For every site_type outside AUTO, RENT, BUY, FREE,
    [create_site] always fails, and [update_site] never changes the store.
    Where the parameters can be bound, [create_site] (on a table that has a
    key left to give) and [update_site] of a Site that exists raise the
    integrity error of the CHECK constraint; [update_site] of an id that no
    Site has returns [None] without any error. *)
Theorem site_type_is_checked (self : Database.t) (site_type : str) :
  ~ In site_type [lit "AUTO"; lit "RENT"; lit "BUY"; lit "FREE"] ->
  (forall source_id site_url,
      exists e, Database.create_site self source_id site_url site_type
                = Database.Raise self e)
  /\ (forall source_id site_url,
         bindable (Create_site source_id site_url site_type) = true ->
         room self sites = true ->
         Database.create_site self source_id site_url site_type
         = Database.Raise self (IntegrityError CHECK))
  /\ (forall tid source_id site_url,
         bindable (Update_site tid source_id site_url site_type) = true ->
         holds self sites "id" (Int tid) = true ->
         Database.update_site self tid source_id site_url site_type
         = Database.Raise self (IntegrityError CHECK))
  /\ (forall tid source_id site_url,
         bindable (Update_site tid source_id site_url site_type) = true ->
         holds self sites "id" (Int tid) = false ->
         Database.update_site self tid source_id site_url site_type
         = Database.Return self PNone)
  /\ (forall tid source_id site_url,
         Database.state (Database.update_site self tid source_id site_url site_type)
         = self).
Proof.
  intros N.
  assert (A : site_type_allowed site_type = false).
  { destruct (site_type_allowed site_type) eqn:E; [| reflexivity].
    exfalso. apply N. unfold site_type_allowed in E.
    apply existsb_exists in E. destruct E as (a & I & E).
    apply str_eqb_eq in E. subst a. exact I. }
  assert (C : forall src url,
             bindable (Create_site src url site_type) = true ->
             room self sites = true ->
             Database.create_site self src url site_type
             = Database.Raise self (IntegrityError CHECK)).
  { intros src url B R. rewrite (create_site_eq _ _ _ _ B R), A. reflexivity. }
  assert (Ab : forall tid src url,
             bindable (Update_site tid src url site_type) = true ->
             holds self sites "id" (Int tid) = false ->
             Database.update_site self tid src url site_type
             = Database.Return self PNone).
  { intros tid src url B H.
    exact (absent_call self (Update_site tid src url site_type) sites tid B
             eq_refl (absent_unselected self sites tid H)). }
  split; [| split; [exact C | split; [| split; [exact Ab |]]]].
  - intros src url.
    destruct (create_outcome self (Create_site src url site_type) sites eq_refl)
      as [[e R] | [B R]]; [exists e; exact R |].
    eexists. exact (C src url B R).
  - intros tid src url B H. apply update_site_check; assumption.
  - intros tid src url.
    destruct (bindable (Update_site tid src url site_type)) eqn:B.
    + destruct (holds self sites "id" (Int tid)) eqn:H.
      * rewrite (update_site_check self tid src url site_type B A H). reflexivity.
      * rewrite (Ab tid src url B H). reflexivity.
    + destruct (unbindable_raises self _ B) as (e & _ & E). cbn [invoke] in E.
      rewrite E. reflexivity.
Qed.

Lemma site_type_is_checked_witness :
  ~ In (lit "LEASE") [lit "AUTO"; lit "RENT"; lit "BUY"; lit "FREE"]
  /\ Database.create_site chain 1 (lit "https://t") (lit "LEASE")
     = Database.Raise chain (IntegrityError CHECK)
  /\ holds chain sites "id" (Int 1) = true
  /\ Database.update_site chain 1 1 (lit "https://site") (lit "LEASE")
     = Database.Raise chain (IntegrityError CHECK).
Proof.
  assert (N : ~ In (lit "LEASE") [lit "AUTO"; lit "RENT"; lit "BUY"; lit "FREE"]).
  { intros H. cbn in H. repeat (destruct H as [H | H]; [discriminate H |]).
    exact H. }
  split; [exact N |]. split.
  - apply (proj1 (proj2 (site_type_is_checked chain (lit "LEASE") N)));
      reflexivity.
  - split; [reflexivity |].
    apply (proj1 (proj2 (proj2 (site_type_is_checked chain (lit "LEASE") N))));
      reflexivity.
Defined.

(** C7 as stated fails: [update_site] with the site_type LEASE on an id
    that no Site has returns [None], no error is raised; and [create_site]
    with that site_type and a source id outside 64 bits raises
    OverflowError, not the error of the CHECK constraint. *)
Lemma invalid_site_type_is_not_always_a_check_violation :
  holds chain sites "id" (Int 99) = false
  /\ Database.update_site chain 99 1 (lit "u") (lit "LEASE")
     = Database.Return chain PNone
  /\ Database.create_site chain 9223372036854775808 (lit "u") (lit "LEASE")
     = Database.Raise chain OverflowError.
Proof. repeat split. Qed.

End Constraints.

(** * Further properties *)

(** The dialogs of the front end are given by the answer to each of
    them, and the two builtins [int] and [str.lower] that [_prompt_fields]
    applies to the answers are left open. *)

(** ** What the decoder makes of every encoded list *)

Section Merging.
Import json.
Local Open Scope N_scope.

Lemma surrogate_escape (c : N) :
  55296 <= c -> c <= 57343 ->
  exists h1 h2 h3 h4,
    escape_ascii c = [92; 117; h1; h2; h3; h4]
    /\ _decode_uXXXX h1 h2 h3 h4 = Some c.
Proof.
  intros L U. unfold escape_ascii.
  assert (E : (c <=? 126) = false) by (apply N.leb_gt; lia).
  rewrite E, andb_false_r. cbn [andb]. unfold replace.
  destruct (N.eqb_spec c 92); [lia |]. destruct (N.eqb_spec c 34); [lia |].
  destruct (N.eqb_spec c 8); [lia |]. destruct (N.eqb_spec c 12); [lia |].
  destruct (N.eqb_spec c 10); [lia |]. destruct (N.eqb_spec c 13); [lia |].
  destruct (N.eqb_spec c 9); [lia |].
  destruct (N.ltb_spec c 65536) as [B | B]; [| lia].
  destruct (decode_format c B) as (h1 & h2 & h3 & h4 & F & D).
  exists h1, h2, h3, h4. rewrite F. split; [reflexivity | exact D].
Qed.

Lemma combined_is_not_high (a b : N) :
  is_high_surrogate (combine_surrogates a b) = false.
Proof.
  unfold is_high_surrogate, combine_surrogates.
  apply andb_false_intro2. apply N.leb_gt.
  generalize (N.lor (N.shiftl (a - 55296) 10) (b - 56320)). intros x. lia.
Qed.

Lemma scanstring_merged (n : nat) :
  forall s rest : str,
    (List.length s <= n)%nat ->
    code_points s = true ->
    scanstring (flat_map escape_ascii s ++ 34 :: rest)
    = Some (merge_surrogates s, rest).
Proof.
  induction n as [| n IH]; intros s rest Len V.
  - destruct s; [reflexivity | cbn in Len; lia].
  - destruct s as [| a r]; [reflexivity |].
    cbn [code_points forallb] in V. apply andb_prop in V. destruct V as [Va V].
    apply N.ltb_lt in Va. cbn [List.length] in Len. apply le_S_n in Len.
    destruct r as [| b r'].
    + cbn [flat_map merge_surrogates]. rewrite <- app_assoc.
      rewrite (scan_shape a); [reflexivity | apply escape_ascii_shape; exact Va |].
      intros _. destruct rest; reflexivity.
    + cbn [merge_surrogates].
      pose proof V as Vb. cbn [forallb] in Vb. apply andb_prop in Vb.
      destruct Vb as [Vb Vr]. apply N.ltb_lt in Vb.
      destruct (is_high_surrogate a && is_low_surrogate b) eqn:P.
      * apply andb_prop in P. destruct P as [Ha Lb].
        assert (Ra : 55296 <= a /\ a <= 57343).
        { unfold is_high_surrogate in Ha. apply andb_prop in Ha.
          destruct Ha as [H1 H2]. apply N.leb_le in H1, H2. lia. }
        assert (Rb : 55296 <= b /\ b <= 57343).
        { unfold is_low_surrogate in Lb. apply andb_prop in Lb.
          destruct Lb as [H1 H2]. apply N.leb_le in H1, H2. lia. }
        destruct (surrogate_escape a (proj1 Ra) (proj2 Ra))
          as (h1 & h2 & h3 & h4 & Fa & Da).
        destruct (surrogate_escape b (proj1 Rb) (proj2 Rb))
          as (l1 & l2 & l3 & l4 & Fb & Db).
        cbn [flat_map]. rewrite Fa, Fb. cbn [app].
        change (92 :: 117 :: h1 :: h2 :: h3 :: h4 :: 92 :: 117 :: l1 :: l2 :: l3
                   :: l4 :: flat_map escape_ascii r' ++ 34 :: rest)
          with ([92; 117; h1; h2; h3; h4; 92; 117; l1; l2; l3; l4]
                  ++ (flat_map escape_ascii r' ++ 34 :: rest)).
        rewrite (scan_shape (combine_surrogates a b)).
        -- rewrite (IH r' rest); [reflexivity | cbn [List.length] in Len; lia | ].
           exact Vr.
        -- eapply shape_pair; eauto. apply combined_is_not_high.
        -- rewrite combined_is_not_high. discriminate.
      * cbn [flat_map]. rewrite <- app_assoc.
        rewrite (scan_shape a).
        -- change (escape_ascii b ++ flat_map escape_ascii r')
             with (flat_map escape_ascii (b :: r')).
           rewrite (IH (b :: r') rest Len V). reflexivity.
        -- apply escape_ascii_shape; exact Va.
        -- intros Ha. rewrite Ha in P. cbn [andb] in P.
           rewrite <- app_assoc.
           apply (shape_not_low_ahead b); [| exact P].
           apply escape_ascii_shape; exact Vb.
Qed.

Lemma JSONArray_values_merged (l : list str) :
  forallb code_points l = true -> l <> [] ->
  forall (fuel : nat) (tail : str),
    (List.length l <= fuel)%nat ->
    JSONArray_values fuel
      (join [44; 32] (map py_encode_basestring_ascii l) ++ 93 :: tail)
    = Some (map merge_surrogates l, tail).
Proof.
  induction l as [| x l IH]; [congruence |].
  intros W _ fuel tail F.
  cbn [forallb] in W. apply andb_prop in W. destruct W as [Wx W].
  destruct fuel as [| fuel]; [cbn in F; lia |].
  cbn [List.length] in F. apply le_S_n in F.
  destruct l as [| y l].
  - cbn [map join]. unfold py_encode_basestring_ascii.
    cbn [app]. rewrite <- app_assoc. cbn [app].
    cbn [JSONArray_values]. cbn [N.eqb Pos.eqb].
    rewrite (scanstring_merged _ x _ (Nat.le_refl _) Wx). reflexivity.
  - specialize (IH W ltac:(discriminate) fuel tail F).
    change (join [44; 32] (map py_encode_basestring_ascii (x :: y :: l)))
      with (py_encode_basestring_ascii x ++ [44; 32]
            ++ join [44; 32] (map py_encode_basestring_ascii (y :: l))).
    revert IH.
    generalize (join [44; 32] (map py_encode_basestring_ascii (y :: l))).
    intros J IH.
    unfold py_encode_basestring_ascii.
    cbn [app]. rewrite <- !app_assoc. cbn [app].
    cbn [JSONArray_values]. cbn [N.eqb Pos.eqb].
    rewrite (scanstring_merged _ x _ (Nat.le_refl _) Wx).
    cbn [skip_whitespace is_whitespace N.eqb Pos.eqb orb].
    destruct J as [| j J].
    + destruct fuel; discriminate IH.
    + assert (Hj : j = 34).
      { destruct fuel; [discriminate IH |].
        cbn [app JSONArray_values] in IH.
        destruct (N.eqb_spec j 34); [assumption | discriminate IH]. }
      subst j. cbn [app skip_whitespace is_whitespace N.eqb Pos.eqb orb].
      cbn [app] in IH. rewrite IH. reflexivity.
Qed.

Lemma loads_dumps_merged (l : list str) :
  forallb code_points l = true ->
  loads (dumps l) = Some (map merge_surrogates l).
Proof.
  intros W. unfold dumps, loads.
  cbn [skip_whitespace is_whitespace N.eqb Pos.eqb orb].
  destruct l as [| x l]; [reflexivity |].
  unfold JSONArray.
  pose proof (JSONArray_values_merged (x :: l) W ltac:(discriminate)) as V.
  pose proof (join_encoded_length (x :: l)) as Len.
  revert V Len.
  generalize (join [44; 32] (map py_encode_basestring_ascii (x :: l))).
  intros J V Len.
  specialize (V (List.length (J ++ [93])) []).
  rewrite length_app in V. specialize (V ltac:(lia)).
  rewrite <- length_app in V.
  destruct J as [| j J]; [discriminate V |].
  assert (Hj : j = 34).
  { cbn [app List.length JSONArray_values] in V.
    destruct (N.eqb_spec j 34); [assumption | discriminate V]. }
  subst j. cbn [app skip_whitespace is_whitespace N.eqb Pos.eqb orb].
  cbn [app] in V. rewrite V. reflexivity.
Qed.

Lemma decode_dumps_merged (l : list str) :
  forallb code_points l = true ->
  TableFrame.decode (FStr (dumps l)) = Some (map merge_surrogates l).
Proof. intros W. exact (loads_dumps_merged l W). Qed.

Lemma merge_without_pair (s : str) :
  no_surrogate_pair s = true -> merge_surrogates s = s.
Proof.
  induction s as [| a r IH]; [reflexivity |].
  cbn [no_surrogate_pair merge_surrogates]. intros H.
  apply andb_prop in H. destruct H as [H P].
  destruct r as [| b r']; [reflexivity |].
  apply negb_true_iff in H. rewrite H, (IH P). reflexivity.
Qed.

(** Whatever list of strings is written, what is read back is that list
    with every high surrogate that a low surrogate follows merged with
    it into one character; reading back never fails, and a list without
    such a pair comes back as it was. *)
Theorem decode_of_encode_merges (L : list str) :
  forallb code_points L = true ->
  TableFrame.decode (sqlite3.to_python (sqlite3.Text (json.dumps L)))
  = Some (map merge_surrogates L)
  /\ (forallb no_surrogate_pair L = true -> map merge_surrogates L = L).
Proof.
  intros W. split; [exact (decode_dumps_merged L W) |].
  intros P. induction L as [| s L IH]; [reflexivity |].
  cbn [forallb] in *. apply andb_prop in W, P.
  destruct W as [_ W], P as [Ps P].
  cbn [map]. rewrite (merge_without_pair s Ps), (IH W P). reflexivity.
Qed.

Lemma decode_of_encode_merges_witness :
  let L := [[97; 55357; 56832; 55357; 98; 56832]; []; [56832; 55357]] in
  forallb code_points L = true
  /\ TableFrame.decode (sqlite3.to_python (sqlite3.Text (json.dumps L)))
     = Some [[97; 128512; 55357; 98; 56832]; []; [56832; 55357]].
Proof.
  intros L. split; [reflexivity |].
  apply (proj1 (decode_of_encode_merges L eq_refl)).
Defined.

(** Whatever the list, the text written for it is made of printable
    ASCII characters only, begins with an opening bracket and ends with a
    closing one; it is never empty, so the stored cell is never mistaken
    for a missing one on read. *)
Theorem encoded_list_is_ascii (L : list str) :
  printable (json.dumps L) = true
  /\ (exists body, json.dumps L = 91 :: body ++ [93])
  /\ TableFrame.truthy (FStr (json.dumps L)) = true.
Proof.
  split; [| split; [eexists; reflexivity | reflexivity]].
  unfold dumps.
  change (91 :: join [44; 32] (map py_encode_basestring_ascii L) ++ [93])
    with ([91] ++ join [44; 32] (map py_encode_basestring_ascii L) ++ [93]).
  rewrite !printable_app.
  assert (H : printable (join [44; 32] (map py_encode_basestring_ascii L)) = true).
  { induction L as [| x L IH]; [reflexivity |].
    destruct L as [| y L].
    - cbn [map join]. apply encoded_printable.
    - change (join [44; 32] (map py_encode_basestring_ascii (x :: y :: L)))
        with (py_encode_basestring_ascii x ++ [44; 32]
              ++ join [44; 32] (map py_encode_basestring_ascii (y :: L))).
      rewrite !printable_app, encoded_printable, IH. reflexivity. }
  rewrite H. reflexivity.
Qed.

End Merging.

(** ** More on the statements: updates, deletes, creates *)

Section Statements.
Import sqlite3.
Local Open Scope Z_scope.

Lemma first_violation_none {A} (g : A -> option exn) (l : list A) :
  (forall r, In r l -> g r = None) -> first_violation (map g l) = None.
Proof.
  induction l as [| a l IH]; intros H; [reflexivity |]. cbn [map first_violation].
  rewrite (H a (or_introl eq_refl)). apply IH. intros r I. apply H. right; exact I.
Qed.

Lemma existsb_filter {A} (p q : A -> bool) (l : list A) :
  existsb p (filter q l) = existsb (fun o => q o && p o) l.
Proof.
  induction l as [| a l IH]; [reflexivity |]. cbn [filter existsb].
  destruct (q a); cbn [existsb andb]; rewrite IH; reflexivity.
Qed.

Lemma id_is_key (k : Z) (r : row) : id_is k r = true <-> nth 0 r Null = Int k.
Proof. apply sql_eq_Int. Qed.

Lemma id_is_head (k : Z) (r : row) : id_is k r = true -> hd Null r = Int k.
Proof. intros H. rewrite <- first_is_head. apply id_is_key, H. Qed.

Lemma selected_exists (self : Database.t) (t : table_id) (k : Z) :
  holds self t "id" (Int k) = true ->
  exists r0 sel, filter (id_is k) (rows (get self t)) = r0 :: sel
                 /\ id_is k r0 = true.
Proof.
  intros H. destruct (holds_parent self t k H) as (p & I & E).
  destruct (filter (id_is k) (rows (get self t))) as [| r0 sel] eqn:F.
  - exfalso. apply (selected_nonempty self t k p I E F).
  - exists r0, sel. split; [reflexivity |].
    assert (I0 : In r0 (filter (id_is k) (rows (get self t))))
      by (rewrite F; left; reflexivity).
    apply filter_In in I0. apply I0.
Qed.

(** The check of one row that [update_channel] would leave. *)
Lemma channel_update_check (self : Database.t) (cid : Z) (r : row)
  (name url p f : str) :
  id_is cid r = true ->
  violation Database.schema self (Database.schema channels)
    (filter (fun o => negb (sql_eq (rowid (Database.schema channels) o)
                                  (rowid (Database.schema channels) r)))
            (rows (tbl_channels self)))
    [] [hd Null r; Text name; Text url; Text p; Text f]
  = if other_holds self channels cid 1 (Text name)
       || other_holds self channels cid 2 (Text url)
    then Some (IntegrityError UNIQUE) else None.
Proof.
  intros S. apply id_is_key in S.
  unfold violation, rowid. cbn -[Z.eqb other_holds]. rewrite S.
  rewrite !existsb_filter.
  unfold foreign_keys_ok. cbn [forallb]. rewrite orb_true_r. cbn [negb].
  rewrite andb_true_r.
  match goal with
  | |- context [negb (negb ?a && negb ?b)] =>
      change (other_holds self channels cid 1 (Text name)) with a;
      change (other_holds self channels cid 2 (Text url)) with b;
      destruct a, b; reflexivity
  end.
Qed.

Lemma map_selected {A} (p : A -> bool) (f g : A -> A) (l : list A) :
  (forall r, p r = true -> f r = g r) ->
  map (fun r => if p r then f r else r) l = map (fun r => if p r then g r else r) l.
Proof.
  intros H. apply map_ext. intros r. destruct (p r) eqn:E; [apply H, E | reflexivity].
Qed.

Lemma update_channel_eq (self : Database.t) (cid : Z) (name url : str)
  (post_times forbidden_words : list str) :
  bindable (Update_channel cid name url post_times forbidden_words) = true ->
  holds self channels "id" (Int cid) = true ->
  Database.update_channel self cid name url post_times forbidden_words
  = if other_holds self channels cid 1 (Text name)
       || other_holds self channels cid 2 (Text url)
    then Database.Raise self (IntegrityError UNIQUE)
    else Database.Return
           (set self channels
              {| rows := map (fun r => if id_is cid r
                                       then channel_row cid name url post_times
                                                        forbidden_words
                                       else r)
                             (rows (tbl_channels self));
                 seq := seq (tbl_channels self) |})
           PNone.
Proof.
  intros B H. destruct (selected_exists self channels cid H) as (r0 & sel & F & S0).
  cbn [get] in F.
  assert (K : forall r, In r (filter (id_is cid) (rows (tbl_channels self))) ->
                        id_is cid r = true)
    by (intros r I; apply filter_In in I; apply I).
  unfold Database.update_channel, channel_row. bound B.
  generalize (json.dumps post_times) (json.dumps forbidden_words). intros p f.
  unfold update.
  cbn -[Z.eqb violation other_holds]. fold (id_is cid).
  destruct (other_holds self channels cid 1 (Text name)
            || other_holds self channels cid 2 (Text url)) eqn:O.
  - rewrite F. cbn [map first_violation].
    pose proof (channel_update_check self cid r0 name url p f S0) as C.
    rewrite O in C. cbn -[Z.eqb violation other_holds] in C. rewrite C.
    reflexivity.
  - rewrite first_violation_none.
    + rewrite (map_selected (id_is cid) _
                 (fun _ => [Int cid; Text name; Text url; Text p; Text f])).
      * reflexivity.
      * intros r S. rewrite (id_is_head cid r S). reflexivity.
    + intros r I.
      pose proof (channel_update_check self cid r name url p f (K r I)) as C.
      rewrite O in C. exact C.
Qed.

(** [update_channel] of a channel that exists, with parameters that can
    be bound, is a full replace that keeps the id, provided no other
    channel holds the new name or the new url (the channel's own current
    name and url are no obstacle); otherwise it raises the integrity error
    of the UNIQUE constraint and the store is as it was. *)
Theorem update_channel_replaces (self : Database.t) (cid : Z) (name url : str)
  (post_times forbidden_words : list str) :
  bindable (Update_channel cid name url post_times forbidden_words) = true ->
  holds self channels "id" (Int cid) = true ->
  Database.update_channel self cid name url post_times forbidden_words
  = if other_holds self channels cid 1 (Text name)
       || other_holds self channels cid 2 (Text url)
    then Database.Raise self (IntegrityError UNIQUE)
    else Database.Return
           (set self channels
              {| rows := map (fun r => if id_is cid r
                                       then channel_row cid name url post_times
                                                        forbidden_words
                                       else r)
                             (rows (tbl_channels self));
                 seq := seq (tbl_channels self) |})
           PNone.
Proof. exact (update_channel_eq self cid name url post_times forbidden_words). Qed.

Lemma update_channel_replaces_witness :
  let s := run fresh [news; Create_channel (lit "b") (lit "https://b") [] []] in
  holds s channels "id" (Int 1) = true
  /\ Database.update_channel s 1 (lit "news") (lit "https://new") [lit "07:00"] []
     = Database.Return
         (set s channels
            {| rows := [channel_row 1 (lit "news") (lit "https://new") [lit "07:00"] [];
                        channel_row 2 (lit "b") (lit "https://b") [] []];
               seq := 2 |})
         PNone
  /\ Database.update_channel s 1 (lit "b") (lit "https://new") [] []
     = Database.Raise s (IntegrityError UNIQUE).
Proof.
  intros s. split; [reflexivity |]. split.
  - rewrite (update_channel_replaces s 1 (lit "news") (lit "https://new")
               [lit "07:00"] [] eq_refl eq_refl).
    reflexivity.
  - rewrite (update_channel_replaces s 1 (lit "b") (lit "https://new") [] []
               eq_refl eq_refl).
    reflexivity.
Defined.

(** The check of one row that [update_source] would leave. *)
Lemma source_update_check (self : Database.t) (others : list row) (r : row)
  (channel_id : Z) (url : str) (m : Z) (f : str) :
  violation Database.schema self (Database.schema sources) others
    (tbl_foreign_keys (Database.schema sources))
    [hd Null r; Int channel_id; Text url; Int m; Text f]
  = if foreign_keys self && negb (holds self channels "id" (Int channel_id))
    then Some (IntegrityError FOREIGN_KEY) else None.
Proof.
  unfold violation, foreign_keys_ok, parent_exists. cbn -[Z.eqb holds].
  match goal with
  | |- context [existsb ?p (rows (tbl_channels self))] =>
      change (existsb p (rows (tbl_channels self)))
        with (holds self channels "id" (Int channel_id))
  end.
  destruct (foreign_keys self), (holds self channels "id" (Int channel_id));
    reflexivity.
Qed.

Lemma update_source_eq (self : Database.t) (sid channel_id : Z)
  (url : str) (parse_media : bool) (forbidden_words : list str) :
  bindable (Update_source sid channel_id url parse_media forbidden_words) = true ->
  holds self sources "id" (Int sid) = true ->
  Database.update_source self sid channel_id url parse_media forbidden_words
  = if foreign_keys self && negb (holds self channels "id" (Int channel_id))
    then Database.Raise self (IntegrityError FOREIGN_KEY)
    else Database.Return
           (set self sources
              {| rows := map (fun r => if id_is sid r
                                       then source_row sid channel_id url
                                                       parse_media forbidden_words
                                       else r)
                             (rows (tbl_sources self));
                 seq := seq (tbl_sources self) |})
           PNone.
Proof.
  intros B H. destruct (selected_exists self sources sid H) as (r0 & sel & F & S0).
  cbn [get] in F.
  unfold Database.update_source, source_row. bound B.
  generalize (json.dumps forbidden_words) (Database.int parse_media). intros f m.
  unfold update.
  cbn -[Z.eqb violation holds]. fold (id_is sid).
  assert (C : forall r others,
             violation Database.schema self (Database.schema sources) others
               (tbl_foreign_keys (Database.schema sources))
               [hd Null r; Int channel_id; Text url; Int m; Text f]
             = if foreign_keys self && negb (holds self channels "id" (Int channel_id))
               then Some (IntegrityError FOREIGN_KEY) else None)
    by (intros; apply source_update_check).
  cbn -[Z.eqb violation holds] in C.
  destruct (foreign_keys self && negb (holds self channels "id" (Int channel_id))).
  - rewrite F. cbn [map first_violation]. rewrite C. reflexivity.
  - rewrite first_violation_none by (intros r _; apply C).
    rewrite (map_selected (id_is sid) _
               (fun _ => [Int sid; Int channel_id; Text url; Int m; Text f])).
    + reflexivity.
    + intros r S. rewrite (id_is_head sid r S). reflexivity.
Qed.

(** [update_source] of a source that exists, with parameters that can be
    bound, is a full replace that keeps the id, provided the new channel_id
    is the id of a channel; otherwise it raises the integrity error of the
    FOREIGN KEY constraint and the store is as it was. *)
Theorem update_source_replaces (self : Database.t) (sid channel_id : Z)
  (url : str) (parse_media : bool) (forbidden_words : list str) :
  bindable (Update_source sid channel_id url parse_media forbidden_words) = true ->
  holds self sources "id" (Int sid) = true ->
  Database.update_source self sid channel_id url parse_media forbidden_words
  = if foreign_keys self && negb (holds self channels "id" (Int channel_id))
    then Database.Raise self (IntegrityError FOREIGN_KEY)
    else Database.Return
           (set self sources
              {| rows := map (fun r => if id_is sid r
                                       then source_row sid channel_id url
                                                       parse_media forbidden_words
                                       else r)
                             (rows (tbl_sources self));
                 seq := seq (tbl_sources self) |})
           PNone.
Proof. exact (update_source_eq self sid channel_id url parse_media forbidden_words). Qed.

Lemma update_source_replaces_witness :
  holds chain sources "id" (Int 1) = true
  /\ Database.update_source chain 1 1 (lit "https://moved") false []
     = Database.Return
         (set chain sources
            {| rows := [source_row 1 1 (lit "https://moved") false []]; seq := 1 |})
         PNone
  /\ Database.update_source chain 1 9 (lit "https://moved") false []
     = Database.Raise chain (IntegrityError FOREIGN_KEY).
Proof.
  split; [reflexivity |]. split.
  - rewrite (update_source_replaces chain 1 1 (lit "https://moved") false []
               eq_refl eq_refl).
    reflexivity.
  - rewrite (update_source_replaces chain 1 9 (lit "https://moved") false []
               eq_refl eq_refl).
    reflexivity.
Defined.

(** The check of one row that [update_site] would leave. *)
Lemma site_update_check (self : Database.t) (others : list row) (r : row)
  (source_id : Z) (site_url site_type : str) :
  violation Database.schema self (Database.schema sites) others
    (tbl_foreign_keys (Database.schema sites))
    [hd Null r; Int source_id; Text site_url; Text site_type]
  = if negb (site_type_allowed site_type) then Some (IntegrityError CHECK)
    else if foreign_keys self && negb (holds self sources "id" (Int source_id))
    then Some (IntegrityError FOREIGN_KEY) else None.
Proof.
  unfold violation, foreign_keys_ok, parent_exists.
  cbn -[Z.eqb holds str_eqb lit site_type_allowed].
  match goal with
  | |- context [existsb ?p (rows (tbl_sources self))] =>
      change (existsb p (rows (tbl_sources self)))
        with (holds self sources "id" (Int source_id))
  end.
  rewrite !andb_true_r.
  change (str_eqb site_type (lit "AUTO")
          || (str_eqb site_type (lit "RENT")
              || (str_eqb site_type (lit "BUY")
                  || (str_eqb site_type (lit "FREE") || false))))
    with (site_type_allowed site_type).
  destruct (site_type_allowed site_type); [| reflexivity].
  destruct (foreign_keys self), (holds self sources "id" (Int source_id));
    reflexivity.
Qed.

Lemma update_site_eq (self : Database.t) (tid source_id : Z)
  (site_url site_type : str) :
  bindable (Update_site tid source_id site_url site_type) = true ->
  holds self sites "id" (Int tid) = true ->
  Database.update_site self tid source_id site_url site_type
  = if negb (site_type_allowed site_type)
    then Database.Raise self (IntegrityError CHECK)
    else if foreign_keys self && negb (holds self sources "id" (Int source_id))
    then Database.Raise self (IntegrityError FOREIGN_KEY)
    else Database.Return
           (set self sites
              {| rows := map (fun r => if id_is tid r
                                       then site_row tid source_id site_url site_type
                                       else r)
                             (rows (tbl_sites self));
                 seq := seq (tbl_sites self) |})
           PNone.
Proof.
  intros B H. destruct (selected_exists self sites tid H) as (r0 & sel & F & S0).
  cbn [get] in F.
  unfold Database.update_site, site_row. bound B.
  unfold update.
  cbn -[Z.eqb violation holds site_type_allowed]. fold (id_is tid).
  assert (C : forall r others,
             violation Database.schema self (Database.schema sites) others
               (tbl_foreign_keys (Database.schema sites))
               [hd Null r; Int source_id; Text site_url; Text site_type]
             = if negb (site_type_allowed site_type) then Some (IntegrityError CHECK)
               else if foreign_keys self
                       && negb (holds self sources "id" (Int source_id))
               then Some (IntegrityError FOREIGN_KEY) else None)
    by (intros; apply site_update_check).
  cbn -[Z.eqb violation holds site_type_allowed] in C.
  destruct (negb (site_type_allowed site_type)).
  - rewrite F. cbn [map first_violation]. rewrite C. reflexivity.
  - destruct (foreign_keys self && negb (holds self sources "id" (Int source_id))).
    + rewrite F. cbn [map first_violation]. rewrite C. reflexivity.
    + rewrite first_violation_none by (intros r _; apply C).
      rewrite (map_selected (id_is tid) _
                 (fun _ => [Int tid; Int source_id; Text site_url; Text site_type])).
      * reflexivity.
      * intros r S. rewrite (id_is_head tid r S). reflexivity.
Qed.

(** [update_site] of a site that exists, with parameters that can be
    bound: a site_type outside the four is refused by the CHECK constraint,
    then a source id that no source has by the FOREIGN KEY constraint, the
    store staying as it was; otherwise the row is replaced in full and
    keeps its id. *)
Theorem update_site_replaces (self : Database.t) (tid source_id : Z)
  (site_url site_type : str) :
  bindable (Update_site tid source_id site_url site_type) = true ->
  holds self sites "id" (Int tid) = true ->
  Database.update_site self tid source_id site_url site_type
  = if negb (site_type_allowed site_type)
    then Database.Raise self (IntegrityError CHECK)
    else if foreign_keys self && negb (holds self sources "id" (Int source_id))
    then Database.Raise self (IntegrityError FOREIGN_KEY)
    else Database.Return
           (set self sites
              {| rows := map (fun r => if id_is tid r
                                       then site_row tid source_id site_url site_type
                                       else r)
                             (rows (tbl_sites self));
                 seq := seq (tbl_sites self) |})
           PNone.
Proof. exact (update_site_eq self tid source_id site_url site_type). Qed.

Lemma update_site_replaces_witness :
  holds chain sites "id" (Int 1) = true
  /\ Database.update_site chain 1 1 (lit "https://t") (lit "FREE")
     = Database.Return
         (set chain sites
            {| rows := [site_row 1 1 (lit "https://t") (lit "FREE")]; seq := 1 |})
         PNone
  /\ Database.update_site chain 1 4 (lit "https://t") (lit "FREE")
     = Database.Raise chain (IntegrityError FOREIGN_KEY).
Proof.
  split; [reflexivity |]. split.
  - rewrite (update_site_replaces chain 1 1 (lit "https://t") (lit "FREE")
               eq_refl eq_refl).
    reflexivity.
  - rewrite (update_site_replaces chain 1 4 (lit "https://t") (lit "FREE")
               eq_refl eq_refl).
    reflexivity.
Defined.

Lemma id_is_not (k : Z) (r : row) : id_is k r = false <-> nth 0 r Null <> Int k.
Proof.
  rewrite <- id_is_key. destruct (id_is k r); split; congruence.
Qed.

Lemma in_without (p : row -> bool) (x : table) (r : row) :
  In r (rows (without p x)) <-> In r (rows x) /\ p r = false.
Proof.
  unfold without. cbn [rows]. rewrite filter_In, negb_true_iff. tauto.
Qed.

(** A row refers to one of the rows keyed [k] exactly when there is such
    a row and its parent column holds [k]. *)
Lemma refers_to_selected (P : list row) (k : Z) (r : row) :
  refers_to (filter (id_is k) P) r
  = existsb (id_is k) P && sql_eq (nth 1 r Null) (Int k).
Proof.
  unfold refers_to. induction P as [| g P IH]; [reflexivity |].
  cbn [filter existsb]. destruct (id_is k g) eqn:E.
  - cbn [existsb orb andb]. apply id_is_key in E. rewrite E, IH.
    destruct (sql_eq (nth 1 r Null) (Int k)); [reflexivity |].
    rewrite andb_false_r. reflexivity.
  - cbn [orb]. exact IH.
Qed.

Lemma holds_id (self : Database.t) (t : table_id) (k : Z) :
  holds self t "id" (Int k) = existsb (id_is k) (rows (get self t)).
Proof. destruct t; reflexivity. Qed.

(** [delete_source] of an id of 64 bits removes exactly the sources with
    that id and, when there is one, the sites whose parent column holds the
    id; channels, other sources and other sites stay, and so do the
    sequence entries. *)
Theorem delete_source_removes_exactly (self : Database.t) (sid : Z) :
  foreign_keys self = true ->
  int64 sid = true ->
  exists s',
    Database.delete_source self sid = Database.Return s' PNone
    /\ tbl_channels s' = tbl_channels self
    /\ seq (tbl_sources s') = seq (tbl_sources self)
    /\ seq (tbl_sites s') = seq (tbl_sites self)
    /\ (forall r, In r (rows (tbl_sources s'))
                  <-> In r (rows (tbl_sources self))
                      /\ cell (Database.schema sources) "id" r <> Int sid)
    /\ (forall t, In t (rows (tbl_sites s'))
                  <-> In t (rows (tbl_sites self))
                      /\ ~ (holds self sources "id" (Int sid) = true
                            /\ cell (Database.schema sites) "channel_id" t = Int sid)).
Proof.
  intros FK B64.
  assert (B : bindable (Delete_source sid) = true) by bindable_intro.
  exists (after_delete_source self sid).
  split; [apply delete_source_eq; assumption |].
  unfold after_delete_source. cbn [tbl_channels tbl_sources tbl_sites].
  split; [reflexivity |]. split; [reflexivity |]. split; [reflexivity |].
  split; intros r; rewrite in_without.
  - rewrite id_is_not. reflexivity.
  - rewrite refers_to_selected, <- (holds_id self sources).
    change (cell (Database.schema sites) "channel_id" r) with (nth 1 r Null).
    rewrite <- sql_eq_Int.
    destruct (holds self sources "id" (Int sid)),
             (sql_eq (nth 1 r Null) (Int sid)); cbn [andb];
      split; intros [I E]; (split; [exact I |]);
      try congruence; try (intros [E1 E2]; congruence).
    exfalso. apply E. split; reflexivity.
Qed.

Lemma delete_source_removes_exactly_witness :
  let s := run chain [Create_source 1 (lit "https://other") false [];
                      Create_site 2 (lit "https://kept") (lit "BUY")] in
  foreign_keys s = true
  /\ int64 1 = true
  /\ Database.delete_source s 1
     = Database.Return
         (set (set s sources
                 {| rows := [source_row 2 1 (lit "https://other") false []];
                    seq := 2 |})
              sites
              {| rows := [site_row 2 2 (lit "https://kept") (lit "BUY")]; seq := 2 |})
         PNone.
Proof.
  intros s. split; [reflexivity |]. split; [reflexivity |].
  destruct (delete_source_removes_exactly s 1 eq_refl eq_refl) as (s' & E & _).
  rewrite E. vm_compute in E. injection E as <-. reflexivity.
Defined.

(** [delete_channel] of a channel that exists removes exactly the
    channels with that id, the sources whose channel_id is that id, and the
    sites whose parent column holds the key of such a source; every other
    row of the three tables stays.  The id is a 64-bit integer, as every
    key that the engine stores. *)
Theorem delete_channel_removes_exactly (self : Database.t) (cid : Z) :
  foreign_keys self = true ->
  holds self channels "id" (Int cid) = true ->
  int64 cid = true ->
  exists s',
    Database.delete_channel self cid = Database.Return s' PNone
    /\ (forall r, In r (rows (tbl_channels s'))
                  <-> In r (rows (tbl_channels self))
                      /\ cell (Database.schema channels) "id" r <> Int cid)
    /\ (forall r, In r (rows (tbl_sources s'))
                  <-> In r (rows (tbl_sources self))
                      /\ cell (Database.schema sources) "channel_id" r <> Int cid)
    /\ (forall t, In t (rows (tbl_sites s'))
                  <-> In t (rows (tbl_sites self))
                      /\ forall r, In r (rows (tbl_sources self)) ->
                                   cell (Database.schema sources) "channel_id" r
                                   = Int cid ->
                                   sql_eq (cell (Database.schema sites) "channel_id" t)
                                          (cell (Database.schema sources) "id" r)
                                   = false).
Proof.
  intros FK H B64.
  assert (B : bindable (Delete_channel cid) = true) by bindable_intro.
  rewrite (holds_id self channels) in H. cbn [get] in H.
  assert (R : forall r, refers_to (filter (id_is cid) (rows (tbl_channels self))) r
                        = sql_eq (nth 1 r Null) (Int cid))
    by (intros r; rewrite refers_to_selected, H; reflexivity).
  exists (after_delete_channel self cid).
  split; [apply delete_channel_eq; assumption |].
  unfold after_delete_channel. cbn [tbl_channels tbl_sources tbl_sites].
  split; [| split]; intros r; rewrite in_without.
  - rewrite id_is_not. reflexivity.
  - rewrite R. change (cell (Database.schema sources) "channel_id" r)
      with (nth 1 r Null).
    rewrite <- sql_eq_Int. destruct (sql_eq (nth 1 r Null) (Int cid));
      split; intros [I E]; (split; [exact I | congruence]).
  - unfold refers_to at 1. split.
    + intros [I E]. split; [exact I |]. intros g Ig Eg.
      destruct (sql_eq (cell (Database.schema sites) "channel_id" r)
                       (cell (Database.schema sources) "id" g)) eqn:Q;
        [| reflexivity].
      assert (X : existsb (fun g0 => sql_eq (nth 1 r Null) (nth 0 g0 Null))
                    (filter (refers_to (filter (id_is cid) (rows (tbl_channels self))))
                            (rows (tbl_sources self))) = true).
      { apply existsb_exists. exists g. split; [| exact Q].
        apply filter_In. split; [exact Ig |]. rewrite R.
        change (nth 1 g Null = Int cid) in Eg. rewrite Eg.
        apply sql_eq_Int; reflexivity. }
      rewrite X in E. discriminate E.
    + intros [I N]. split; [exact I |].
      destruct (existsb _ (filter _ _)) eqn:X; [| reflexivity].
      apply existsb_exists in X. destruct X as (g & Ig & Q).
      apply filter_In in Ig. destruct Ig as [Ig Rg]. rewrite R in Rg.
      apply sql_eq_Int in Rg. pose proof (N g Ig Rg) as Q'.
      change (sql_eq (nth 1 r Null) (nth 0 g Null) = false) in Q'.
      rewrite Q' in Q. discriminate Q.
Qed.

Lemma delete_channel_removes_exactly_witness :
  let s := run chain [Create_channel (lit "b") (lit "https://b") [] [];
                      Create_source 2 (lit "https://other") false [];
                      Create_site 2 (lit "https://kept") (lit "BUY")] in
  foreign_keys s = true
  /\ holds s channels "id" (Int 1) = true
  /\ int64 1 = true
  /\ exists s',
      Database.delete_channel s 1 = Database.Return s' PNone
      /\ rows (tbl_channels s') = [channel_row 2 (lit "b") (lit "https://b") [] []]
      /\ rows (tbl_sources s') = [source_row 2 2 (lit "https://other") false []]
      /\ rows (tbl_sites s') = [site_row 2 2 (lit "https://kept") (lit "BUY")].
Proof.
  intros s. split; [reflexivity |]. split; [reflexivity |]. split; [reflexivity |].
  destruct (delete_channel_removes_exactly s 1 eq_refl eq_refl eq_refl)
    as (s' & E & _).
  exists s'. split; [exact E |].
  vm_compute in E. injection E as <-. repeat split.
Defined.

(** [delete_site] of an id of 64 bits returns and removes exactly the
    sites with that id; channels and sources, and the sequence entries,
    stay as they were. *)
Theorem delete_site_removes_exactly (self : Database.t) (tid : Z) :
  int64 tid = true ->
  exists s',
    Database.delete_site self tid = Database.Return s' PNone
    /\ tbl_channels s' = tbl_channels self
    /\ tbl_sources s' = tbl_sources self
    /\ seq (tbl_sites s') = seq (tbl_sites self)
    /\ (forall t, In t (rows (tbl_sites s'))
                  <-> In t (rows (tbl_sites self))
                      /\ cell (Database.schema sites) "id" t <> Int tid).
Proof.
  intros B64.
  assert (B : bindable (Delete_site tid) = true) by bindable_intro.
  exists (after_delete_site self tid).
  split; [apply delete_site_eq; exact B |].
  unfold after_delete_site. cbn [tbl_channels tbl_sources tbl_sites].
  split; [reflexivity |]. split; [reflexivity |]. split; [reflexivity |].
  intros r. rewrite in_without, id_is_not. reflexivity.
Qed.

Lemma delete_site_removes_exactly_witness :
  let s := run chain [Create_site 1 (lit "https://kept") (lit "BUY")] in
  int64 1 = true
  /\ Database.delete_site s 1
     = Database.Return
         (set s sites
            {| rows := [site_row 2 1 (lit "https://kept") (lit "BUY")]; seq := 2 |})
         PNone.
Proof.
  intros s. split; [reflexivity |].
  destruct (delete_site_removes_exactly s 1 eq_refl) as (s' & E & _).
  rewrite E. vm_compute in E. injection E as <-. reflexivity.
Defined.

(** A create with valid input is accepted: a channel whose name and url
    no channel holds, a source under a channel that exists, a site of one
    of the four types under a source that exists, each with parameters that
    can be bound and in a table that has a key left to give.  The store
    then has that one row more, last in its table and keyed by the next
    key, and the other two tables are as they were. *)
Theorem valid_create_is_accepted (self : Database.t) :
  foreign_keys self = true ->
  (forall name url post_times forbidden_words,
      bindable (Create_channel name url post_times forbidden_words) = true ->
      room self channels = true ->
      holds self channels "name" (Text name) = false ->
      holds self channels "url" (Text url) = false ->
      Database.create_channel self name url post_times forbidden_words
      = Database.Return
          (appended self channels
             (fun rid => channel_row rid name url post_times forbidden_words))
          PNone)
  /\ (forall channel_id url parse_media forbidden_words,
         bindable (Create_source channel_id url parse_media forbidden_words) = true ->
         room self sources = true ->
         holds self channels "id" (Int channel_id) = true ->
         Database.create_source self channel_id url parse_media forbidden_words
         = Database.Return
             (appended self sources
                (fun rid => source_row rid channel_id url parse_media
                                       forbidden_words))
             PNone)
  /\ (forall source_id site_url site_type,
         bindable (Create_site source_id site_url site_type) = true ->
         room self sites = true ->
         In site_type [lit "AUTO"; lit "RENT"; lit "BUY"; lit "FREE"] ->
         holds self sources "id" (Int source_id) = true ->
         Database.create_site self source_id site_url site_type
         = Database.Return
             (appended self sites
                (fun rid => site_row rid source_id site_url site_type))
             PNone).
Proof.
  intros FK. split; [| split].
  - intros name url pt fw B R H1 H2.
    rewrite (create_channel_eq _ _ _ _ _ B R), H1, H2. reflexivity.
  - intros ch url pm fw B R H.
    rewrite (create_source_eq _ _ _ _ _ B R), FK, H. reflexivity.
  - intros src url ty B R A H.
    assert (A' : site_type_allowed ty = true).
    { unfold site_type_allowed. apply existsb_exists. exists ty.
      split; [exact A | apply str_eqb_eq; reflexivity]. }
    rewrite (create_site_eq _ _ _ _ B R), A', FK, H. reflexivity.
Qed.

Lemma valid_create_is_accepted_witness :
  foreign_keys chain = true
  /\ Database.create_channel chain (lit "b") (lit "https://b") [] []
     = Database.Return
         (appended chain channels
            (fun rid => channel_row rid (lit "b") (lit "https://b") [] []))
         PNone
  /\ Database.create_source chain 1 (lit "https://s2") false []
     = Database.Return
         (appended chain sources
            (fun rid => source_row rid 1 (lit "https://s2") false []))
         PNone
  /\ Database.create_site chain 1 (lit "https://t2") (lit "FREE")
     = Database.Return
         (appended chain sites
            (fun rid => site_row rid 1 (lit "https://t2") (lit "FREE")))
         PNone.
Proof.
  split; [reflexivity |]. split; [| split].
  - apply (proj1 (valid_create_is_accepted chain eq_refl)); reflexivity.
  - apply (proj1 (proj2 (valid_create_is_accepted chain eq_refl))); reflexivity.
  - apply (proj2 (proj2 (valid_create_is_accepted chain eq_refl))).
    + reflexivity.
    + reflexivity.
    + right; right; right; left; reflexivity.
    + reflexivity.
Defined.

Lemma key_in_rowids (t : table_id) (l : list row) (r : row) (j : Z) :
  In r l -> nth 0 r Null = Int j -> In j (rowids (Database.schema t) l).
Proof.
  induction l as [| a l IH]; [intros [] |]. intros [-> | I] E; cbn [rowids].
  - rewrite rowid_first, E. left; reflexivity.
  - destruct (rowid (Database.schema t) a); [| right |]; apply IH; assumption.
Qed.

Lemma next_key_unused (self : Database.t) (t : table_id) (r : row) :
  In r (rows (get self t)) ->
  id_is (next_rowid (Database.schema t) (get self t)) r = false.
Proof.
  intros I. apply id_is_not. intros E.
  pose proof (next_rowid_fresh self t _ (key_in_rowids t _ r _ I E)). lia.
Qed.

Lemma filter_all_false {A} (p : A -> bool) (l : list A) :
  (forall r, In r l -> p r = false) -> filter p l = [].
Proof.
  induction l as [| a l IH]; intros H; [reflexivity |]. cbn [filter].
  rewrite (H a (or_introl eq_refl)). apply IH. intros r I. apply H. right; exact I.
Qed.

Lemma next_rowid_room (self : Database.t) (t : table_id) :
  int64 (next_rowid (Database.schema t) (get self t)) = true ->
  room self t = true.
Proof.
  unfold int64, room, full, MAX_ROWID, next_rowid, largest_rowid. intros H.
  apply andb_prop in H. destruct H as [_ H]. apply Z.leb_le in H.
  apply negb_true_iff, Z.leb_gt.
  destruct (rowids (Database.schema t) (rows (get self t)));
    cbn [fold_right] in *; lia.
Qed.

(** Creating a channel and deleting it at once undoes the create: the
    rows of the three tables are as before, and only the sequence entry of
    the channels table has moved on, so that the id is not given again.
    The name and the url can be bound, and the next key of the table is a
    64-bit integer. *)
Theorem create_then_delete_channel (self : Database.t) (name url : str)
  (post_times forbidden_words : list str) :
  foreign_keys self = true ->
  no_orphans self = true ->
  bindable (Create_channel name url post_times forbidden_words) = true ->
  int64 (next_rowid (Database.schema channels) (tbl_channels self)) = true ->
  holds self channels "name" (Text name) = false ->
  holds self channels "url" (Text url) = false ->
  let k := next_rowid (Database.schema channels) (tbl_channels self) in
  let s1 := Database.state
              (Database.create_channel self name url post_times forbidden_words) in
  ids s1 channels = ids self channels ++ [k]
  /\ Database.delete_channel s1 k
     = Database.Return
         {| foreign_keys := foreign_keys self;
            tbl_channels := {| rows := rows (tbl_channels self); seq := k |};
            tbl_sources := tbl_sources self;
            tbl_sites := tbl_sites self |}
         PNone.
Proof.
  intros FK NO B K64 H1 H2 k s1.
  pose proof (next_rowid_room self channels K64) as R.
  assert (Bk : bindable (Delete_channel k) = true).
  { unfold bindable. cbn [arguments bind bind_param]. unfold k. rewrite K64.
    reflexivity. }
  assert (E1 : s1 = appended self channels
                      (fun rid => channel_row rid name url post_times forbidden_words)).
  { unfold s1. rewrite (create_channel_eq _ _ _ _ _ B R), H1, H2. reflexivity. }
  rewrite E1. split; [apply ids_appended; reflexivity |].
  rewrite (delete_channel_eq _ k Bk)
    by (unfold appended; cbn [set foreign_keys]; exact FK).
  unfold after_delete_channel, appended, without.
  cbn [get set tbl_channels tbl_sources tbl_sites rows seq foreign_keys]. fold k.
  assert (U : forall r, In r (rows (tbl_channels self)) -> id_is k r = false)
    by (intros r I; apply (next_key_unused self channels r I)).
  assert (G : filter (id_is k)
                (rows (tbl_channels self)
                 ++ [channel_row k name url post_times forbidden_words])
              = [channel_row k name url post_times forbidden_words]).
  { rewrite filter_app, (filter_all_false _ _ U). cbn [filter app].
    unfold id_is, channel_row. cbn [nth sql_eq]. rewrite Z.eqb_refl. reflexivity. }
  assert (K : filter (fun r => negb (id_is k r))
                (rows (tbl_channels self)
                 ++ [channel_row k name url post_times forbidden_words])
              = rows (tbl_channels self)).
  { rewrite filter_app, (filter_keeps_all _ _ (filter_all_false _ _ U)).
    cbn [filter]. unfold id_is at 1, channel_row. cbn [nth sql_eq].
    rewrite Z.eqb_refl. cbn [negb]. apply app_nil_r. }
  rewrite G, K.
  assert (S : filter (refers_to [channel_row k name url post_times forbidden_words])
                (rows (tbl_sources self)) = []).
  { apply filter_all_false. intros r I.
    unfold refers_to, channel_row. cbn [existsb nth]. rewrite orb_false_r.
    destruct (sql_eq (nth 1 r Null) (Int k)) eqn:Q; [| reflexivity]. exfalso.
    apply no_orphans_iff in NO. destruct NO as [HS _].
    destruct (HS r I) as (p & Ip & Ep).
    apply sql_eq_Int in Q. rewrite Q in Ep.
    pose proof (U p Ip) as Up. unfold id_is in Up. rewrite Ep in Up.
    discriminate Up. }
  rewrite S, (filter_keeps_all _ _ S).
  rewrite (filter_keeps_all _ _ (refers_to_nothing (rows (tbl_sites self)))).
  rewrite !table_eta. reflexivity.
Qed.

Lemma create_then_delete_channel_witness :
  let s1 := Database.state
              (Database.create_channel chain (lit "b") (lit "https://b") [] []) in
  foreign_keys chain = true /\ no_orphans chain = true
  /\ ids s1 channels = [1; 2]
  /\ Database.delete_channel s1 2
     = Database.Return
         {| foreign_keys := true;
            tbl_channels := {| rows := rows (tbl_channels chain); seq := 2 |};
            tbl_sources := tbl_sources chain;
            tbl_sites := tbl_sites chain |}
         PNone.
Proof.
  intros s1. split; [reflexivity |]. split; [reflexivity |].
  exact (create_then_delete_channel chain (lit "b") (lit "https://b") [] []
           eq_refl eq_refl eq_refl eq_refl eq_refl eq_refl).
Defined.

End Statements.

(** ** Invariants of the store under every sequence of calls *)

Section Invariants.
Import sqlite3.
Local Open Scope Z_scope.

Lemma ascending_app (l : list Z) (x : Z) :
  ascending l = true -> (forall j, In j l -> j < x) -> ascending (l ++ [x]) = true.
Proof.
  induction l as [| a l IH]; intros A H; [reflexivity |].
  cbn [app ascending] in *. apply andb_prop in A. destruct A as [A1 A2].
  apply andb_true_intro. split.
  - rewrite forallb_app, A1. cbn [forallb]. rewrite andb_true_r.
    apply Z.ltb_lt, H. left; reflexivity.
  - apply IH; [exact A2 |]. intros j I. apply H. right; exact I.
Qed.

Lemma ascending_rowids_filter (d : table_def) (q : row -> bool) (l : list row) :
  ascending (rowids d l) = true -> ascending (rowids d (filter q l)) = true.
Proof.
  induction l as [| r l IH]; [reflexivity |]. cbn [filter rowids].
  destruct (rowid d r) as [| z |] eqn:E; intros A.
  - destruct (q r); [cbn [rowids]; rewrite E |]; apply IH, A.
  - cbn [ascending] in A. apply andb_prop in A. destruct A as [A1 A2].
    destruct (q r); [| apply IH, A2]. cbn [rowids]. rewrite E. cbn [ascending].
    rewrite (IH A2), andb_true_r. apply forallb_forall. intros j I.
    rewrite forallb_forall in A1. apply A1. eapply in_rowids_filter, I.
  - destruct (q r); [cbn [rowids]; rewrite E |]; apply IH, A.
Qed.

Lemma ascending_NoDup (l : list Z) : ascending l = true -> NoDup l.
Proof.
  induction l as [| a l IH]; intros A; [constructor |].
  cbn [ascending] in A. apply andb_prop in A. destruct A as [A1 A2].
  constructor; [| apply IH, A2]. intros I. rewrite forallb_forall in A1.
  specialize (A1 a I). apply Z.ltb_lt in A1. lia.
Qed.

Lemma keys_ascend_iff (self : Database.t) :
  keys_ascend self = true <-> forall t, ascending (ids self t) = true.
Proof.
  unfold keys_ascend. rewrite forallb_forall. split.
  - intros H t. apply H. destruct t; cbn; tauto.
  - intros H t _. apply H.
Qed.

Lemma effect_keys_ascend (s s' : Database.t) :
  effect s s' -> keys_ascend s = true -> keys_ascend s' = true.
Proof.
  intros E A. rewrite keys_ascend_iff in *.
  destruct E as [| t0 r K | t0 k f K | s' FK W]; intros t.
  - apply A.
  - destruct (table_id_eq_dec t0 t) as [-> | N].
    + rewrite (ids_appended s t r K). apply ascending_app; [apply A |].
      intros j. apply next_rowid_fresh.
    + unfold ids, appended. rewrite (get_set_other _ _ _ _ N). apply A.
  - destruct (table_id_eq_dec t0 t) as [-> | N].
    + unfold ids, updated. rewrite get_set_same. cbn [rows].
      rewrite (rowids_replaced t _ f _ K). apply A.
    + unfold ids, updated. rewrite (get_set_other _ _ _ _ N). apply A.
  - unfold ids. destruct (W t) as [q ->]. cbn [without rows].
    apply ascending_rowids_filter, A.
Qed.

Lemma run_keys_ascend (cs : list call) (self : Database.t) :
  keys_ascend self = true -> keys_ascend (run self cs) = true.
Proof.
  revert self. induction cs as [| c cs IH]; intros self A; [exact A |].
  cbn [run fold_left]. apply IH. apply (effect_keys_ascend self); [| exact A].
  apply invoke_effect.
Qed.

(** In every table the keys ascend strictly in storage order, whatever
    calls are made: a key occurs once, and [list] returns the rows in the
    order of their creation. *)
Theorem keys_stay_ascending (self : Database.t) (cs : list call) :
  keys_ascend self = true ->
  keys_ascend (run self cs) = true
  /\ forall t, NoDup (ids (run self cs) t).
Proof.
  intros A. pose proof (run_keys_ascend cs self A) as R. split; [exact R |].
  intros t. apply ascending_NoDup. rewrite keys_ascend_iff in R. apply R.
Qed.

Lemma keys_stay_ascending_witness :
  let cs := [news; Create_channel (lit "b") (lit "https://b") [] [];
             Delete_channel 1; Create_channel (lit "c") (lit "https://c") [] [];
             Update_channel 3 (lit "d") (lit "https://d") [] []] in
  keys_ascend fresh = true
  /\ ids (run fresh cs) channels = [2; 3]
  /\ keys_ascend (run fresh cs) = true.
Proof.
  intros cs. split; [reflexivity |]. split; [reflexivity |].
  exact (proj1 (keys_stay_ascending fresh cs eq_refl)).
Defined.

(** Every call is atomic: it returns [None], or it raises and the store
    is as it was; no call returns a value.  With parameters that can be
    bound, a create in a table that has no key left raises
    OperationalError, and any other call returns or raises the integrity
    error of a constraint: no statement fails on the number of its
    parameters or on the depth of the delete actions.  With a parameter
    that cannot be bound the call always raises. *)
Theorem calls_are_atomic (self : Database.t) (c : call) :
  ((exists s', invoke self c = Database.Return s' PNone)
   \/ (exists e, invoke self c = Database.Raise self e))
  /\ (bindable c = false -> exists e, invoke self c = Database.Raise self e)
  /\ (bindable c = true ->
      if out_of_keys self c
      then invoke self c = Database.Raise self OperationalError
      else (exists s', invoke self c = Database.Return s' PNone)
           \/ (exists k, invoke self c = Database.Raise self (IntegrityError k))).
Proof.
  assert (U : bindable c = false -> exists e, invoke self c = Database.Raise self e).
  { intros B. destruct (unbindable_raises self c B) as (e & _ & E).
    exists e. exact E. }
  assert (G : bindable c = true ->
              if out_of_keys self c
              then invoke self c = Database.Raise self OperationalError
              else (exists s', invoke self c = Database.Return s' PNone)
                   \/ (exists k, invoke self c
                                 = Database.Raise self (IntegrityError k))).
  2: { split; [| split; [exact U | exact G]].
       destruct (bindable c); [| right; apply U; reflexivity].
       specialize (G eq_refl). destruct (out_of_keys self c).
       - right. eexists. exact G.
       - destruct G as [G | [k G]]; [left; exact G | right; eexists; exact G]. }
  intros B. destruct (out_of_keys self c) eqn:O.
  { unfold out_of_keys in O. destruct (creates c) as [t |] eqn:C; [| discriminate O].
    apply negb_true_iff in O. exact (create_full self c t B C O). }
  destruct c; cbn [invoke]; has_room O.
  - rewrite (create_channel_eq _ _ _ _ _ B O).
    destruct (_ || _); [right | left]; eexists; reflexivity.
  - destruct (holds self channels "id" (Int cid)) eqn:H.
    + rewrite (update_channel_eq self cid name url post_times forbidden_words B H).
      destruct (_ || _); [right | left]; eexists; reflexivity.
    + left. exists self.
      apply (absent_call self (Update_channel cid name url post_times forbidden_words)
               channels cid B eq_refl (absent_unselected self channels cid H)).
  - left. destruct (foreign_keys self) eqn:FK.
    + rewrite (delete_channel_eq self cid B FK). eexists; reflexivity.
    + rewrite (delete_channel_without_foreign_keys self cid B FK).
      eexists; reflexivity.
  - rewrite (create_source_eq _ _ _ _ _ B O).
    destruct (_ && _); [right | left]; eexists; reflexivity.
  - destruct (holds self sources "id" (Int sid)) eqn:H.
    + rewrite (update_source_eq self sid channel_id url parse_media forbidden_words
                 B H).
      destruct (_ && _); [right | left]; eexists; reflexivity.
    + left. exists self.
      apply (absent_call self
               (Update_source sid channel_id url parse_media forbidden_words)
               sources sid B eq_refl (absent_unselected self sources sid H)).
  - left. destruct (foreign_keys self) eqn:FK.
    + rewrite (delete_source_eq self sid B FK). eexists; reflexivity.
    + rewrite (delete_source_without_foreign_keys self sid B FK).
      eexists; reflexivity.
  - rewrite (create_site_eq _ _ _ _ B O).
    destruct (negb _); [right; eexists; reflexivity |].
    destruct (_ && _); [right | left]; eexists; reflexivity.
  - destruct (holds self sites "id" (Int tid)) eqn:H.
    + rewrite (update_site_eq self tid source_id site_url site_type B H).
      destruct (negb _); [right; eexists; reflexivity |].
      destruct (_ && _); [right | left]; eexists; reflexivity.
    + left. exists self.
      apply (absent_call self (Update_site tid source_id site_url site_type)
               sites tid B eq_refl (absent_unselected self sites tid H)).
  - left. rewrite (delete_site_eq self tid B). eexists; reflexivity.
Qed.

Lemma calls_are_atomic_witness :
  let f := {| Database.stored_channels :=
                Some {| rows := []; seq := 9223372036854775807 |};
              Database.stored_sources := None;
              Database.stored_sites := None |} in
  let s := Database.__init__ f in
  bindable news = true
  /\ invoke s news = Database.Raise s OperationalError
  /\ (exists s', invoke fresh news = Database.Return s' PNone)
  /\ exists e, invoke fresh (Delete_site 9223372036854775808)
               = Database.Raise fresh e.
Proof.
  intros f s. split; [reflexivity |].
  split; [exact (proj2 (proj2 (calls_are_atomic s news)) eq_refl) |].
  split; [eexists; reflexivity |].
  exact (proj1 (proj2 (calls_are_atomic fresh (Delete_site 9223372036854775808)))
           eq_refl).
Defined.

(** Whatever tables an earlier run of the program left in the file that
    the store is opened on, and whatever calls follow, the foreign keys are
    enforced: every [delete_channel] and every [delete_source] of an id of
    64 bits is the cascading delete, down to the sites. *)
Theorem cascade_is_always_on (f : Database.file) (cs : list call) (cid : Z) :
  int64 cid = true ->
  let s := run (Database.__init__ f) cs in
  foreign_keys s = true
  /\ Database.delete_channel s cid
     = Database.Return (after_delete_channel s cid) PNone
  /\ forall sid, int64 sid = true ->
                 Database.delete_source s sid
                 = Database.Return (after_delete_source s sid) PNone.
Proof.
  intros B64. cbv zeta. pose proof (foreign_keys_stay_on f cs) as FK.
  split; [exact FK |].
  split.
  - apply delete_channel_eq; [bindable_intro | exact FK].
  - intros sid S64. apply delete_source_eq; [bindable_intro | exact FK].
Qed.

Lemma cascade_is_always_on_witness :
  let f := {| Database.stored_channels := Some (tbl_channels chain);
              Database.stored_sources := Some (tbl_sources chain);
              Database.stored_sites := None |} in
  let cs := [Create_site 1 (lit "https://t") (lit "FREE")] in
  let s := run (Database.__init__ f) cs in
  int64 1 = true
  /\ ids s sites = [1]
  /\ Database.delete_channel s 1
     = Database.Return (after_delete_channel s 1) PNone
  /\ ids (after_delete_channel s 1) sites = [].
Proof.
  intros f cs s. split; [reflexivity |]. split; [reflexivity |].
  split; [| reflexivity].
  exact (proj1 (proj2 (cascade_is_always_on f cs 1 eq_refl))).
Defined.

Lemma existsb_false_iff {A} (p : A -> bool) (l : list A) :
  existsb p l = false <-> forall o, In o l -> p o = false.
Proof.
  induction l as [| a l IH]; cbn [existsb In].
  - split; [intros _ o [] | reflexivity].
  - rewrite orb_false_iff, IH. split.
    + intros [H1 H2] o [<- | I]; [exact H1 | apply H2, I].
    + intros H. split; [apply H; left; reflexivity |].
      intros o I. apply H. right; exact I.
Qed.

Lemma distinct_on_filter (i : nat) (q : row -> bool) (l : list row) :
  distinct_on i l = true -> distinct_on i (filter q l) = true.
Proof.
  induction l as [| r l IH]; [reflexivity |]. cbn [distinct_on filter].
  intros D. apply andb_prop in D. destruct D as [D1 D2].
  destruct (q r); [| apply IH, D2]. cbn [distinct_on]. rewrite (IH D2), andb_true_r.
  apply negb_true_iff in D1. apply negb_true_iff.
  rewrite existsb_false_iff in *. intros o I. apply filter_In in I. apply D1, I.
Qed.

Lemma distinct_on_app_one (i : nat) (l : list row) (x : row) :
  distinct_on i l = true ->
  existsb (fun o => sql_eq (nth i o Null) (nth i x Null)) l = false ->
  distinct_on i (l ++ [x]) = true.
Proof.
  induction l as [| r l IH]; intros D H; [reflexivity |].
  cbn [app distinct_on existsb] in *. apply andb_prop in D. destruct D as [D1 D2].
  apply orb_false_iff in H. destruct H as [H1 H2].
  rewrite (IH D2 H2), andb_true_r. apply negb_true_iff in D1.
  apply negb_true_iff. rewrite existsb_app. apply orb_false_iff.
  split; [exact D1 |]. cbn [existsb]. rewrite sql_eq_sym, H1. reflexivity.
Qed.

Lemma distinct_on_replace (i : nat) (k : Z) (R : row) (l : list row) :
  ascending (rowids (Database.schema channels) l) = true ->
  distinct_on i l = true ->
  existsb (fun o => negb (id_is k o) && sql_eq (nth i o Null) (nth i R Null)) l
  = false ->
  distinct_on i (map (fun r => if id_is k r then R else r) l) = true.
Proof.
  induction l as [| r l IH]; intros A D H; [reflexivity |].
  cbn [distinct_on existsb] in D, H.
  apply andb_prop in D. destruct D as [D1 D2]. apply negb_true_iff in D1.
  apply orb_false_iff in H. destruct H as [H1 H2].
  rewrite existsb_false_iff in D1, H2.
  cbn [map]. destruct (id_is k r) eqn:S.
  - cbn [rowids] in A. rewrite rowid_first in A.
    pose proof S as S'. apply id_is_key in S'. rewrite S' in A.
    cbn [ascending] in A. apply andb_prop in A. destruct A as [A1 A2].
    rewrite forallb_forall in A1.
    assert (U : forall o, In o l -> id_is k o = false).
    { intros o I. destruct (id_is k o) eqn:So; [| reflexivity]. exfalso.
      apply id_is_key in So.
      pose proof (A1 k (key_in_rowids channels l o k I So)) as X.
      apply Z.ltb_lt in X. lia. }
    rewrite (map_unselected _ _ _ (filter_all_false _ _ U)).
    cbn [distinct_on]. rewrite D2, andb_true_r. apply negb_true_iff.
    apply existsb_false_iff. intros o I. specialize (H2 o I).
    rewrite (U o I) in H2. exact H2.
  - assert (A2 : ascending (rowids (Database.schema channels) l) = true).
    { cbn [rowids] in A. destruct (rowid (Database.schema channels) r);
        [exact A | | exact A].
      cbn [ascending] in A. apply andb_prop in A. apply A. }
    cbn [distinct_on]. rewrite IH; [| exact A2 | exact D2 |].
    + rewrite andb_true_r. apply negb_true_iff. apply existsb_false_iff.
      intros o I. apply in_map_iff in I. destruct I as (o' & <- & I').
      destruct (id_is k o').
      * cbn [negb andb] in H1. rewrite sql_eq_sym. exact H1.
      * apply D1, I'.
    + apply existsb_false_iff. exact H2.
Qed.

Lemma names_depend_on_channels (s s' : Database.t) :
  tbl_channels s' = tbl_channels s ->
  names_urls_distinct s' = names_urls_distinct s.
Proof. unfold names_urls_distinct. intros ->. reflexivity. Qed.

Lemma invoke_names_distinct (self : Database.t) (c : call) :
  keys_ascend self = true ->
  names_urls_distinct self = true ->
  names_urls_distinct (Database.state (invoke self c)) = true.
Proof.
  intros A D. pose proof D as D0.
  destruct (invoke_split self c) as [[e R] | [B O]]; [rewrite R; exact D |].
  unfold names_urls_distinct in D.
  apply andb_prop in D. destruct D as [D1 D2].
  rewrite keys_ascend_iff in A. specialize (A channels). unfold ids in A.
  cbn [get] in A.
  destruct c; cbn [invoke]; has_room O.
  - rewrite (create_channel_eq _ _ _ _ _ B O).
    destruct (holds self channels "name" (Text name)) eqn:H1; [exact D0 |].
    destruct (holds self channels "url" (Text url)) eqn:H2; [exact D0 |].
    cbn [orb Database.state]. unfold names_urls_distinct, appended.
    cbn [get set tbl_channels rows].
    rewrite !distinct_on_app_one; [reflexivity | exact D2 | exact H2 | exact D1
                                  | exact H1].
  - destruct (holds self channels "id" (Int cid)) eqn:H.
    + rewrite (update_channel_eq self cid name url post_times forbidden_words B H).
      destruct (other_holds self channels cid 1 (Text name)) eqn:O1; [exact D0 |].
      destruct (other_holds self channels cid 2 (Text url)) eqn:O2; [exact D0 |].
      cbn [orb Database.state]. unfold names_urls_distinct.
      cbn [get set tbl_channels rows].
      rewrite !distinct_on_replace; [reflexivity | exact A | exact D2 | exact O2
                                    | exact A | exact D1 | exact O1].
    + pose proof (absent_call self
                    (Update_channel cid name url post_times forbidden_words)
                    channels cid B eq_refl (absent_unselected self channels cid H))
        as R.
      cbn [invoke] in R. rewrite R. exact D0.
  - unfold names_urls_distinct. rewrite (delete_channel_own_table self cid B).
    unfold without. cbn [rows]. rewrite !distinct_on_filter by assumption.
    reflexivity.
  - rewrite (names_depend_on_channels self); [exact D0 |].
    rewrite (create_source_eq _ _ _ _ _ B O). destruct (_ && _); reflexivity.
  - rewrite (names_depend_on_channels self); [exact D0 |].
    destruct (update_source_cases self sid channel_id url parse_media
                forbidden_words B)
      as [R | [_ [e R]]]; rewrite R; reflexivity.
  - rewrite (names_depend_on_channels self); [exact D0 |].
    destruct (foreign_keys self) eqn:FK.
    + rewrite (delete_source_eq self sid B FK). reflexivity.
    + rewrite (delete_source_without_foreign_keys self sid B FK). reflexivity.
  - rewrite (names_depend_on_channels self); [exact D0 |].
    rewrite (create_site_eq _ _ _ _ B O). destruct (negb _); [reflexivity |].
    destruct (_ && _); reflexivity.
  - rewrite (names_depend_on_channels self); [exact D0 |].
    destruct (update_site_cases self tid source_id site_url site_type B)
      as [R | [_ [e R]]]; rewrite R; reflexivity.
  - rewrite (names_depend_on_channels self); [exact D0 |].
    rewrite (delete_site_eq self tid B). reflexivity.
Qed.

(** No two channels ever share a name or a url: started on a store where
    that holds and the keys ascend, as in a new store, every sequence of
    creates, updates and deletes keeps names and urls distinct. *)
Theorem names_and_urls_stay_distinct (self : Database.t) (cs : list call) :
  keys_ascend self = true ->
  names_urls_distinct self = true ->
  names_urls_distinct (run self cs) = true.
Proof.
  revert self. induction cs as [| c cs IH]; intros self A D; [exact D |].
  cbn [run fold_left]. apply IH.
  - apply (effect_keys_ascend self); [apply invoke_effect | exact A].
  - apply invoke_names_distinct; assumption.
Qed.

Lemma names_and_urls_stay_distinct_witness :
  let cs := [news; Create_channel (lit "b") (lit "https://b") [] [];
             Update_channel 2 (lit "news") (lit "https://c") [] [];
             Update_channel 1 (lit "news") (lit "https://b2") [] [];
             Create_channel (lit "c") (lit "https://b2") [] []] in
  keys_ascend fresh = true /\ names_urls_distinct fresh = true
  /\ map (fun r => nth 1 r Null) (rows (tbl_channels (run fresh cs)))
     = [Text (lit "news"); Text (lit "b")]
  /\ names_urls_distinct (run fresh cs) = true.
Proof.
  intros cs. split; [reflexivity |]. split; [reflexivity |].
  split; [reflexivity |].
  exact (names_and_urls_stay_distinct fresh cs eq_refl eq_refl).
Defined.

End Invariants.

(** ** What the table view can show *)

Section Display.

Import sqlite3.
Local Open Scope Z_scope.

Lemma channel_fields_shown (h : field) (name url : str) (p f : list str) :
  forallb code_points p = true ->
  forallb code_points f = true ->
  TableFrame.refresh_row channels
    [h; FStr name; FStr url; FStr (json.dumps p); FStr (json.dumps f)]
  = Some [h; FStr name; FStr url;
          FStr (join (lit ",") (map merge_surrogates p));
          FStr (join (lit ",") (map merge_surrogates f))].
Proof.
  intros P F. unfold TableFrame.refresh_row, TableFrame.join_decoded.
  cbn [nth_error]. rewrite (decode_dumps_merged p P).
  unfold TableFrame.set_item. cbn [List.length Nat.ltb Nat.leb firstn skipn app].
  cbn [nth_error]. rewrite (decode_dumps_merged f F).
  cbn [List.length Nat.ltb Nat.leb firstn skipn app]. reflexivity.
Qed.

Lemma source_fields_shown (h c : field) (url : str) (m : bool) (f : list str) :
  forallb code_points f = true ->
  TableFrame.refresh_row sources
    [h; c; FStr url; FInt (Database.int m); FStr (json.dumps f)]
  = Some [h; c; FStr url; FStr (if m then lit "Yes" else lit "No");
          FStr (join (lit ",") (map merge_surrogates f))].
Proof.
  intros F. unfold TableFrame.refresh_row, TableFrame.join_decoded.
  cbn [nth_error]. unfold TableFrame.set_item.
  cbn [List.length Nat.ltb Nat.leb firstn skipn app].
  cbn [nth_error]. rewrite (decode_dumps_merged f F).
  cbn [List.length Nat.ltb Nat.leb firstn skipn app].
  destruct m; reflexivity.
Qed.

Lemma displayable_iff (self : Database.t) :
  displayable self = true
  <-> forall t r, In r (rows (get self t)) ->
                  exists v, TableFrame.refresh_row t (tuple r) = Some v.
Proof.
  unfold displayable. rewrite forallb_forall. split.
  - intros H t r I.
    assert (T : In t [channels; sources; sites]).
    { destruct t; cbn [In]; auto. }
    specialize (H t T). cbn beta in H. rewrite forallb_forall in H.
    specialize (H r I). cbn beta in H.
    destruct (TableFrame.refresh_row t (tuple r)) as [v |]; [| discriminate].
    exists v. reflexivity.
  - intros H t _. apply forallb_forall. intros r I.
    destruct (H t r I) as [v ->]. reflexivity.
Qed.

Lemma displayable_appended (self : Database.t) (t : table_id) (r : Z -> row) :
  displayable self = true ->
  (forall k, exists v, TableFrame.refresh_row t (tuple (r k)) = Some v) ->
  displayable (appended self t r) = true.
Proof.
  rewrite !displayable_iff. intros D N u x I. unfold appended in I.
  destruct (table_id_eq_dec t u) as [<- | NE].
  - rewrite get_set_same in I. cbn [rows] in I. apply in_app_or in I.
    destruct I as [I | [<- | []]]; [apply D, I | apply N].
  - rewrite (get_set_other _ _ _ _ NE) in I. apply D, I.
Qed.

Lemma displayable_updated (self : Database.t) (t : table_id) (k : Z)
  (f : row -> row) :
  displayable self = true ->
  (forall r, exists v, TableFrame.refresh_row t (tuple (f r)) = Some v) ->
  displayable (updated self t k f) = true.
Proof.
  rewrite !displayable_iff. intros D N u x I. unfold updated in I.
  destruct (table_id_eq_dec t u) as [<- | NE].
  - rewrite get_set_same in I. cbn [rows] in I. apply in_map_iff in I.
    destruct I as (o & <- & I). destruct (id_is k o); [apply N | apply D, I].
  - rewrite (get_set_other _ _ _ _ NE) in I. apply D, I.
Qed.

Lemma displayable_shrunk (self s' : Database.t) :
  (forall t, exists q, get s' t = without q (get self t)) ->
  displayable self = true -> displayable s' = true.
Proof.
  rewrite !displayable_iff. intros W D u x I. destruct (W u) as [q E].
  rewrite E in I. unfold without in I. cbn [rows] in I.
  apply filter_In in I. apply D, I.
Qed.

Lemma delete_shrinks (self : Database.t) (c : call) :
  bindable c = true ->
  is_delete c = true ->
  forall t, exists q,
    get (Database.state (invoke self c)) t = without q (get self t).
Proof.
  intros B. destruct c; cbn [is_delete invoke]; intros E; try discriminate.
  - destruct (foreign_keys self) eqn:FK.
    + rewrite (delete_channel_eq self cid B FK). cbn [Database.state].
      intros [| |]; eexists; reflexivity.
    + rewrite (delete_channel_without_foreign_keys self cid B FK).
      cbn [Database.state].
      intros [| |]; [eexists; reflexivity | |];
        exists (fun _ => false); apply without_nothing.
  - destruct (foreign_keys self) eqn:FK.
    + rewrite (delete_source_eq self sid B FK). cbn [Database.state].
      intros [| |]; [exists (fun _ => false); apply without_nothing | |];
        eexists; reflexivity.
    + rewrite (delete_source_without_foreign_keys self sid B FK).
      cbn [Database.state].
      intros [| |]; [| eexists; reflexivity |];
        exists (fun _ => false); apply without_nothing.
  - rewrite (delete_site_eq self tid B). cbn [Database.state].
    intros [| |]; [| | eexists; reflexivity];
      exists (fun _ => false); apply without_nothing.
Qed.

Lemma invoke_displayable (self : Database.t) (c : call) :
  displayable self = true ->
  valid_call c = true ->
  displayable (Database.state (invoke self c)) = true.
Proof.
  intros D V.
  destruct (invoke_split self c) as [[e R] | [B O]]; [rewrite R; exact D |].
  destruct (is_delete c) eqn:Del.
  { exact (displayable_shrunk self _ (delete_shrinks self c B Del) D). }
  destruct c; cbn [is_delete] in Del; try discriminate; cbn [invoke];
    cbn [valid_call] in V; has_room O.
  - apply andb_prop in V. destruct V as [V1 V2].
    rewrite (create_channel_eq _ _ _ _ _ B O). destruct (_ || _); [exact D |].
    cbn [Database.state]. apply displayable_appended; [exact D |].
    intros k. eexists. exact (channel_fields_shown _ _ _ _ _ V1 V2).
  - apply andb_prop in V. destruct V as [V1 V2].
    destruct (update_channel_cases self cid name url post_times forbidden_words B)
      as [R | [_ [e R]]]; rewrite R; cbn [Database.state]; [| exact D].
    apply displayable_updated; [exact D |].
    intros r. eexists. exact (channel_fields_shown _ _ _ _ _ V1 V2).
  - rewrite (create_source_eq _ _ _ _ _ B O). destruct (_ && _); [exact D |].
    cbn [Database.state]. apply displayable_appended; [exact D |].
    intros k. eexists. exact (source_fields_shown _ _ _ _ _ V).
  - destruct (update_source_cases self sid channel_id url parse_media
                forbidden_words B)
      as [R | [_ [e R]]]; rewrite R; cbn [Database.state]; [| exact D].
    apply displayable_updated; [exact D |].
    intros r. eexists. exact (source_fields_shown _ _ _ _ _ V).
  - rewrite (create_site_eq _ _ _ _ B O). destruct (negb _); [exact D |].
    destruct (_ && _); [exact D |].
    cbn [Database.state]. apply displayable_appended; [exact D |].
    intros k. eexists. reflexivity.
  - destruct (update_site_cases self tid source_id site_url site_type B)
      as [R | [_ [e R]]]; rewrite R; cbn [Database.state]; [| exact D].
    apply displayable_updated; [exact D |].
    intros r. eexists. reflexivity.
Qed.

Lemma run_displayable (self : Database.t) (cs : list call) :
  displayable self = true ->
  forallb valid_call cs = true ->
  displayable (run self cs) = true.
Proof.
  revert self. induction cs as [| c cs IH]; intros self D V; [exact D |].
  cbn [forallb] in V. apply andb_prop in V. destruct V as [V1 V2].
  cbn [run fold_left]. apply IH; [| exact V2].
  apply invoke_displayable; assumption.
Qed.

Lemma refresh_rows_total (t : table_id) (l : list row) :
  (forall r, In r l -> exists v, TableFrame.refresh_row t (tuple r) = Some v) ->
  exists shown, TableFrame.refresh_rows t (map tuple l) = Some shown
                /\ List.length shown = List.length l.
Proof.
  induction l as [| r l IH]; intros H.
  - exists []. split; reflexivity.
  - destruct (H r (or_introl eq_refl)) as [v E].
    destruct IH as (shown & Es & El).
    { intros o I. apply H. right. exact I. }
    exists (v :: shown). cbn [map TableFrame.refresh_rows].
    rewrite E, Es. cbn [List.length]. rewrite El. split; reflexivity.
Qed.

Lemma refresh_eq (t : table_id) (self : Database.t) :
  TableFrame.refresh t self
  = TableFrame.refresh_rows t (map tuple (rows (get self t))).
Proof. destruct t; reflexivity. Qed.

(** [refresh] never raises on what the methods stored: on a store whose
    rows can all be shown, as a new one, after any sequence of calls whose
    list arguments are lists of strings of code points, [refresh] of each
    of the three tables succeeds and shows one line per stored row. *)
Theorem refresh_never_raises (self : Database.t) (cs : list call)
  (t : table_id) :
  displayable self = true ->
  forallb valid_call cs = true ->
  exists shown,
    TableFrame.refresh t (run self cs) = Some shown
    /\ List.length shown = List.length (rows (get (run self cs) t)).
Proof.
  intros D V. rewrite refresh_eq. apply refresh_rows_total.
  intros r I.
  exact (proj1 (displayable_iff _) (run_displayable self cs D V) t r I).
Qed.

Lemma refresh_never_raises_witness :
  let cs := [Create_channel (lit "n") (lit "u") [[55357; 56832]%N] [lit "a,b"];
             Create_source 1 (lit "s") true [[34; 92]%N];
             Update_channel 1 (lit "m") (lit "u") [] [[56832; 55357]%N]] in
  displayable fresh = true /\ forallb valid_call cs = true
  /\ exists shown,
       TableFrame.refresh channels (run fresh cs) = Some shown
       /\ List.length shown = List.length (rows (get (run fresh cs) channels)).
Proof.
  intros cs. split; [reflexivity |]. split; [reflexivity |].
  exact (refresh_never_raises fresh cs channels eq_refl eq_refl).
Defined.

End Display.

(** ** The lists typed into the dialogs *)

Section Words.

Local Open Scope N_scope.

Lemma split_no_sep (sep : N) (s t : str) :
  In t (split sep s) -> existsb (N.eqb sep) t = false.
Proof.
  revert t. induction s as [| c r IH]; intros t I.
  - destruct I as [<- | []]. reflexivity.
  - cbn [split] in I. destruct (c =? sep) eqn:E.
    + destruct I as [<- | I]; [reflexivity | apply IH, I].
    + destruct (split sep r) as [| h tl].
      * destruct I as [<- | []]. cbn [existsb]. rewrite N.eqb_sym, E. reflexivity.
      * destruct I as [<- | I].
        -- cbn [existsb]. rewrite N.eqb_sym, E. apply IH. left. reflexivity.
        -- apply IH. right. exact I.
Qed.

Lemma split_In (sep : N) (s t : str) (c : N) :
  In t (split sep s) -> In c t -> In c s.
Proof.
  revert t. induction s as [| a r IH]; intros t I C.
  - destruct I as [<- | []]. exact C.
  - cbn [split] in I. destruct (a =? sep).
    + destruct I as [<- | I]; [destruct C |]. right. exact (IH t I C).
    + destruct (split sep r) as [| h tl].
      * destruct I as [<- | []]. destruct C as [<- | []]. left. reflexivity.
      * destruct I as [<- | I].
        -- destruct C as [<- | C]; [left; reflexivity |].
           right. apply (IH h); [left; reflexivity | exact C].
        -- right. apply (IH t); [right; exact I | exact C].
Qed.

Lemma lstrip_suffix (s : str) : exists pre, s = pre ++ lstrip s.
Proof.
  induction s as [| c r [pre E]]; [exists []; reflexivity |].
  cbn [lstrip]. destruct (isspace c).
  - exists (c :: pre). cbn [app]. rewrite <- E. reflexivity.
  - exists []. reflexivity.
Qed.

Lemma lstrip_head (s : str) :
  match lstrip s with [] => True | c :: _ => isspace c = false end.
Proof.
  induction s as [| c r IH]; [exact I |].
  cbn [lstrip]. destruct (isspace c) eqn:E; [exact IH | exact E].
Qed.

Lemma rstrip_prefix (s : str) : exists post, s = rstrip s ++ post.
Proof.
  unfold rstrip. destruct (lstrip_suffix (rev s)) as [pre E].
  exists (rev pre). rewrite <- rev_app_distr, <- E, rev_involutive. reflexivity.
Qed.

Lemma In_strip (c : N) (s : str) : In c (strip s) -> In c s.
Proof.
  unfold strip. intros H.
  destruct (rstrip_prefix (lstrip s)) as [post E].
  destruct (lstrip_suffix s) as [pre E'].
  rewrite E', E. apply in_or_app. right. apply in_or_app. left. exact H.
Qed.

Lemma strip_head (s : str) :
  match strip s with [] => True | c :: _ => isspace c = false end.
Proof.
  unfold strip. destruct (rstrip_prefix (lstrip s)) as [post E].
  pose proof (lstrip_head s) as H.
  destruct (rstrip (lstrip s)) as [| c r]; [exact I |].
  rewrite E in H. exact H.
Qed.

Lemma strip_last (s : str) :
  match rev (strip s) with [] => True | c :: _ => isspace c = false end.
Proof. unfold strip, rstrip. rewrite rev_involutive. apply lstrip_head. Qed.

Lemma strip_clean (w : str) : clean_word w = true -> strip w = w.
Proof.
  unfold clean_word. intros H.
  apply andb_prop in H. destruct H as [H L].
  apply andb_prop in H. destruct H as [H F].
  apply andb_prop in H. destruct H as [NE _].
  destruct w as [| c r]; [discriminate |].
  apply negb_true_iff in F. unfold strip. cbn [lstrip]. rewrite F.
  unfold rstrip. destruct (rev (c :: r)) as [| a q] eqn:R.
  - apply (f_equal (@rev N)) in R. rewrite rev_involutive in R. discriminate.
  - apply negb_true_iff in L. cbn [lstrip]. rewrite L, <- R.
    apply rev_involutive.
Qed.

Lemma split_app (x rest : str) :
  existsb (N.eqb 44) x = false ->
  split 44 (x ++ 44 :: rest) = x :: split 44 rest.
Proof.
  induction x as [| a x IH]; intros H; [reflexivity |].
  cbn [existsb] in H. apply orb_false_iff in H. destruct H as [H1 H2].
  cbn [app split]. rewrite N.eqb_sym, H1, (IH H2). reflexivity.
Qed.

Lemma split_none (x : str) :
  existsb (N.eqb 44) x = false -> split 44 x = [x].
Proof.
  induction x as [| a x IH]; intros H; [reflexivity |].
  cbn [existsb] in H. apply orb_false_iff in H. destruct H as [H1 H2].
  cbn [split]. rewrite N.eqb_sym, H1, (IH H2). reflexivity.
Qed.

Lemma split_join (L : list str) :
  L <> [] ->
  (forall w, In w L -> existsb (N.eqb 44) w = false) ->
  split 44 (join [44] L) = L.
Proof.
  induction L as [| x L IH]; intros NE H; [contradiction |].
  destruct L as [| y r].
  - apply split_none, H. left. reflexivity.
  - change (join [44] (x :: y :: r)) with (x ++ 44 :: join [44] (y :: r)).
    rewrite split_app by (apply H; left; reflexivity).
    rewrite IH; [reflexivity | discriminate |].
    intros w I. apply H. right. exact I.
Qed.

Lemma clean_has_no_comma (w : str) :
  clean_word w = true -> existsb (N.eqb 44) w = false.
Proof.
  unfold clean_word. intros H.
  apply andb_prop in H. destruct H as [H _].
  apply andb_prop in H. destruct H as [H _].
  apply andb_prop in H. destruct H as [_ H].
  apply negb_true_iff in H. exact H.
Qed.

Lemma clean_kept (L : list str) :
  forallb clean_word L = true ->
  map strip
      (filter (fun t => match strip t with [] => false | _ :: _ => true end) L)
  = L.
Proof.
  induction L as [| w L IH]; intros H; [reflexivity |].
  cbn [forallb] in H. apply andb_prop in H. destruct H as [C H].
  cbn [filter]. rewrite (strip_clean w C).
  destruct w as [| c r]; [discriminate |].
  cbn [map]. rewrite (strip_clean (c :: r) C), (IH H). reflexivity.
Qed.

Lemma words_code_points (v : str) :
  code_points v = true -> forallb code_points (Frame.words v) = true.
Proof.
  unfold code_points. intros H. rewrite forallb_forall in H.
  apply forallb_forall. intros w I. unfold Frame.words in I.
  apply in_map_iff in I. destruct I as (t & <- & I).
  apply filter_In in I. destruct I as [I _].
  apply forallb_forall. intros c Ic. apply H.
  apply (split_In 44 v t c I). apply In_strip, Ic.
Qed.

(** Whatever is typed into a list dialog, every item that
    [_prompt_fields] makes of it is clean: not empty, free of commas, and
    without white space at either end. *)
Theorem typed_words_are_clean (s : str) :
  forallb clean_word (Frame.words s) = true.
Proof.
  apply forallb_forall. intros w I. unfold Frame.words in I.
  apply in_map_iff in I. destruct I as (t & <- & I).
  apply filter_In in I. destruct I as [I NE].
  unfold clean_word.
  pose proof (strip_head t) as H. pose proof (strip_last t) as L.
  assert (C : existsb (N.eqb 44) (strip t) = false).
  { apply existsb_false_iff. intros c Ic. apply In_strip in Ic.
    pose proof (split_no_sep 44 s t I) as X.
    rewrite existsb_false_iff in X. apply X, Ic. }
  rewrite C. destruct (strip t) as [| c r]; [discriminate |].
  rewrite H. cbn [negb andb].
  destruct (rev (c :: r)); [reflexivity |]. rewrite L. reflexivity.
Qed.

(** Typing clean items separated by commas gives back exactly these items,
    in order: the list post-processing of [_prompt_fields] inverts
    [','.join], which is what [refresh] shows of a stored list. *)
Theorem joined_words_are_read_back (L : list str) :
  forallb clean_word L = true -> Frame.words (join (lit ",") L) = L.
Proof.
  intros H. change (lit ",") with [44]. unfold Frame.words.
  destruct L as [| x L]; [reflexivity |].
  rewrite split_join; [apply clean_kept, H | discriminate |].
  intros w I. apply clean_has_no_comma.
  rewrite forallb_forall in H. apply H, I.
Qed.

Lemma joined_words_are_read_back_witness :
  let L := [lit "09:00"; lit "late night"; lit "18:00"] in
  forallb clean_word L = true
  /\ Frame.words (lit "09:00,late night,18:00") = L.
Proof.
  intros L. split; [reflexivity |].
  exact (joined_words_are_read_back L eq_refl).
Defined.

End Words.

(** ** The Add button *)

Section Adding.

Import sqlite3.
Local Open Scope Z_scope.

Variable int_ : str -> option Z.
Variable lower : str -> str.

Lemma list_fn_eq (name : table_id) (s : Database.t) :
  TableFrame.list_fn name s
  = Database.Return s (PRows (map tuple (rows (get s name)))).
Proof. destruct name; reflexivity. Qed.

Lemma fill_of_rows (name : table_id) (l shown : list (list field)) :
  TableFrame.refresh_rows name l = Some shown ->
  Frame.fill name l = (shown, false).
Proof.
  revert shown. induction l as [| vals l IH]; intros shown E.
  - injection E as <-. reflexivity.
  - cbn [TableFrame.refresh_rows Frame.fill] in *.
    destruct (TableFrame.refresh_row name vals) as [v |]; [| discriminate].
    destruct (TableFrame.refresh_rows name l) as [r |]; [| discriminate].
    injection E as <-. rewrite (IH r eq_refl). reflexivity.
Qed.

Lemma refresh_rows_app (name : table_id) (l : list (list field))
  (x v : list field) (shown : list (list field)) :
  TableFrame.refresh_rows name l = Some shown ->
  TableFrame.refresh_row name x = Some v ->
  TableFrame.refresh_rows name (l ++ [x]) = Some (shown ++ [v]).
Proof.
  revert shown. induction l as [| vals l IH]; intros shown E X.
  - injection E as <-. cbn [app TableFrame.refresh_rows]. rewrite X. reflexivity.
  - cbn [app TableFrame.refresh_rows] in *.
    destruct (TableFrame.refresh_row name vals) as [v0 |]; [| discriminate].
    destruct (TableFrame.refresh_rows name l) as [r |]; [| discriminate].
    injection E as <-. rewrite (IH r eq_refl X). reflexivity.
Qed.

Lemma frame_refresh (name : table_id) (s : Database.t)
  (old shown : list (list field)) :
  TableFrame.refresh name s = Some shown ->
  Frame.refresh name {| Frame.db := s; Frame.tree := old |}
  = ({| Frame.db := s; Frame.tree := shown |}, false).
Proof.
  intros E. rewrite refresh_eq in E. unfold Frame.refresh.
  cbn [Frame.db]. rewrite list_fn_eq, (fill_of_rows _ _ _ E). reflexivity.
Qed.

Lemma ask_all_asked (ask : nat -> option str) (n i : nat) (vs : list str) :
  Frame.ask_all ask i n = Some vs ->
  forall v, In v vs -> exists j, ask j = Some v.
Proof.
  revert i vs. induction n as [| n IH]; intros i vs E v I.
  - injection E as <-. destruct I.
  - cbn [Frame.ask_all] in E. destruct (ask i) as [a |] eqn:A; [| discriminate].
    destruct (Frame.ask_all ask (S i) n) as [r |] eqn:R; [| discriminate].
    injection E as <-. destruct I as [<- | I]; [exists i; exact A |].
    exact (IH (S i) r R v I).
Qed.

Lemma ask_all_four (ask : nat -> option str) (v0 v1 v2 v3 : str) :
  ask 0%nat = Some v0 -> ask 1%nat = Some v1 -> ask 2%nat = Some v2 ->
  ask 3%nat = Some v3 ->
  Frame.ask_all ask 0 4 = Some [v0; v1; v2; v3].
Proof.
  intros A0 A1 A2 A3. cbn [Frame.ask_all]. rewrite A0, A1, A2, A3. reflexivity.
Qed.

(** The create call that [add_fn] makes of the prompted data. *)
Lemma add_fn_invoke (d : Frame.data) (s : Database.t) :
  exists c,
    Frame.add_fn d s = invoke s c /\ creates c <> None
    /\ valid_call c
       = match d with
         | Frame.ChannelData _ _ p f => forallb code_points p && forallb code_points f
         | Frame.SourceData _ _ _ f => forallb code_points f
         | Frame.SiteData _ _ _ => true
         end.
Proof.
  destruct d.
  - exists (Create_channel name url post_times forbidden_words).
    repeat split. discriminate.
  - exists (Create_source channel_id url parse_media forbidden_words).
    repeat split. discriminate.
  - exists (Create_site source_id site_url site_type). repeat split.
    discriminate.
Qed.

Lemma prompted_is_valid (name : table_id) (ask : nat -> option str)
  (d : Frame.data) :
  (forall i v, ask i = Some v -> code_points v = true) ->
  Frame._prompt_fields int_ lower name ask = Frame.Fields d ->
  match d with
  | Frame.ChannelData _ _ p f => forallb code_points p && forallb code_points f
  | Frame.SourceData _ _ _ f => forallb code_points f
  | Frame.SiteData _ _ _ => true
  end = true.
Proof.
  intros A P. unfold Frame._prompt_fields in P. destruct name.
  - destruct (Frame.ask_all ask 0 4) as [vs |] eqn:E; [| discriminate].
    destruct vs as [| v0 [| v1 [| v2 [| v3 [| ? ?]]]]]; try discriminate.
    injection P as <-.
    destruct (ask_all_asked ask 4 0 _ E v2) as [j2 J2];
      [cbn [In]; auto |].
    destruct (ask_all_asked ask 4 0 _ E v3) as [j3 J3];
      [cbn [In]; auto |].
    rewrite (words_code_points v2 (A j2 v2 J2)).
    rewrite (words_code_points v3 (A j3 v3 J3)). reflexivity.
  - destruct (Frame.ask_all ask 0 4) as [vs |] eqn:E; [| discriminate].
    destruct vs as [| v0 [| v1 [| v2 [| v3 [| ? ?]]]]]; try discriminate.
    destruct (int_ v0); [| discriminate]. injection P as <-.
    destruct (ask_all_asked ask 4 0 _ E v3) as [j3 J3];
      [cbn [In]; auto |].
    exact (words_code_points v3 (A j3 v3 J3)).
  - destruct (Frame.ask_all ask 0 3) as [vs |] eqn:E; [| discriminate].
    destruct vs as [| v0 [| v1 [| v2 [| ? ?]]]]; try discriminate.
    destruct (int_ v0); [| discriminate]. injection P as <-. reflexivity.
Qed.

(** A create either returns, or raises and leaves the store as it was. *)
Lemma create_cases (self : Database.t) (c : call) :
  creates c <> None ->
  (exists s', invoke self c = Database.Return s' PNone)
  \/ (exists e, invoke self c = Database.Raise self e).
Proof.
  intros C.
  destruct (invoke_split self c) as [[e R] | [B O]]; [right; exists e; exact R |].
  destruct c; cbn [creates invoke] in *; try contradiction; has_room O.
  - rewrite (create_channel_eq _ _ _ _ _ B O).
    destruct (_ || _); [right | left]; eexists; reflexivity.
  - rewrite (create_source_eq _ _ _ _ _ B O).
    destruct (_ && _); [right | left]; eexists; reflexivity.
  - rewrite (create_site_eq _ _ _ _ B O).
    destruct (negb _); [right; eexists; reflexivity |].
    destruct (_ && _); [right | left]; eexists; reflexivity.
Qed.

(** An Add that does not complete changes nothing: when the handler is
    left by an exception (a number field that is no number, a constraint
    that the new row violates), neither the store nor the rows shown have
    changed.  The store is one whose rows can all be shown, and the
    dialogs answer with strings of code points. *)
Theorem failed_add_changes_nothing (name : table_id) (ask : nat -> option str)
  (f : Frame.frame) :
  displayable (Frame.db f) = true ->
  (forall i v, ask i = Some v -> code_points v = true) ->
  snd (Frame._on_add int_ lower name ask f) = true ->
  fst (Frame._on_add int_ lower name ask f) = f.
Proof.
  intros D A. unfold Frame._on_add.
  destruct (Frame._prompt_fields int_ lower name ask) as [| d |] eqn:P;
    [reflexivity | | reflexivity].
  pose proof (prompted_is_valid name ask d A P) as V.
  destruct (add_fn_invoke d (Frame.db f)) as (c & E & C & VC).
  rewrite <- VC in V. rewrite E.
  destruct (create_cases (Frame.db f) c C) as [[s' R] | [e R]]; rewrite R.
  - pose proof (invoke_displayable (Frame.db f) c D V) as D'.
    rewrite R in D'. cbn [Database.state] in D'.
    destruct (refresh_rows_total name (rows (get s' name))) as (shown & S & _).
    { intros r I. exact (proj1 (displayable_iff s') D' name r I). }
    rewrite <- refresh_eq in S.
    rewrite (frame_refresh name s' (Frame.tree f) shown S).
    cbn [snd]. discriminate.
  - intros _. destruct f. reflexivity.
Qed.

(** A cancelled dialog ends the Add at once: nothing is stored, the rows
    shown stay, and no exception leaves the handler. *)
Theorem cancelled_add_changes_nothing (name : table_id)
  (ask : nat -> option str) (f : Frame.frame) (j : nat) :
  (j < match name with sites => 3 | _ => 4 end)%nat ->
  ask j = None ->
  Frame._on_add int_ lower name ask f = (f, false).
Proof.
  intros J A. unfold Frame._on_add, Frame._prompt_fields.
  assert (N : forall n i, (i <= j < i + n)%nat -> Frame.ask_all ask i n = None).
  { induction n as [| n IH]; intros i B; [lia |].
    cbn [Frame.ask_all]. destruct (Nat.eq_dec i j) as [-> | NE].
    - rewrite A. reflexivity.
    - destruct (ask i); [| reflexivity]. rewrite IH by lia. reflexivity. }
  destruct name; rewrite N by lia; reflexivity.
Qed.

(** Adding a channel end to end: the four dialogs answered, with a name
    and a url that can be bound and that no channel holds yet, in a table
    that has a key left to give, the handler stores the channel under the
    next key, with the two lists split at the commas, and the view then
    shows the rows it showed before followed by the new one, its lists
    joined by commas again. *)
Theorem added_channel_is_shown (ask : nat -> option str) (f : Frame.frame)
  (n u p w : str) :
  ask 0%nat = Some n -> ask 1%nat = Some u -> ask 2%nat = Some p ->
  ask 3%nat = Some w ->
  code_points p = true -> code_points w = true ->
  utf8 n = true -> utf8 u = true ->
  room (Frame.db f) channels = true ->
  holds (Frame.db f) channels "name" (Text n) = false ->
  holds (Frame.db f) channels "url" (Text u) = false ->
  displayable (Frame.db f) = true ->
  exists shown,
    TableFrame.refresh channels (Frame.db f) = Some shown
    /\ Frame._on_add int_ lower channels ask f
       = ({| Frame.db :=
               appended (Frame.db f) channels
                 (fun rid => channel_row rid n u (Frame.words p) (Frame.words w));
             Frame.tree :=
               shown
               ++ [[FInt (next_rowid (Database.schema channels)
                                     (tbl_channels (Frame.db f)));
                    FStr n; FStr u;
                    FStr (join (lit ",") (map merge_surrogates (Frame.words p)));
                    FStr (join (lit ",") (map merge_surrogates (Frame.words w)))]] |},
          false).
Proof.
  intros A0 A1 A2 A3 P W Un Uu R H1 H2 D.
  assert (B : bindable (Create_channel n u (Frame.words p) (Frame.words w)) = true)
    by bindable_intro.
  destruct (refresh_rows_total channels (rows (get (Frame.db f) channels)))
    as (shown & S & _).
  { intros r I. exact (proj1 (displayable_iff _) D channels r I). }
  exists shown. rewrite refresh_eq. split; [exact S |].
  unfold Frame._on_add, Frame._prompt_fields.
  rewrite (ask_all_four ask n u p w A0 A1 A2 A3). cbn [Frame.add_fn].
  rewrite (create_channel_eq _ _ _ _ _ B R), H1, H2. cbn [orb].
  apply frame_refresh. rewrite refresh_eq. unfold appended.
  rewrite get_set_same. cbn [rows]. rewrite map_app. cbn [map].
  apply refresh_rows_app; [exact S |].
  apply channel_fields_shown; apply words_code_points; assumption.
Qed.

End Adding.

Lemma failed_add_changes_nothing_witness :
  let ask i := nth_error [lit "one"; lit "https://s"; lit "yes"; lit "a, b"] i in
  let f := {| Frame.db := chain; Frame.tree := [] |} in
  let on_add := Frame._on_add (fun _ => None) (fun s => s) sources ask f in
  displayable chain = true
  /\ snd on_add = true
  /\ fst on_add = f.
Proof.
  intros ask f on_add. split; [reflexivity |]. split; [reflexivity |].
  apply (failed_add_changes_nothing (fun _ => None) (fun s => s) sources ask f
           eq_refl); [| reflexivity].
  intros i v E. unfold ask in E.
  destruct i as [| [| [| [| i]]]]; cbn [nth_error] in E;
    try (injection E as <-; reflexivity).
  destruct i; discriminate.
Defined.

Lemma cancelled_add_changes_nothing_witness :
  let ask i := nth_error [lit "1"; lit "https://s"] i in
  let f := {| Frame.db := chain; Frame.tree := [] |} in
  Frame._on_add (fun _ => Some 1%Z) (fun s => s) sites ask f = (f, false).
Proof.
  intros ask f.
  apply (cancelled_add_changes_nothing (fun _ => Some 1%Z) (fun s => s) sites
           ask f 2); [cbn; lia | reflexivity].
Defined.

Lemma added_channel_is_shown_witness :
  let ask i :=
    nth_error [lit "b"; lit "https://b"; lit " 07:30 ,, 21:00"; lit ""] i in
  let f := {| Frame.db := chain; Frame.tree := [] |} in
  exists shown,
    TableFrame.refresh channels chain = Some shown
    /\ Frame._on_add (fun _ => None) (fun s => s) channels ask f
       = ({| Frame.db :=
               appended chain channels
                 (fun rid => channel_row rid (lit "b") (lit "https://b")
                               [lit "07:30"; lit "21:00"] []);
             Frame.tree :=
               shown ++ [[FInt 2; FStr (lit "b"); FStr (lit "https://b");
                          FStr (lit "07:30,21:00"); FStr []]] |},
          false).
Proof.
  intros ask f.
  exact (added_channel_is_shown (fun _ => None) (fun s => s) ask f
           (lit "b") (lit "https://b") (lit " 07:30 ,, 21:00") (lit "")
           eq_refl eq_refl eq_refl eq_refl eq_refl eq_refl eq_refl eq_refl
           eq_refl eq_refl eq_refl eq_refl).
Defined.
